(** * Cuckoo sandbox service: report normalisation and task runner

    A shallow embedding of [cuckoo/cuckooresult.py] (the report normaliser and
    the network flow correlator) and of [cuckoo/cuckoo.py] (the sandbox client,
    the submission state machine and the dropped-file extractor), followed by
    the properties established about them.

    Python values are embedded as a small universe of JSON-like values; the
    run-time type errors of the dynamic language are embedded as results in an
    error type, so that "raises" and "returns" are both statements about the
    value of a function. *)

From Stdlib Require Import ZArith List String Ascii Bool Lia Permutation.
From Stdlib Require Import DecimalString.
Import ListNotations.
Local Open Scope string_scope.
Local Open Scope list_scope.

Set Implicit Arguments.
Set Warnings "-register-all".

(* ================================================================= *)
(** ** Python values, exceptions and the error monad *)

(** A parsed JSON document.  Numbers are integers (the reports carry ports,
    counts and identifiers); dictionaries keep their insertion order, as
    Python's do, and are keyed by strings. *)
Inductive value : Type :=
| VNone
| VBool (b : bool)
| VInt (z : Z)
| VStr (s : string)
| VList (l : list value)
| VDict (d : list (string * value)).

Definition dict := list (string * value).

(** The exceptions the two modules raise themselves, and the built-in ones
    the interpreter raises on their behalf. *)
Inductive exn : Type :=
| TypeError
| AttributeError
| KeyError
| IndexError
| ValueError
| UnboundLocalError
| Exception (msg : string)
| RecoverableError (msg : string)
| MissingCuckooReportException
| CuckooProcessingException (msg : string)
| CuckooVMBusyException
| RetryError
| MaxExtractedExceeded.

Inductive result (A : Type) : Type :=
| OK (a : A)
| Raise (e : exn).

Arguments OK {A} a.
Arguments Raise {A} e.

Definition bind {A B} (r : result A) (k : A -> result B) : result B :=
  match r with
  | OK a => k a
  | Raise e => Raise e
  end.

Declare Scope py_scope.
Delimit Scope py_scope with py.
Notation "x <- c ;; k" := (bind c (fun x => k))
  (at level 100, c at next level, right associativity) : py_scope.
Notation "' pat <- c ;; k" := (bind c (fun x => match x with pat => k end))
  (at level 100, pat pattern, c at next level, right associativity) : py_scope.
Local Open Scope py_scope.

(** [for x in l: acc = f(acc, x)], stopping at the first exception. *)
Fixpoint for_each {A S} (l : list A) (f : S -> A -> result S) (s : S) : result S :=
  match l with
  | [] => OK s
  | x :: r => s' <- f s x ;; for_each r f s'
  end.

(** [[f(x) for x in l]]. *)
Fixpoint map_result {A B} (f : A -> result B) (l : list A) : result (list B) :=
  match l with
  | [] => OK []
  | x :: r => y <- f x ;; ys <- map_result f r ;; OK (y :: ys)
  end.

(* ----------------------------------------------------------------- *)
(** *** Dictionaries with string keys *)

Fixpoint dict_get (d : dict) (k : string) : option value :=
  match d with
  | [] => None
  | (k', v) :: r => if String.eqb k' k then Some v else dict_get r k
  end.

(** [d[k] = v]: an existing key keeps its place, a new one goes last. *)
Fixpoint dict_set (d : dict) (k : string) (v : value) : dict :=
  match d with
  | [] => [(k, v)]
  | (k', v') :: r =>
      if String.eqb k' k then (k', v) :: r else (k', v') :: dict_set r k v
  end.

Fixpoint dict_pop (d : dict) (k : string) : dict :=
  match d with
  | [] => []
  | (k', v') :: r => if String.eqb k' k then r else (k', v') :: dict_pop r k
  end.

Definition dict_mem (d : dict) (k : string) : bool :=
  match dict_get d k with Some _ => true | None => false end.

(* ----------------------------------------------------------------- *)
(** *** Equality, truth, and the operations of the data model *)

(** Python's [==] on the embedded values: [True == 1], lists compare
    element-wise, dictionaries compare by size and by the value at each key
    regardless of insertion order. *)
Fixpoint py_eqb (a b : value) {struct a} : bool :=
  match a, b with
  | VNone, VNone => true
  | VBool x, VBool y => Bool.eqb x y
  | VBool x, VInt y => Z.eqb (if x then 1 else 0) y
  | VInt x, VBool y => Z.eqb x (if y then 1 else 0)
  | VInt x, VInt y => Z.eqb x y
  | VStr x, VStr y => String.eqb x y
  | VList l1, VList l2 =>
      (fix go (l1 l2 : list value) : bool :=
         match l1, l2 with
         | [], [] => true
         | x :: xs, y :: ys => py_eqb x y && go xs ys
         | _, _ => false
         end) l1 l2
  | VDict d1, VDict d2 =>
      Nat.eqb (List.length d1) (List.length d2) &&
      (fix go (d : list (string * value)) : bool :=
         match d with
         | [] => true
         | (k, v) :: r =>
             match dict_get d2 k with
             | Some w => py_eqb v w
             | None => false
             end && go r
         end) d1
  | _, _ => false
  end.

(** [bool(v)]. *)
Definition truthy (v : value) : bool :=
  match v with
  | VNone => false
  | VBool b => b
  | VInt z => negb (Z.eqb z 0)
  | VStr s => negb (String.eqb s "")
  | VList l => match l with [] => false | _ => true end
  | VDict d => match d with [] => false | _ => true end
  end.

(** [v.get(k, dflt)]; only dictionaries have a [get]. *)
Definition py_get (v : value) (k : string) (dflt : value) : result value :=
  match v with
  | VDict d => OK (match dict_get d k with Some x => x | None => dflt end)
  | _ => Raise AttributeError
  end.

(** [v[k]] for a string key. *)
Definition py_getitem (v : value) (k : string) : result value :=
  match v with
  | VDict d => match dict_get d k with Some x => OK x | None => Raise KeyError end
  | _ => Raise TypeError
  end.

Fixpoint chars (s : string) : list string :=
  match s with
  | EmptyString => []
  | String c r => String c EmptyString :: chars r
  end.

(** [iter(v)]: lists yield their items, strings their characters,
    dictionaries their keys; nothing else is iterable. *)
Definition py_iter (v : value) : result (list value) :=
  match v with
  | VList l => OK l
  | VStr s => OK (map VStr (chars s))
  | VDict d => OK (map (fun kv => VStr (fst kv)) d)
  | _ => Raise TypeError
  end.

Definition py_len (v : value) : result nat :=
  match v with
  | VList l => OK (List.length l)
  | VStr s => OK (String.length s)
  | VDict d => OK (List.length d)
  | _ => Raise TypeError
  end.

Definition is_substring (needle hay : string) : bool :=
  match String.index 0 needle hay with Some _ => true | None => false end.

(** [x in v]. *)
Definition py_contains (v x : value) : result bool :=
  match v with
  | VList l => OK (existsb (fun e => py_eqb e x) l)
  | VStr s => match x with
              | VStr n => OK (is_substring n s)
              | _ => Raise TypeError
              end
  | VDict d => match x with
               | VStr k => OK (dict_mem d k)
               | VList _ | VDict _ => Raise TypeError
               | _ => OK false
               end
  | _ => Raise TypeError
  end.

(** Lists and dictionaries cannot be dictionary keys. *)
Definition hashable (v : value) : bool :=
  match v with
  | VList _ | VDict _ => false
  | _ => true
  end.

Definition str_of_Z (z : Z) : string := NilZero.string_of_int (Z.to_int z).

Fixpoint spaces (n : nat) : string :=
  match n with
  | O => ""
  | S m => String " " (spaces m)
  end.

(** [s.ljust(w)], which is what the format specification [<w] does to text. *)
Definition ljust (s : string) (w : nat) : string :=
  (s ++ spaces (w - String.length s))%string.

(** ["{:<w}".format(v)]: text and integers are padded, a boolean is printed
    as the integer it is, every other object rejects a format
    specification. *)
Definition py_format_ljust (v : value) (w : nat) : result string :=
  match v with
  | VStr s => OK (ljust s w)
  | VInt z => OK (ljust (str_of_Z z) w)
  | VBool b => OK (ljust (if b then "1" else "0") w)
  | _ => Raise TypeError
  end.

(** ["%d" % v]. *)
Definition py_format_d (v : value) : result string :=
  match v with
  | VInt z => OK (str_of_Z z)
  | VBool b => OK (if b then "1" else "0")
  | _ => Raise TypeError
  end.

(* ----------------------------------------------------------------- *)
(** *** Sorting *)

Fixpoint insert_sorted {A} (leb : A -> A -> bool) (x : A) (l : list A) : list A :=
  match l with
  | [] => [x]
  | y :: r => if leb x y then x :: l else y :: insert_sorted leb x r
  end.

Definition sort_by {A} (leb : A -> A -> bool) (l : list A) : list A :=
  fold_right (insert_sorted leb) [] l.

Definition sort_strings : list string -> list string := sort_by String.leb.

Definition num_of (v : value) : option Z :=
  match v with
  | VInt z => Some z
  | VBool b => Some (if b then 1 else 0)%Z
  | _ => None
  end.

Definition str_of (v : value) : option string :=
  match v with VStr s => Some s | _ => None end.

Definition value_leb (a b : value) : bool :=
  match a, b with
  | VStr x, VStr y => String.leb x y
  | _, _ => match num_of a, num_of b with
            | Some x, Some y => Z.leb x y
            | _, _ => true
            end
  end.

(** [sorted(l)] for dictionary keys: all text, or all numbers; comparing
    anything else (or text with a number) is a [TypeError], unless there is
    nothing to compare. *)
Definition py_sorted (l : list value) : result (list value) :=
  if (List.length l <=? 1)%nat then OK l
  else if forallb (fun v => match str_of v with Some _ => true | None => false end) l
  then OK (sort_by value_leb l)
  else if forallb (fun v => match num_of v with Some _ => true | None => false end) l
  then OK (sort_by value_leb l)
  else Raise TypeError.

(* ----------------------------------------------------------------- *)
(** *** Maps keyed by arbitrary hashable values

    [defaultdict] and plain [dict] objects built by the code itself; the
    insertion order is kept because the code iterates over them. *)

Fixpoint pm_lookup {A} (m : list (value * A)) (k : value) : option A :=
  match m with
  | [] => None
  | (k', a) :: r => if py_eqb k' k then Some a else pm_lookup r k
  end.

Fixpoint pm_set {A} (m : list (value * A)) (k : value) (a : A) : list (value * A) :=
  match m with
  | [] => [(k, a)]
  | (k', a') :: r =>
      if py_eqb k' k then (k', a) :: r else (k', a') :: pm_set r k a
  end.

(** [m.get(k)]. *)
Definition pm_get {A} (m : list (value * A)) (k : value) : result (option A) :=
  if hashable k then OK (pm_lookup m k) else Raise TypeError.

(* ================================================================= *)
(** ** Collaborators outside the two modules

    The similarity hash, the digests, the framework's text sanitiser, the
    regular expressions and the static tables of the sibling modules
    [cuckoo.clsids], [cuckoo.whitelist] and [cuckoo.signatures] are used
    through their interfaces only. *)

Class Externals : Type := {
  (** [assemblyline.common.str_utils.safe_str] *)
  safe_str : value -> string;
  (** [str] of a list or of a dictionary *)
  repr_container : value -> string;
  (** [json.dumps] *)
  json_dumps : value -> string;
  (** [ssdeep.hash] and [ssdeep.compare]; the latter is a score, 0 to 100,
      larger for more similar inputs *)
  ssdeep_hash : string -> string;
  ssdeep_compare : string -> string -> Z;
  (** [hashlib] digests, as hexadecimal text *)
  sha1_hex : string -> string;
  sha256_hex : string -> string;
  md5_hex : string -> string;
  (** [clsids.get]: the static CLSID name table *)
  clsids : string -> option string;
  (** [cuckoo.whitelist] *)
  wlist_check_ip : value -> bool;
  wlist_check_domain : value -> bool;
  wlist_check_hash : string -> bool;
  wlist_check_dropped : string -> bool;
  (** [cuckoo.signatures.check_signature]: the heuristic identifier of a
      signature name, 3 when the name is unknown *)
  check_signature : value -> Z;
  (** [UUID_RE.findall], [USER_SID_RE.sub] and [DROIDMON_CONN_RE.match]
      (groups 1 to 6) *)
  uuid_findall : string -> list string;
  user_sid_sub : string -> string;
  droidmon_conn_match :
    string -> option (string * string * string * option string * string * string);
  (** [Classification.max_classification(UNRESTRICTED, c)]; [None] stands
      for [InvalidClassification] *)
  max_classification : string -> option string;
  (** [datetime.fromtimestamp(int(t)).strftime(...)], failing as [int] does *)
  format_timestamp : value -> option string
}.

(** [str(v)]. *)
Definition py_str `{Externals} (v : value) : string :=
  match v with
  | VNone => "None"
  | VBool b => if b then "True" else "False"
  | VInt z => str_of_Z z
  | VStr s => s
  | _ => repr_container v
  end.

(* ================================================================= *)
(** ** The framework's result sections

    [ResultSection] and [Result] of the host framework, reduced to what the
    normaliser writes into them: a section's body is the list of the lines
    added to it. *)

Inductive BODY_FORMAT : Type := TEXT | MEMORY_DUMP | KEY_VALUE | JSON.

Inductive ResultSection : Type := mkSection {
  title_text : string;
  classification : string;
  body_format : BODY_FORMAT;
  body : list string;
  heuristic : option Z;
  tags : list (string * value);
  subsections : list ResultSection
}.

Definition new_section (title cls : string) (fmt : BODY_FORMAT) (b : list string)
  : ResultSection :=
  mkSection title cls fmt b None [] [].

Definition add_line (sec : ResultSection) (ln : string) : ResultSection :=
  mkSection (title_text sec) (classification sec) (body_format sec)
            (body sec ++ [ln]) (heuristic sec) (tags sec) (subsections sec).

Definition add_tag (sec : ResultSection) (ty : string) (v : value) : ResultSection :=
  mkSection (title_text sec) (classification sec) (body_format sec)
            (body sec) (heuristic sec) (tags sec ++ [(ty, v)]) (subsections sec).

Definition set_heuristic (sec : ResultSection) (h : Z) : ResultSection :=
  mkSection (title_text sec) (classification sec) (body_format sec)
            (body sec) (Some h) (tags sec) (subsections sec).

Definition add_subsection (sec sub : ResultSection) : ResultSection :=
  mkSection (title_text sec) (classification sec) (body_format sec)
            (body sec) (heuristic sec) (tags sec) (subsections sec ++ [sub]).

(** The text of a body is its lines joined by newlines; it is empty exactly
    when every line is. *)
Definition body_nonempty (sec : ResultSection) : bool :=
  existsb (fun ln => negb (String.eqb ln "")) (body sec).

(** [Result]: the ordered list of top-level sections. *)
Definition Result := list ResultSection.

Definition add_section (r : Result) (sec : ResultSection) : Result := r ++ [sec].

Definition titles (r : Result) : list string := map title_text r.

(* ----------------------------------------------------------------- *)
(** *** Maps keyed by strings, built by the code *)

Fixpoint sm_get {A} (m : list (string * A)) (k : string) : option A :=
  match m with
  | [] => None
  | (k', a) :: r => if String.eqb k' k then Some a else sm_get r k
  end.

Fixpoint sm_set {A} (m : list (string * A)) (k : string) (a : A) : list (string * A) :=
  match m with
  | [] => [(k, a)]
  | (k', a') :: r =>
      if String.eqb k' k then (k', a) :: r else (k', a') :: sm_set r k a
  end.

(* ================================================================= *)
(** ** [cuckooresult.py]: the network flow correlator *)

Section NetworkFlowCorrelator.
Context `{Externals}.

(** A [defaultdict(list)] from a group (host, address, domain) to its
    flow records. *)
Definition pmap := list (value * list dict).

(** [flow_data[field] = flow.get(field)] for each field. *)
Fixpoint build_flow_data (flow : value) (group_fields : list string) (flow_data : dict)
  : result dict :=
  match group_fields with
  | [] => OK flow_data
  | field :: r =>
      v <- py_get flow field VNone ;;
      build_flow_data flow r (dict_set flow_data field v)
  end.

(** [flow in flows], by [==] on the records. *)
Definition dict_in_list (flow : dict) (flows : list dict) : bool :=
  existsb (fun e => py_eqb (VDict e) (VDict flow)) flows.

(** One turn of the loop of [parse_protocol_data].  Subscripting the
    [defaultdict] creates the group; a group is therefore never left empty,
    since the record that created it is not yet in it. *)
Definition parse_protocol_step (group_by : string) (group_fields : list string)
  (protocol_data : pmap) (flow : value) : result pmap :=
  group <- py_get flow group_by VNone ;;
  flow_data <- build_flow_data flow group_fields [] ;;
  if hashable group then
    let cur := match pm_lookup protocol_data group with Some l => l | None => [] end in
    if dict_in_list flow_data cur then OK protocol_data
    else OK (pm_set protocol_data group (cur ++ [flow_data]))
  else Raise TypeError.

Definition parse_protocol_data (flow_data : value) (group_by : string)
  (group_fields : list string) : result pmap :=
  flows <- py_iter flow_data ;;
  for_each flows (parse_protocol_step group_by group_fields) [].

(** The body of the first inner loop of [_add_ex_data]: rebuild the full URI
    and rename [dport] to [port]. *)
Definition rewrite_ex_flow (protocol : string) (port : Z) (host : value) (flow : dict)
  : result dict :=
  dport <- py_getitem (VDict flow) "dport" ;;
  uri <- py_getitem (VDict flow) "uri" ;;
  full_uri <-
    (if py_eqb dport (VInt port)
     then OK (protocol ++ "://" ++ py_str host ++ py_str uri)%string
     else d <- py_format_d dport ;;
          OK (protocol ++ "://" ++ py_str host ++ ":" ++ d ++ py_str uri)%string) ;;
  let flow1 := dict_set flow "uri" (VStr full_uri) in
  let flow2 := dict_set flow1 "port" dport in
  OK (dict_pop flow2 "dport").

(** The second inner loop: append each extended record not yet present. *)
Definition merge_ex_flows (cur ex : list dict) : list dict :=
  fold_left (fun acc flow => if dict_in_list flow acc then acc else acc ++ [flow]) ex cur.

Definition add_ex_host (protocol : string) (port : Z) (proto_data : pmap)
  (entry : value * list dict) : result pmap :=
  let (host, flows) := entry in
  flows' <- map_result (rewrite_ex_flow protocol port host) flows ;;
  match pm_lookup proto_data host with
  | Some cur => OK (pm_set proto_data host (merge_ex_flows cur flows'))
  | None => OK (pm_set proto_data host flows')
  end.

Definition _add_ex_data (proto_data proto_ex_data : pmap) (protocol : string) (port : Z)
  : result pmap :=
  for_each proto_ex_data (add_ex_host protocol port) proto_data.

(** [dict_list_to_fixedwidth_str_list]: first the column widths, then one
    line per dictionary with its keys in sorted order. *)
Definition fixedwidth_measure
  (st : list (string * nat) * list (string * (nat * nat))) (in_dict : value)
  : result (list (string * nat) * list (string * (nat * nat))) :=
  match in_dict with
  | VDict d =>
      OK (fold_left
            (fun (acc : list (string * nat) * list (string * (nat * nat)))
                 (kv : string * value) =>
               let (max_lens, lens) := acc in
               let (k, v) := kv in
               let k_len := String.length k in
               let v_len := String.length (py_str v) in
               let m := Nat.max (match sm_get max_lens k with Some n => n | None => 0%nat end)
                                (v_len + 4) in
               (sm_set max_lens k m, sm_set lens k (k_len, m)))
            d st)
  | _ => Raise AttributeError
  end.

Definition fixedwidth_line (print_keys : bool) (lens : list (string * (nat * nat)))
  (in_dict : value) : result string :=
  match in_dict with
  | VDict d =>
      for_each (sort_strings (map fst d))
        (fun output k =>
           match sm_get lens k, dict_get d k with
           | Some (k_len, w), Some v =>
               cell <- py_format_ljust v w ;;
               if print_keys
               then OK (output ++ ljust k k_len ++ ": " ++ cell)%string
               else OK (output ++ cell)%string
           | _, _ => Raise KeyError
           end)
        ""
  | _ => Raise AttributeError
  end.

Definition dict_list_to_fixedwidth_str_list (dict_list : list value) (print_keys : bool)
  : result (list string) :=
  '(_, lens) <- for_each dict_list fixedwidth_measure ([], []) ;;
  map_result (fixedwidth_line print_keys lens) dict_list.

(** [host -> protocol -> flows], the two entries of [result_map]. *)
Definition protomap := list (string * list dict).
Definition flowmap := list (value * protomap).

Record result_map_t : Type := mkResultMap {
  host_flows : option flowmap;
  domain_flows : option flowmap
}.

Definition add_flows (key : value) (protocol : string) (flows : list dict)
  (fm : option flowmap) : flowmap :=
  let m := match fm with Some m => m | None => [] end in
  let protocols := match pm_lookup m key with Some p => p | None => [] end in
  pm_set m key (sm_set protocols protocol flows).

Definition add_host_flows (host : value) (protocol : string) (flows : option (list dict))
  (result_map : result_map_t) : result_map_t :=
  match flows with
  | None => result_map
  | Some fl =>
      mkResultMap (Some (add_flows host protocol fl (host_flows result_map)))
                  (domain_flows result_map)
  end.

Definition add_domain_flows (domain : value) (protocol : string)
  (flows : option (list dict)) (result_map : result_map_t) : result_map_t :=
  match flows with
  | None => result_map
  | Some fl =>
      mkResultMap (host_flows result_map)
                  (Some (add_flows domain protocol fl (domain_flows result_map)))
  end.

Definition is_ip_char (c : ascii) : bool :=
  let n := nat_of_ascii c in
  ((48 <=? n) && (n <=? 57) || (n =? 46))%nat.

Fixpoint all_ip_chars (s : string) : bool :=
  match s with
  | EmptyString => true
  | String c r =>
      match r with
      | String "010"%char EmptyString => is_ip_char c
      | _ => is_ip_char c && all_ip_chars r
      end
  end.

(** [re.match(r"^[0-9.]+$", hst)]; [$] also matches before a final
    newline, and only text can be matched. *)
Definition re_match_ip (hst : value) : result bool :=
  match hst with
  | VStr s => OK (match s with
                  | EmptyString => false
                  | _ => all_ip_chars s
                  end)
  | _ => Raise TypeError
  end.

(** [hosts.append(hst)]. *)
Definition py_append (hosts hst : value) : result value :=
  match hosts with
  | VList l => OK (VList (l ++ [hst]))
  | _ => Raise AttributeError
  end.

(** [hosts[0]]. *)
Definition py_index0 (v : value) : result value :=
  match v with
  | VList (x :: _) => OK x
  | VList [] => Raise IndexError
  | VStr (String c _) => OK (VStr (String c EmptyString))
  | VStr EmptyString => Raise IndexError
  | VDict _ => Raise KeyError
  | _ => Raise TypeError
  end.

Definition is_dict (v : value) : bool :=
  match v with VDict _ => true | _ => false end.

Definition add_missing_host (hosts hst : value) : result value :=
  present <- py_contains hosts hst ;;
  if present then OK hosts
  else m <- re_match_ip hst ;;
       if m then py_append hosts hst else OK hosts.

Definition add_missing_hosts (hosts : value) (proto : pmap) : result value :=
  for_each (map fst proto) add_missing_host hosts.

(** The six [add_host_flows] calls made for one host of the host list. *)
Definition collect_host_flows (guest_ip : value) (udp tcp smtp icmp http https : pmap)
  (result_map : result_map_t) (host : value) : result result_map_t :=
  if py_eqb host guest_ip || wlist_check_ip host then OK result_map
  else
    f_udp <- pm_get udp host ;;
    let result_map := add_host_flows host "udp" f_udp result_map in
    f_tcp <- pm_get tcp host ;;
    let result_map := add_host_flows host "tcp" f_tcp result_map in
    f_smtp <- pm_get smtp host ;;
    let result_map := add_host_flows host "smtp" f_smtp result_map in
    f_icmp <- pm_get icmp host ;;
    let result_map := add_host_flows host "icmp" f_icmp result_map in
    f_http <- pm_get http host ;;
    let result_map := add_host_flows host "http" f_http result_map in
    f_https <- pm_get https host ;;
    OK (add_host_flows host "https" f_https result_map).

(** Hosts without any parsed flow are still reported, with no flows. *)
Definition add_bare_host (guest_ip : value) (m : flowmap) (host : value) : result flowmap :=
  if py_eqb host guest_ip || wlist_check_ip host then OK m
  else if hashable host then OK (pm_set m host []) else Raise TypeError.

(** The three [add_domain_flows] calls made for one domain. *)
Definition collect_domain_flows (dns http https : pmap) (result_map : result_map_t)
  (domain : value) : result result_map_t :=
  if wlist_check_domain domain then OK result_map
  else
    f_dns <- pm_get dns domain ;;
    let result_map := add_domain_flows domain "dns" f_dns result_map in
    f_http <- pm_get http domain ;;
    let result_map := add_domain_flows domain "http" f_http result_map in
    f_https <- pm_get https domain ;;
    OK (add_domain_flows domain "https" f_https result_map).

(** [network.uri] tags for the flows of an HTTP-family protocol. *)
Definition tag_uris (network_res : ResultSection) (flows : list dict) : ResultSection :=
  fold_left
    (fun sec flow =>
       match dict_get flow "uri" with
       | Some uri => if truthy uri then add_tag sec "network.uri" uri else sec
       | None => sec
       end)
    flows network_res.

(** The rendering of one protocol of one host in the IP flow table. *)
Definition render_host_protocol (host : value) (protocols : protomap)
  (st : ResultSection * list string) (protocol : string)
  : result (ResultSection * list string) :=
  let (network_res, host_lines) := st in
  match sm_get protocols protocol with
  | None => Raise KeyError
  | Some flows =>
      let network_res :=
        if is_substring "http" protocol then tag_uris network_res flows else network_res in
      flow_lines <- dict_list_to_fixedwidth_str_list (map VDict flows) true ;;
      host_lines <-
        for_each flow_lines
          (fun acc line =>
             h <- py_format_ljust host 19 ;;
             OK (acc ++ [(ljust protocol 8 ++ h ++ ljust "(??)" 8 ++ line)%string]))
          host_lines ;;
      OK (network_res, host_lines)
  end.

Definition render_host (m : flowmap) (st : ResultSection * list string) (host : value)
  : result (ResultSection * list string) :=
  let (network_res, host_lines) := st in
  let protocols := match pm_lookup m host with Some p => p | None => [] end in
  let network_res := add_tag network_res "network.ip" host in
  for_each (sort_strings (map fst protocols)) (render_host_protocol host protocols)
           (network_res, host_lines).

(** The last DNS flow with answers decides the lines of a DNS group. *)
Definition dns_flow_lines (flow_lines : option (list string)) (flow : dict)
  : result (option (list string)) :=
  match dict_get flow "answers" with
  | Some answers =>
      if truthy answers
      then items <- py_iter answers ;;
           ls <- dict_list_to_fixedwidth_str_list items true ;;
           OK (Some ls)
      else OK flow_lines
  | None => OK flow_lines
  end.

(** The rendering of one protocol of one domain in the domain flow table.
    [flow_lines] starts as [None] and is iterated whatever happened to it. *)
Definition render_domain_protocol (max_domain_len : nat) (domain : value)
  (protocols : protomap) (st : ResultSection * list string) (protocol : string)
  : result (ResultSection * list string) :=
  let (network_res, domain_lines) := st in
  match sm_get protocols protocol with
  | None => Raise KeyError
  | Some flows =>
      let flow_lines : option (list string) := None in
      '(network_res, flow_lines) <-
        (if is_substring "http" protocol
         then ls <- dict_list_to_fixedwidth_str_list (map VDict flows) true ;;
              OK (tag_uris network_res flows, Some ls)
         else OK (network_res, flow_lines)) ;;
      flow_lines <-
        (if is_substring "dns" protocol
         then for_each flows dns_flow_lines flow_lines
         else OK flow_lines) ;;
      match flow_lines with
      | None => Raise TypeError
      | Some ls =>
          domain_lines <-
            for_each ls
              (fun acc line =>
                 d <- py_format_ljust domain max_domain_len ;;
                 OK (acc ++ [(ljust protocol 8 ++ d ++ line)%string]))
              domain_lines ;;
          OK (network_res, domain_lines)
      end
  end.

Definition render_domain (max_domain_len : nat) (m : flowmap)
  (st : ResultSection * list string) (domain : value)
  : result (ResultSection * list string) :=
  let (network_res, domain_lines) := st in
  match pm_lookup m domain with
  | None => Raise KeyError
  | Some protocols =>
      let network_res := add_tag network_res "network.domain" domain in
      for_each (sort_strings (map fst protocols))
               (render_domain_protocol max_domain_len domain protocols)
               (network_res, domain_lines)
  end.

Definition process_network (network : value) (al_result : Result) (guest_ip : value)
  (classification : string) : result Result :=
  let result_map := mkResultMap None None in
  let network_res := new_section "Network Activity" classification MEMORY_DUMP [] in
  (* IP activity *)
  hosts <- py_get network "hosts" (VList []) ;;
  n <- py_len hosts ;;
  hosts <-
    (if (0 <? n)%nat
     then h0 <- py_index0 hosts ;;
          if is_dict h0
          then hs <- py_iter hosts ;;
               ips <- map_result (fun host => py_getitem host "ip") hs ;;
               OK (VList ips)
          else OK hosts
     else OK hosts) ;;
  v <- py_get network "udp" (VList []) ;;
  udp <- parse_protocol_data v "dst" ["dport"] ;;
  v <- py_get network "tcp" (VList []) ;;
  tcp <- parse_protocol_data v "dst" ["dport"] ;;
  v <- py_get network "smtp" (VList []) ;;
  smtp <- parse_protocol_data v "dst" ["raw"] ;;
  v <- py_get network "dns" (VList []) ;;
  dns <- parse_protocol_data v "request" ["answers"] ;;
  v <- py_get network "icmp" (VList []) ;;
  icmp <- parse_protocol_data v "dst" ["type"] ;;
  (* Domain activity *)
  v <- py_get network "domains" (VList []) ;;
  domains <- parse_protocol_data v "domain" [] ;;
  v <- py_get network "http" (VList []) ;;
  http <- parse_protocol_data v "host" ["port"; "uri"; "method"] ;;
  v <- py_get network "http_ex" (VList []) ;;
  http_ex <- parse_protocol_data v "host" ["dport"; "uri"; "method"] ;;
  http <- _add_ex_data http http_ex "http" 80 ;;
  v <- py_get network "https" (VList []) ;;
  https <- parse_protocol_data v "host" ["port"; "uri"; "method"] ;;
  v <- py_get network "https_ex" (VList []) ;;
  https_ex <- parse_protocol_data v "host" ["dport"; "uri"; "method"] ;;
  https <- _add_ex_data https https_ex "https" 443 ;;
  (* Add missing ip hosts *)
  hosts <- for_each [udp; tcp; http; https; icmp; smtp] add_missing_hosts hosts ;;
  host_list <- py_iter hosts ;;
  result_map <-
    for_each host_list (collect_host_flows guest_ip udp tcp smtp icmp http https)
             result_map ;;
  result_map <-
    (match host_flows result_map with
     | None =>
         if negb (py_eqb hosts (VList []))
         then m <- for_each host_list (add_bare_host guest_ip) [] ;;
              OK (mkResultMap (Some m) (domain_flows result_map))
         else OK result_map
     | Some _ => OK result_map
     end) ;;
  result_map <-
    for_each (map fst domains) (collect_domain_flows dns http https) result_map ;;
  network_res <-
    (match host_flows result_map with
     | None => OK network_res
     | Some m =>
         keys <- py_sorted (map fst m) ;;
         '(network_res, host_lines) <- for_each keys (render_host m) (network_res, []) ;;
         let hosts_res := new_section "IP Flows" classification TEXT host_lines in
         let hosts_res := set_heuristic hosts_res 1001 in
         OK (add_subsection network_res hosts_res)
     end) ;;
  network_res <-
    (match domain_flows result_map with
     | None => OK network_res
     | Some m =>
         max_domain_len <-
           for_each (map fst m)
             (fun acc domain => n <- py_len domain ;; OK (Nat.max acc (n + 4)))
             0%nat ;;
         keys <- py_sorted (map fst m) ;;
         '(network_res, domain_lines) <-
           for_each keys (render_domain max_domain_len m) (network_res, []) ;;
         let domains_res := new_section "Domain Flows" classification TEXT domain_lines in
         let domains_res := set_heuristic domains_res 1000 in
         OK (add_subsection network_res domains_res)
     end) ;;
  OK (add_section al_result network_res).

End NetworkFlowCorrelator.

(* ================================================================= *)
(** ** [cuckooresult.py]: the report normaliser *)

(** The part of the framework's [ServiceRequest] the normaliser touches: the
    working directory and the files offered for extraction.  The framework
    refuses a file, with [MaxExtractedExceeded], once its budget is spent. *)
Record ServiceRequest : Type := mkRequest {
  working_directory : string;
  extracted : list (string * string * string);
  max_extracted : nat
}.

Definition add_extracted (req : ServiceRequest) (path name description : string)
  : result ServiceRequest :=
  if (List.length (extracted req) <? max_extracted req)%nat
  then OK (mkRequest (working_directory req)
                     (extracted req ++ [(path, name, description)])
                     (max_extracted req))
  else Raise MaxExtractedExceeded.

Definition path_join (dir name : string) : string := (dir ++ "/" ++ name)%string.

Definition upper_char (c : ascii) : ascii :=
  let n := nat_of_ascii c in
  if ((97 <=? n) && (n <=? 122))%nat then ascii_of_nat (n - 32) else c.

Fixpoint upper (s : string) : string :=
  match s with
  | EmptyString => EmptyString
  | String c r => String (upper_char c) (upper r)
  end.

(** The distinct members of a list, in order of first occurrence. *)
Fixpoint distinct (l : list string) : list string :=
  match l with
  | [] => []
  | x :: r => x :: filter (fun y => negb (String.eqb x y)) (distinct r)
  end.

Definition tab : string := String "009"%char EmptyString.

(** [l[:n]]. *)
Definition py_slice_to (v : value) (n : nat) : result value :=
  match v with
  | VList l => OK (VList (firstn n l))
  | VStr s => OK (VStr (String.substring 0 n s))
  | _ => Raise TypeError
  end.

Section ReportNormalizer.
Context `{Externals}.

(** [result_map] of [process_behavior]: resolved CLSIDs by name, and the
    registry keys seen. *)
Record behavior_map : Type := mkBehaviorMap {
  bm_clsids : option (list (string * string));
  bm_regkeys : option (list string)
}.

(** [process_clsid].  The set of matches is walked in order of first
    occurrence. *)
Definition process_clsid (key : value) (result_map : behavior_map) : behavior_map :=
  let clsid_map := match bm_clsids result_map with Some m => m | None => [] end in
  let clsid_map :=
    fold_left
      (fun m uuid =>
         let uuid := upper uuid in
         match clsids uuid with
         | Some name => if negb (String.eqb name "") then sm_set m name uuid else m
         | None => m
         end)
      (distinct (uuid_findall (safe_str key))) clsid_map in
  mkBehaviorMap (Some clsid_map) (bm_regkeys result_map).

(** [process_key]; the substitution needs text. *)
Definition process_key (result_map : behavior_map) (key : value) : result behavior_map :=
  let keys := match bm_regkeys result_map with Some l => l | None => [] end in
  match key with
  | VStr s =>
      let key := user_sid_sub s in
      let keys := keys ++ [key; key] in
      let result_map := process_clsid (VStr key) result_map in
      OK (mkBehaviorMap (bm_clsids result_map) (Some keys))
  | _ => Raise TypeError
  end.

Definition process_com_arg (result_map : behavior_map) (arg : value) : result behavior_map :=
  match arg with
  | VDict _ =>
      name <- py_get arg "name" VNone ;;
      if py_eqb name (VStr "ClsId")
      then v <- py_get arg "value" VNone ;; OK (process_clsid v result_map)
      else OK result_map
  | VStr _ => OK (process_clsid arg result_map)
  | _ => OK result_map
  end.

Definition process_com (args : value) (result_map : behavior_map) : result behavior_map :=
  has <- py_contains args (VStr "clsid") ;;
  if has
  then v <- py_get args "clsid" VNone ;; OK (process_clsid v result_map)
  else items <- py_iter args ;; for_each items process_com_arg result_map.

(** [behavior.get("summary", {}).get(name, [])]. *)
Definition summary_get (behavior : value) (name : string) : result value :=
  summary <- py_get behavior "summary" (VDict []) ;;
  py_get summary name (VList []).

Definition process_call (result_map : behavior_map) (call : value) : result behavior_map :=
  api <- py_get call "api" VNone ;;
  is_com <- py_contains api (VStr "CoCreateInstance") ;;
  if is_com
  then args <- py_get call "arguments" VNone ;; process_com args result_map
  else OK result_map.

Definition process_process (result_map : behavior_map) (process : value)
  : result behavior_map :=
  calls <- py_get process "calls" VNone ;;
  calls <- py_iter calls ;;
  for_each calls process_call result_map.

Definition result_limit : nat := 25.

(** [result_queries]: summary key, title, item limit, tag type. *)
Definition result_queries : list (string * string * option nat * option string) :=
  [ ("directory_created", "Directories Created", Some result_limit, None);
    ("directory_removed", "Directories Deleted", Some result_limit, None);
    ("dll_loaded", "Modules Loaded", Some result_limit, None);
    ("file_deleted", "Files Deleted", Some result_limit, None);
    ("file_exists", "Check File: Exists", Some result_limit, None);
    ("file_failed", "Check File: Failed", Some result_limit, None);
    ("regkey_written", "Registry Keys Written", Some result_limit, None);
    ("command_line", "Commands", None, None);
    ("downloads_file", "Files Downloads", None, None);
    ("file_written", "Files Written", None, Some "file.path");
    ("wmi_query", "WMI Queries", None, None);
    ("mutex", "Mutexes", None, Some "dynamic.mutex") ].

(** The dump of one command line as an extracted file; a spent budget is
    logged and otherwise ignored. *)
Definition dump_command_line (al_request : ServiceRequest) (raw_ln : value)
  : result ServiceRequest :=
  match raw_ln with
  | VStr s =>
      let cli_hash := sha256_hex s in
      let temp_filepath :=
        path_join (working_directory al_request)
                  ("command_" ++ String.substring 0 10 cli_hash)%string in
      match add_extracted al_request temp_filepath "command_line_dump.txt"
                          "Extracted command_line from Cuckoo" with
      | OK r => OK r
      | Raise MaxExtractedExceeded => OK al_request
      | Raise e => Raise e
      end
  | _ => Raise AttributeError
  end.

(** The state threaded through the loop over [result_queries]: the result,
    the request, and [res_sec], the section created last, kept as its
    position in the result since it is updated after it was added. *)
Definition query_state := (Result * ServiceRequest * option nat)%type.

Definition process_query (behavior : value) (classification : string)
  (st : query_state) (q : string * string * option nat * option string)
  : result query_state :=
  let '(al_result, al_request, res_sec) := st in
  let '(q_name, title, limit, tag_type) := q in
  q_res <- summary_get behavior q_name ;;
  if truthy q_res then
    '(q_res, title) <-
      (match limit with
       | Some n => r <- py_slice_to q_res n ;;
                   OK (r, (title ++ " (Limit " ++ str_of_Z (Z.of_nat n) ++ ")")%string)
       | None => OK (q_res, title)
       end) ;;
    items <- py_iter q_res ;;
    let sec :=
      fold_left
        (fun sec item =>
           let ln := safe_str item in
           let sec := add_line sec ln in
           match tag_type with
           | Some ty => add_tag sec ty (VStr ln)
           | None => sec
           end)
        items (new_section title classification TEXT []) in
    al_request <-
      (if String.eqb q_name "command_line"
       then for_each items dump_command_line al_request
       else OK al_request) ;;
    OK (add_section al_result sec, al_request, Some (List.length al_result))
  else OK st.

(** [res_sec.add_tag(...)] on a section that sits in the result; there may
    be no such section. *)
Definition tag_res_sec (al_result : Result) (res_sec : option nat) (ty : string)
  (v : value) : result Result :=
  match res_sec with
  | None => Raise AttributeError
  | Some i =>
      OK (firstn i al_result ++
          match nth_error al_result i with
          | Some sec => [add_tag sec ty v]
          | None => []
          end ++ skipn (S i) al_result)
  end.

Definition process_behavior (behavior : value) (al_result : Result)
  (al_request : ServiceRequest) (classification : string)
  : result (bool * Result * ServiceRequest) :=
  let executed := true in
  let result_map := mkBehaviorMap None None in
  (* Spender *)
  keys <- summary_get behavior "keys" ;;
  keys <- py_iter keys ;;
  result_map <- for_each keys process_key result_map ;;
  (* Cuckoobox *)
  keys <- summary_get behavior "regkey_opened" ;;
  keys <- py_iter keys ;;
  result_map <- for_each keys process_key result_map ;;
  _processtree <- py_get behavior "processtree" VNone ;;
  processes <- py_get behavior "processes" VNone ;;
  processes <- py_iter processes ;;
  result_map <- for_each processes process_process result_map ;;
  guids <- summary_get behavior "guid" ;;
  '(al_result, al_request, res_sec) <-
    for_each result_queries (process_query behavior classification)
             (al_result, al_request, None) ;;
  n_guids <- py_len guids ;;
  result_map <-
    (if (0 <? n_guids)%nat then process_com guids result_map else OK result_map) ;;
  '(executed, al_result) <-
    (match bm_clsids result_map with
     | Some ((_ :: _) as clsid_map) =>
         let sorted_clsids :=
           sort_strings (map (fun nu => safe_str (VStr (snd nu))) clsid_map) in
         let ssdeep_clsid_hash := ssdeep_hash (String.concat "" sorted_clsids) in
         al_result <- tag_res_sec al_result res_sec "dynamic.ssdeep.cls_ids"
                                  (VStr ssdeep_clsid_hash) ;;
         let clsids_hash := sha1_hex (String.concat "," sorted_clsids) in
         let executed := if wlist_check_hash clsids_hash then false else executed in
         let clsid_res :=
           fold_left
             (fun sec clsid =>
                match sm_get clsid_map clsid with
                | Some uuid => add_line sec (clsid ++ " : " ++ uuid)%string
                | None => sec
                end)
             (sort_strings (map fst clsid_map))
             (new_section "CLSIDs" classification TEXT []) in
         OK (executed, add_section al_result clsid_res)
     | _ => OK (executed, al_result)
     end) ;;
  al_result <-
    (match bm_regkeys result_map with
     | Some ((_ :: _) as regkeys) =>
         let sorted_regkeys := sort_strings (map (fun x => safe_str (VStr x)) regkeys) in
         let regkey_hash := ssdeep_hash (String.concat "" sorted_regkeys) in
         tag_res_sec al_result res_sec "dynamic.ssdeep.regkeys" (VStr regkey_hash)
     | _ => OK al_result
     end) ;;
  OK (executed, al_result, al_request).

(** [process_debug].  A section whose body stayed empty is not added. *)
Definition process_debug (debug : value) (al_result : Result) (classification : string)
  : result Result :=
  has <- py_contains debug (VStr "errors") ;;
  if has then
    errors <- py_getitem debug "errors" ;;
    errors <- py_iter errors ;;
    let error_res :=
      fold_left
        (fun sec error =>
           if negb (String.eqb (py_str error) "") then add_line sec (safe_str error)
           else sec)
        errors (new_section "Analysis Errors" classification TEXT []) in
    if body_nonempty error_res then OK (add_section al_result error_res)
    else OK al_result
  else OK al_result.

Definition skipped_sigs : list string :=
  ["dead_host"; "has_authenticode"; "network_icmp"; "network_http"; "allocates_rwx";
   "has_pdb"].

Definition print_iocs : list string :=
  ["dropper"; "suspicious_write_exe"; "suspicious_process"; "uses_windows_utilities";
   "persistence_autorun"].

(** [x in names] for a list of literal names. *)
Definition in_names (x : value) (names : list string) : bool :=
  existsb (fun n => py_eqb (VStr n) x) names.

(** The indicator line, if any, of one evidence mark of a signature. *)
Definition process_mark (sigs_res : ResultSection) (mark : value) : result ResultSection :=
  ty <- py_get mark "type" VNone ;;
  category <- py_get mark "category" VNone ;;
  if py_eqb ty (VStr "ioc") && in_names category ["url"; "file"; "cmdline"; "request"]
  then ioc <- py_getitem mark "ioc" ;;
       OK (add_line sigs_res (tab ++ "IOC: " ++ py_str ioc)%string)
  else
    has_key <- py_contains mark (VStr "reg_key") ;;
    has_value <- py_contains mark (VStr "reg_value") ;;
    if py_eqb ty (VStr "generic") && has_key && has_value
    then k <- py_getitem mark "reg_key" ;;
         v <- py_getitem mark "reg_value" ;;
         OK (add_line sigs_res (tab ++ "IOC: " ++ py_str k ++ " = " ++ py_str v)%string)
    else OK sigs_res.

(** A header line and one tag per item, for categories and for families. *)
Definition add_sig_list (sigs_res : ResultSection) (label : string) (items : value)
  : result ResultSection :=
  n <- py_len items ;;
  if (0 <? n)%nat then
    xs <- py_iter items ;;
    let sigs_res :=
      add_line sigs_res (tab ++ label ++ String.concat "," (map safe_str xs))%string in
    OK (fold_left (fun sec x => add_tag sec "dynamic.signature.category" x) xs sigs_res)
  else OK sigs_res.

Definition process_signature (classification : string) (sigs_res : ResultSection)
  (sig : value) : result ResultSection :=
  sig_name <- py_get sig "name" VNone ;;
  (* Skipped Signature Checks *)
  if in_names sig_name skipped_sigs then OK sigs_res
  else
    let sig_id := check_signature sig_name in
    actor <- py_get sig "actor" (VStr "") ;;
    description <- py_get sig "description" (VStr "") ;;
    match sig_name with
    | VStr name =>
        let sig_res :=
          new_section ("Signature: " ++ name)%string classification TEXT
                      [safe_str description] in
        let sig_res := set_heuristic sig_res sig_id in
        let sigs_res := add_subsection sigs_res sig_res in
        sig_categories <- py_get sig "categories" (VList []) ;;
        sig_families <- py_get sig "families" (VList []) ;;
        sig_marks <- py_get sig "marks" (VList []) ;;
        sigs_res <- add_sig_list sigs_res "Categories: " sig_categories ;;
        sigs_res <- add_sig_list sigs_res "Families: " sig_families ;;
        let sigs_res :=
          if truthy actor && negb (py_eqb actor (VStr ""))
          then add_tag sigs_res "attribution.actor" actor else sigs_res in
        if in_names sig_name print_iocs
        then marks <- py_iter sig_marks ;; for_each marks process_mark sigs_res
        else OK sigs_res
    | _ => Raise TypeError
    end.

Definition process_signatures (sigs : value) (al_result : Result) (classification : string)
  : result Result :=
  n <- py_len sigs ;;
  if (0 <? n)%nat then
    items <- py_iter sigs ;;
    sigs_res <-
      for_each items (process_signature classification)
               (new_section "Signatures" classification TEXT []) ;;
    OK (add_section al_result sigs_res)
  else OK al_result.

(* ----------------------------------------------------------------- *)
(** *** Android behaviour *)

Fixpoint split_on (c : ascii) (s : string) : list string :=
  match s with
  | EmptyString => [EmptyString]
  | String a r =>
      if Ascii.eqb a c then EmptyString :: split_on c r
      else match split_on c r with
           | [] => [String a EmptyString]
           | w :: ws => String a w :: ws
           end
  end.

Definition digit_of (c : ascii) : option Z :=
  let n := nat_of_ascii c in
  if ((48 <=? n) && (n <=? 57))%nat then Some (Z.of_nat (n - 48)) else None.

(** [int(s)] for a run of decimal digits. *)
Fixpoint int_of_digits (acc : Z) (s : string) : option Z :=
  match s with
  | EmptyString => Some acc
  | String c r =>
      match digit_of c with
      | Some d => int_of_digits (10 * acc + d)%Z r
      | None => None
      end
  end.

(** [c += 1]. *)
Definition py_incr (c : value) : result value :=
  match num_of c with
  | Some z => OK (VInt (z + 1))
  | None => Raise TypeError
  end.

(** The search for an entry already recording this request; the entry found
    has its count raised. *)
Fixpoint bump_seen (entries : list value) (uri meth : string) (port : value)
  : result (option (list value)) :=
  match entries with
  | [] => OK None
  | entry :: r =>
      u <- py_getitem entry "uri" ;;
      hit <-
        (if py_eqb u (VStr uri)
         then m <- py_getitem entry "method" ;;
              if py_eqb m (VStr meth)
              then p <- py_getitem entry "port" ;; OK (py_eqb p port)
              else OK false
         else OK false) ;;
      if hit
      then c <- py_getitem entry "count" ;;
           c <- py_incr c ;;
           match entry with
           | VDict d => OK (Some (VDict (dict_set d "count" c) :: r))
           | _ => Raise TypeError
           end
      else rest <- bump_seen r uri meth port ;;
           OK (option_map (cons entry) rest)
  end.

Definition droidmon_connection (network : value) (req : value) : result value :=
  request <- py_getitem req "request" ;;
  match request with
  | VStr text =>
      match droidmon_conn_match text with
      | None => OK network
      | Some (meth, uri, domain, port, path, ver) =>
          http <- py_getitem network "http" ;;
          entries <- py_iter http ;;
          let port_v := match port with Some p => VStr p | None => VNone end in
          seen <- bump_seen entries uri meth port_v ;;
          http' <-
            (match seen with
             | Some entries' => OK (VList entries')
             | None =>
                 port_n <-
                   (match port with
                    | Some p => if String.eqb p "" then OK VNone
                                else match int_of_digits 0 p with
                                     | Some z => OK (VInt z)
                                     | None => Raise ValueError
                                     end
                    | None => OK VNone
                    end) ;;
                 let new_entry :=
                   VDict [("count", VInt 1); ("body", VStr ""); ("uri", VStr uri);
                          ("user-agent", VStr ""); ("method", VStr meth);
                          ("host", VStr domain); ("version", VStr ver);
                          ("path", VStr path); ("data", VStr ""); ("port", port_n)] in
                 py_append http new_entry
             end) ;;
          match network with
          | VDict d => OK (VDict (dict_set d "http" http'))
          | _ => Raise TypeError
          end
      end
  | _ => Raise TypeError
  end.

(** One of the two sections of text tables ([sms], [crypto_keys]); the tag
    read from each entry goes to a section that is never added, but reading
    it can fail. *)
Definition droidmon_table (droidmon : value) (key title tag_field : string) (heur : Z)
  (al_result : Result) (classification : string) : result Result :=
  has <- py_contains droidmon (VStr key) ;;
  if has then
    table <- py_getitem droidmon key ;;
    rows <- py_iter table ;;
    lines <- dict_list_to_fixedwidth_str_list rows true ;;
    let sec := new_section title classification MEMORY_DUMP [] in
    let sec := set_heuristic sec heur in
    let sec := fold_left add_line lines sec in
    _ <- map_result (fun row => py_getitem row tag_field) rows ;;
    OK (add_section al_result sec)
  else OK al_result.

Definition droidmon_class (classes : list value) (raw_entry : value)
  : result (list value) :=
  has <- py_contains raw_entry (VStr "class") ;;
  if has then
    c <- py_getitem raw_entry "class" ;;
    if hashable c
    then OK (if existsb (fun e => py_eqb e c) classes then classes else classes ++ [c])
    else Raise TypeError
  else OK classes.

Definition process_droidmon (droidmon network : value) (al_result : Result)
  (classification : string) : result (value * Result) :=
  has_raw <- py_contains droidmon (VStr "raw") ;;
  _ <-
    (if has_raw then
       raw <- py_getitem droidmon "raw" ;;
       entries <- py_iter raw ;;
       classes <- for_each entries droidmon_class [] ;;
       match classes with
       | [] => OK tt
       | _ =>
           let sorted_classes := sort_strings (map safe_str classes) in
           match split_on ":"%char (ssdeep_hash (String.concat "" sorted_classes)) with
           | [_; _; _] => OK tt
           | _ => Raise ValueError
           end
       end
     else OK tt) ;;
  has_conn <- py_contains droidmon (VStr "httpConnections") ;;
  network <-
    (if has_conn then
       conns <- py_getitem droidmon "httpConnections" ;;
       reqs <- py_iter conns ;;
       for_each reqs droidmon_connection network
     else OK network) ;;
  al_result <-
    droidmon_table droidmon "sms" "SMS Activity" "dest_number" 1 al_result classification ;;
  al_result <-
    droidmon_table droidmon "crypto_keys" "Crypto Keys" "type" 2 al_result classification ;;
  OK (network, al_result).

(* ----------------------------------------------------------------- *)
(** *** [generate_al_result] *)

Definition UNRESTRICTED : string := "".

Definition info_section (info : value) (classification : string) : result ResultSection :=
  start_time <- py_get info "started" VNone ;;
  end_time <- py_get info "ended" VNone ;;
  let '(start_time, end_time) :=
    match format_timestamp start_time with
    | Some s => (VStr s, match format_timestamp end_time with
                         | Some e => VStr e
                         | None => end_time
                         end)
    | None => (start_time, end_time)
    end in
  version <- py_get info "version" VNone ;;
  id <- py_get info "id" VNone ;;
  duration <- py_get info "duration" VNone ;;
  let body :=
    VDict [("Cuckoo Version", version); ("Analysis ID", id);
           ("Analysis Duration", duration); ("Start Time", start_time);
           ("End Time", end_time)] in
  OK (new_section "Analysis Information" classification KEY_VALUE [json_dumps body]).

Definition noexec_section (file_ext classification : string) : ResultSection :=
  add_line (new_section "Notes" classification TEXT [])
    ("Unrecognized file type: " ++
     "No program available to execute a file with the following extension: " ++
     file_ext)%string.

Definition generate_al_result (api_report : value) (al_result : Result)
  (al_request : ServiceRequest) (file_ext : string) (guest_ip : value)
  (service_classification : string) : result (bool * Result * ServiceRequest) :=
  match max_classification service_classification with
  | None => OK (false, al_result, al_request)
  | Some classification =>
      info <- py_get api_report "info" VNone ;;
      al_result <-
        (match info with
         | VNone => OK al_result
         | _ => info_res <- info_section info classification ;;
                OK (add_section al_result info_res)
         end) ;;
      behavior <- py_get api_report "behavior" VNone ;;
      network <- py_get api_report "network" (VDict []) ;;
      droidmon <- py_get api_report "droidmon" VNone ;;
      debug <- py_get api_report "debug" VNone ;;
      sigs <- py_get api_report "signatures" (VList []) ;;
      let executed := true in
      al_result <-
        (if truthy debug then process_debug debug al_result classification
         else OK al_result) ;;
      '(executed, al_result, al_request) <-
        (if truthy behavior
         then process_behavior behavior al_result al_request classification
         else OK (executed, al_result, al_request)) ;;
      '(network, al_result) <-
        (if truthy droidmon
         then process_droidmon droidmon network al_result classification
         else OK (network, al_result)) ;;
      al_result <-
        (if executed then
           al_result <-
             (if truthy network
              then process_network network al_result guest_ip classification
              else OK al_result) ;;
           if truthy sigs then process_signatures sigs al_result classification
           else OK al_result
         else OK (add_section al_result (noexec_section file_ext classification))) ;;
      OK (true, al_result, al_request)
  end.

End ReportNormalizer.

(* ================================================================= *)
(** ** [cuckoo.py]: the sandbox client and the task runner

    A job runs against a backend and a framework it does not control.  The
    run is embedded as a function of a state that holds the job record, the
    answers the backend will give (in the order the requests are made), the
    requests made so far and the log (both with the most recent entry
    first), the words the random generator will produce, the result
    sections and the request. *)

(** An HTTP exchange with the sandbox: the call may time out, fail to
    connect, or be answered. *)
Inductive http_result : Type :=
| Timeout
| ConnectionError
| Response (status_code : Z) (json : option value) (content : string).

Inductive http_request : Type :=
| POST_submit (file_name : string) (data : dict)
| GET_task (task_id : value)
| GET_delete (task_id : value)
| GET_report (task_id : value) (fmt : string)
| GET_pcap (task_id : value)
| GET_machines
| GET_machine_info (machine_name : value).

(** [CuckooTask]: a dictionary of submission arguments with a few attributes
    on top. *)
Record CuckooTask : Type := mkTask {
  task_file : string;
  task_kwargs : dict;
  task_id : value;
  task_report : value;
  task_errors : list value
}.

Record state : Type := mkState {
  cuckoo_task : option CuckooTask;
  machines : value;
  net : list http_result;
  trace : list http_request;
  random_words : list string;
  file_res : Result;
  request : ServiceRequest;
  log : list string
}.

(** A computation returns, raises, or keeps retrying for ever. *)
Inductive outcome (A : Type) : Type :=
| Ret (a : A)
| Exc (e : exn)
| Diverge.

Arguments Ret {A} a.
Arguments Exc {A} e.
Arguments Diverge {A}.

Definition M (A : Type) : Type := state -> outcome A * state.

Definition ret {A} (a : A) : M A := fun st => (Ret a, st).

Definition raise {A} (e : exn) : M A := fun st => (Exc e, st).

Definition bindM {A B} (m : M A) (k : A -> M B) : M B :=
  fun st =>
    match m st with
    | (Ret a, st') => k a st'
    | (Exc e, st') => (Exc e, st')
    | (Diverge, st') => (Diverge, st')
    end.

(** [try: m  except Exception as e: h(e)]. *)
Definition try_except {A} (m : M A) (h : exn -> M A) : M A :=
  fun st =>
    match m st with
    | (Exc e, st') => h e st'
    | r => r
    end.

Definition lift {A} (r : result A) : M A :=
  match r with
  | OK a => ret a
  | Raise e => raise e
  end.

Declare Scope run_scope.
Delimit Scope run_scope with run.
Notation "x <- c ;; k" := (bindM c (fun x => k))
  (at level 100, c at next level, right associativity) : run_scope.
Notation "c ;;; k" := (bindM c (fun _ => k))
  (at level 100, right associativity) : run_scope.
Notation "' pat <- c ;; k" := (bindM c (fun x => match x with pat => k end))
  (at level 100, pat pattern, c at next level, right associativity) : run_scope.

(** The decorator [@retry(stop_max_attempt_number=n, ...)] of the [retrying]
    package: an attempt is rejected when it raised and [retry_on_exception]
    holds of the exception, or when it returned and [retry_on_result] holds
    of the value; the last rejected attempt re-raises its exception, or
    raises [RetryError] if it had returned.  [left] counts the attempts that
    remain, the one being made included. *)
Fixpoint retry_bounded {A} (left : nat) (retry_on_exception : exn -> bool)
  (retry_on_result : A -> bool) (f : M A) : M A :=
  fun st =>
    match f st with
    | (Ret a, st') =>
        if retry_on_result a then
          match left with
          | S (S _ as m) => retry_bounded m retry_on_exception retry_on_result f st'
          | _ => (Exc RetryError, st')
          end
        else (Ret a, st')
    | (Exc e, st') =>
        if retry_on_exception e then
          match left with
          | S (S _ as m) => retry_bounded m retry_on_exception retry_on_result f st'
          | _ => (Exc e, st')
          end
        else (Exc e, st')
    | (Diverge, st') => (Diverge, st')
    end.

(** The same decorator without a stop condition.  [fuel] bounds the attempts
    the embedding follows; the decorator itself never gives up. *)
Fixpoint retry_forever {A} (fuel : nat) (retry_on_exception : exn -> bool)
  (retry_on_result : A -> bool) (f : M A) : M A :=
  fun st =>
    match fuel with
    | O => (Diverge, st)
    | S n =>
        match f st with
        | (Ret a, st') =>
            if retry_on_result a
            then retry_forever n retry_on_exception retry_on_result f st'
            else (Ret a, st')
        | (Exc e, st') =>
            if retry_on_exception e
            then retry_forever n retry_on_exception retry_on_result f st'
            else (Exc e, st')
        | (Diverge, st') => (Diverge, st')
        end
    end.

Definition always_reject (e : exn) : bool := true.
Definition never_reject {A} (a : A) : bool := false.

(** [RecoverableError] is the one [ChainException] the module raises. *)
Definition is_chain_exception (e : exn) : bool :=
  match e with
  | RecoverableError _ => true
  | _ => false
  end.

Definition _exclude_chain_ex (e : exn) : bool := negb (is_chain_exception e).

Definition _retry_on_none (v : value) : bool :=
  match v with VNone => true | _ => false end.

(** [s.rsplit(".", 1)]: the text before the last dot and the text after it,
    or the whole text alone. *)
Fixpoint rsplit_dot (s : string) : string * option string :=
  match s with
  | EmptyString => (EmptyString, None)
  | String c r =>
      match rsplit_dot r with
      | (h, Some t) => (String c h, Some t)
      | (h, None) =>
          if Ascii.eqb c "."%char then (EmptyString, Some h) else (String c h, None)
      end
  end.

(** [s.rsplit(".", 1)[-1]]. *)
Definition rsplit_last (s : string) : string :=
  match rsplit_dot s with
  | (_, Some t) => t
  | (h, None) => h
  end.

(** A member of a [tar] archive. *)
Record tar_member : Type := mkMember {
  tar_isfile : bool;
  tar_name : string;
  tar_data : string
}.

(** What the task runner uses of the framework and of the standard library
    beyond the collaborators of the normaliser. *)
Class Framework : Type := {
  (** [assemblyline.common.identify.tag_to_extension.get] *)
  tag_to_extension : string -> option string;
  (** [re.compile(r"^=\?.*\?=$").match] *)
  is_mime_encoded : string -> bool;
  (** [email.header.decode_header] followed by the decoding of its first
      part; [None] when either raises *)
  decode_mime_header : string -> option string;
  (** [tarfile.open] on the bytes of an archive, and the members it yields;
      [None] when the bytes are not an archive *)
  untar : string -> option (list tar_member);
  (** the unpacking of the full report archive into supplementary and
      extracted files; its failures are logged and swallowed *)
  store_report_archive : string -> ServiceRequest -> ServiceRequest
}.

(** The task of the framework's request. *)
Record ServiceTask : Type := mkServiceTask {
  file_name : string;
  file_contents : string;
  file_type : string;
  sha256 : string;
  md5 : string;
  deep_scan : bool;
  depth : Z
}.

Definition SUPPORTED_EXTENSIONS : list string :=
  ["cpl"; "dll"; "exe"; "pdf"; "doc"; "docx"; "rtf"; "mht"; "xls"; "xlsx"; "ppt";
   "pptx"; "pps"; "ppsx"; "pptm"; "potm"; "potx"; "ppsm"; "htm"; "html"; "jar";
   "rar"; "swf"; "py"; "pyc"; "vbs"; "msi"; "ps1"; "msg"; "eml"; "js"; "wsf"; "elf";
   "bin"; "hta"; "zip"; "lnk"; "hwp"; "pub"; "zip"].

Definition GUEST_VM_START_TIMEOUT : nat := 75.

(** [os.path.basename]. *)
Fixpoint basename (s : string) : string :=
  match s with
  | EmptyString => EmptyString
  | String c r =>
      if is_substring "/" s
      then basename r
      else s
  end.

Fixpoint replace_char (a b : ascii) (s : string) : string :=
  match s with
  | EmptyString => EmptyString
  | String c r => String (if Ascii.eqb c a then b else c) (replace_char a b r)
  end.

Fixpoint ends_with (suffix s : string) : bool :=
  String.eqb suffix s ||
  match s with
  | EmptyString => false
  | String _ r => ends_with suffix r
  end.

Section SandboxClient.
Context `{Externals} `{Framework}.

(** [self.cfg], [self.task] and [self.ssdeep_match_pct]. *)
Variable cfg : dict.
Variable task : ServiceTask.
Variable ssdeep_match_pct : Z.

Local Open Scope run_scope.

Definition get_state : M state := fun st => (Ret st, st).

Definition log_msg (msg : string) : M unit :=
  fun st =>
    (Ret tt, mkState (cuckoo_task st) (machines st) (net st) (trace st)
                     (random_words st) (file_res st) (request st) (msg :: log st)).

(** One exchange: the request is recorded and the next answer of the
    backend is consumed; a backend with no answer left is unreachable. *)
Definition http (r : http_request) : M http_result :=
  fun st =>
    let st' := fun rest =>
      mkState (cuckoo_task st) (machines st) rest (r :: trace st)
              (random_words st) (file_res st) (request st) (log st) in
    match net st with
    | [] => (Ret ConnectionError, st' [])
    | a :: rest => (Ret a, st' rest)
    end.

(** [generate_random_words(1)]: the next word of the generator (a fixed one
    once the supply of the embedding is spent). *)
Definition generate_random_words : M string :=
  fun st =>
    (Ret (hd "aa" (random_words st)),
     mkState (cuckoo_task st) (machines st) (net st) (trace st)
             (tl (random_words st)) (file_res st) (request st) (log st)).

(** Access to [self.cuckoo_task]; its attributes cannot be read while it is
    [None]. *)
Definition get_task : M CuckooTask :=
  fun st =>
    match cuckoo_task st with
    | Some t => (Ret t, st)
    | None => (Exc AttributeError, st)
    end.

Definition set_task (t : CuckooTask) : M unit :=
  fun st =>
    (Ret tt, mkState (Some t) (machines st) (net st) (trace st)
                     (random_words st) (file_res st) (request st) (log st)).

Definition set_machines (m : value) : M unit :=
  fun st =>
    (Ret tt, mkState (cuckoo_task st) m (net st) (trace st)
                     (random_words st) (file_res st) (request st) (log st)).

Definition set_results (r : Result) (q : ServiceRequest) : M unit :=
  fun st =>
    (Ret tt, mkState (cuckoo_task st) (machines st) (net st) (trace st)
                     (random_words st) r q (log st)).

Definition set_task_id (v : value) (t : CuckooTask) : CuckooTask :=
  mkTask (task_file t) (task_kwargs t) v (task_report t) (task_errors t).

Definition set_task_file (f : string) (t : CuckooTask) : CuckooTask :=
  mkTask f (task_kwargs t) (task_id t) (task_report t) (task_errors t).

Definition set_task_report (r : value) (t : CuckooTask) : CuckooTask :=
  mkTask (task_file t) (task_kwargs t) (task_id t) r (task_errors t).

Definition set_task_errors (e : list value) (t : CuckooTask) : CuckooTask :=
  mkTask (task_file t) (task_kwargs t) (task_id t) (task_report t) e.

(** [bool(self.cuckoo_task)]: the task is a dictionary, true when it holds
    a submission argument. *)
Definition task_truthy (t : option CuckooTask) : bool :=
  match t with
  | Some t => truthy (VDict (task_kwargs t))
  | None => false
  end.

(** [self.cuckoo_task and self.cuckoo_task.id is not None]. *)
Definition live_task_id (st : state) : option value :=
  match cuckoo_task st with
  | Some t =>
      if truthy (VDict (task_kwargs t))
      then match task_id t with VNone => None | i => Some i end
      else None
  | None => None
  end.

(** [dict(resp.json())]. *)
Definition response_dict (json : option value) : result value :=
  match json with
  | Some (VDict d) => OK (VDict d)
  | Some (VList []) => OK (VDict [])
  | Some _ => Raise TypeError
  | None => Raise ValueError
  end.

(** The body of [cuckoo_delete_task]. *)
Definition cuckoo_delete_task_once (task_id : value) : M unit :=
  resp <- http (GET_delete task_id) ;;
  match resp with
  | Timeout =>
      raise (Exception ("Cuckoo timed out after while trying to delete task "
                        ++ py_str task_id))
  | ConnectionError =>
      raise (RecoverableError
               ("Unable to reach the Cuckoo nest while trying to delete task "
                ++ py_str task_id))
  | Response status_code _ _ =>
      if negb (Z.eqb status_code 200) then
        log_msg ("Failed to delete task " ++ py_str task_id ++ ". Status code: "
                 ++ str_of_Z status_code)
      else
        log_msg ("Deleted task: " ++ py_str task_id ++ ".") ;;;
        st <- get_state ;;
        match cuckoo_task st with
        | Some t => if task_truthy (Some t) then set_task (set_task_id VNone t)
                    else ret tt
        | None => ret tt
        end
  end.

Definition cuckoo_delete_task (task_id : value) : M unit :=
  retry_bounded 2 always_reject never_reject (cuckoo_delete_task_once task_id).

(** The clean-up idiom found at every exit. *)
Definition delete_if_live : M unit :=
  st <- get_state ;;
  match live_task_id st with
  | Some i => cuckoo_delete_task i
  | None => ret tt
  end.

(** The body of [cuckoo_query_machines]. *)
Definition cuckoo_query_machines_once : M value :=
  log_msg "Querying for available analysis machines.." ;;;
  resp <- http GET_machines ;;
  match resp with
  | Timeout => raise (Exception "Cuckoo timed out after while trying to query machines")
  | ConnectionError =>
      raise (RecoverableError
               "Unable to reach the Cuckoo nest while trying to query machines")
  | Response status_code json _ =>
      if negb (Z.eqb status_code 200) then
        log_msg ("Failed to query machines: " ++ str_of_Z status_code) ;;;
        raise CuckooVMBusyException
      else lift (response_dict json)
  end.

Definition cuckoo_query_machines : M value :=
  retry_bounded 6 always_reject never_reject cuckoo_query_machines_once.

(** The renaming shared by the two recovery paths: a random word, a dot, and
    what follows the last dot of the present name. *)
Definition rename_randomly : M string :=
  new_filename <- generate_random_words ;;
  t <- get_task ;;
  let file_ext := rsplit_last (task_file t) in
  let name := (new_filename ++ "." ++ file_ext)%string in
  set_task (set_task_file name t) ;;;
  ret name.

(** The body of [cuckoo_submit_file]. *)
Definition cuckoo_submit_file_once (file_content : string) : M value :=
  t <- get_task ;;
  log_msg ("Submitting file: " ++ task_file t) ;;;
  resp <- http (POST_submit (task_file t) (task_kwargs t)) ;;
  match resp with
  | Timeout =>
      delete_if_live ;;;
      t <- get_task ;;
      raise (Exception ("Cuckoo timed out after while trying to submit a file "
                        ++ task_file t))
  | ConnectionError =>
      delete_if_live ;;;
      t <- get_task ;;
      raise (RecoverableError
               ("Unable to reach the Cuckoo nest while trying to submit a file "
                ++ task_file t))
  | Response status_code json _ =>
      if negb (Z.eqb status_code 200) then
        log_msg ("Failed to submit file " ++ task_file t ++ ". Status code: "
                 ++ str_of_Z status_code) ;;;
        if Z.eqb status_code 500 then
          name <- rename_randomly ;;
          log_msg ("Got 500 error from Cuckoo API. This is often caused by "
                   ++ "non-ascii filenames. Renaming file to " ++ name
                   ++ " and retrying") ;;;
          (* Raise an exception to force a retry *)
          raise (Exception "Retrying after 500 error")
        else ret VNone
      else
        resp_dict <- lift (response_dict json) ;;
        task_id <- lift (py_get resp_dict "task_id" VNone) ;;
        if negb (truthy task_id) then
          (* Spender case? *)
          task_ids <- lift (py_get resp_dict "task_ids" (VList [])) ;;
          match task_ids with
          | VList (first :: _) => ret first
          | _ => ret VNone
          end
        else ret task_id
  end.

Definition cuckoo_submit_file (file_content : string) : M value :=
  retry_bounded 3 always_reject never_reject (cuckoo_submit_file_once file_content).

(** The body of [cuckoo_query_task]. *)
Definition cuckoo_query_task_once (task_id : value) : M value :=
  resp <- http (GET_task task_id) ;;
  match resp with
  | Timeout =>
      delete_if_live ;;;
      raise (Exception ("Cuckoo timed out after while trying to query the task "
                        ++ py_str task_id))
  | ConnectionError =>
      raise (RecoverableError
               ("Unable to reach the Cuckoo nest while trying to query the task "
                ++ py_str task_id))
  | Response status_code json _ =>
      if negb (Z.eqb status_code 200) then
        (if Z.eqb status_code 404
         then log_msg ("Task not found for task: " ++ py_str task_id)
         else log_msg ("Failed to query task " ++ py_str task_id ++ ". Status code: "
                       ++ str_of_Z status_code)) ;;;
        ret VNone
      else
        resp_dict <- lift (response_dict json) ;;
        task_dict <- lift (py_get resp_dict "task" VNone) ;;
        (if _retry_on_none task_dict || py_eqb task_dict (VStr "")
         then log_msg "Failed to query task. Returned task dictionary is None or empty"
         else ret tt) ;;;
        ret task_dict
  end.

Definition cuckoo_query_task (task_id : value) : M value :=
  retry_bounded 3 always_reject _retry_on_none (cuckoo_query_task_once task_id).

(** The body of [cuckoo_query_report].  A report that could not be decoded
    leaves [report_data] unbound, which the next line trips over. *)
Definition cuckoo_query_report_once (task_id : value) (fmt : string) : M value :=
  log_msg ("Querying report, task_id: " ++ py_str task_id ++ " - format: " ++ fmt) ;;;
  resp <- http (GET_report task_id fmt) ;;
  match resp with
  | Timeout =>
      delete_if_live ;;;
      raise (Exception ("Cuckoo timed out after while trying to query the report "
                        ++ "for task " ++ py_str task_id))
  | ConnectionError =>
      raise (RecoverableError
               ("Unable to reach the Cuckoo nest while trying to query the report "
                ++ "for task " ++ py_str task_id))
  | Response status_code json content =>
      if negb (Z.eqb status_code 200) then
        if Z.eqb status_code 404 then
          log_msg ("Task or report not found for task " ++ py_str task_id ++ ".") ;;;
          delete_if_live ;;;
          raise MissingCuckooReportException
        else
          log_msg ("Failed to query report " ++ py_str task_id ++ ". Status code: "
                   ++ str_of_Z status_code) ;;;
          ret VNone
      else
        report_data <-
          (if String.eqb fmt "json" then
             match dict_get cfg "recursion_limit", response_dict json with
             | Some _, OK d => ret d
             | _, _ =>
                 log_msg "Exception converting cuckoo report http response into json" ;;;
                 raise UnboundLocalError
             end
           else ret (VStr content)) ;;
        if negb (truthy report_data) then
          delete_if_live ;;;
          raise (Exception "Empty report data")
        else ret report_data
  end.

Definition cuckoo_query_report (task_id : value) (fmt : string) : M value :=
  retry_bounded 5
    (fun e => match e with MissingCuckooReportException => false | _ => true end)
    never_reject (cuckoo_query_report_once task_id fmt).

(** The body of [cuckoo_poll_started]. *)
Definition cuckoo_poll_started_once : M value :=
  t <- get_task ;;
  task_info <- cuckoo_query_task (task_id t) ;;
  match task_info with
  | VNone => ret (VStr "missing")
  | _ =>
      t <- get_task ;;
      info_id <- lift (py_get task_info "id" VNone) ;;
      if negb (py_eqb info_id (task_id t)) then
        log_msg ("Cuckoo returned mismatched task info for task: "
                 ++ py_str (task_id t) ++ ". Trying again..") ;;;
        ret VNone
      else
        guest <- lift (py_get task_info "guest" (VDict [])) ;;
        status <- lift (py_get guest "status" VNone) ;;
        if py_eqb status (VStr "starting") then ret VNone
        else ret (VStr "started")
  end.

Definition cuckoo_poll_started : M value :=
  retry_bounded GUEST_VM_START_TIMEOUT always_reject _retry_on_none
                cuckoo_poll_started_once.

(** [self.cuckoo_task.errors + task_info.get('errors')]. *)
Definition concat_errors (errors : list value) (more : value) : result (list value) :=
  match more with
  | VList l => OK (errors ++ l)
  | _ => Raise TypeError
  end.

(** The body of [cuckoo_poll_report]. *)
Definition cuckoo_poll_report_once : M value :=
  t <- get_task ;;
  task_info <- cuckoo_query_task (task_id t) ;;
  if _retry_on_none task_info || py_eqb task_info (VDict []) then
    (* The API didn't return a task.. *)
    ret (VStr "missing")
  else
    t <- get_task ;;
    info_id <- lift (py_get task_info "id" VNone) ;;
    if negb (py_eqb info_id (task_id t)) then
      log_msg ("Cuckoo returned mismatched task info for task: "
               ++ py_str (task_id t) ++ ". Trying again..") ;;;
      ret VNone
    else
      (* Check for errors first to avoid parsing exceptions *)
      status <- lift (py_get task_info "status" VNone) ;;
      failed <- lift (py_contains status (VStr "fail")) ;;
      if failed then
        log_msg "Analysis has failed. Check cuckoo server logs for errors." ;;;
        more <- lift (py_get task_info "errors" VNone) ;;
        errors <- lift (concat_errors (task_errors t) more) ;;
        set_task (set_task_errors errors t) ;;;
        ret status
      else if py_eqb status (VStr "completed") then
        log_msg "Analysis has completed, waiting on report to be produced." ;;;
        ret VNone
      else if py_eqb status (VStr "reported") then
        log_msg "Cuckoo report generation has completed." ;;;
        try_except
          (report <- cuckoo_query_report (task_id t) "json" ;;
           t <- get_task ;;
           set_task (set_task_report report t) ;;;
           if truthy report && is_dict report then ret status else ret VNone)
          (fun e =>
             match e with
             | MissingCuckooReportException => ret (VStr "missing_report")
             | _ => raise e
             end)
      else
        d <- lift (py_format_d (task_id t)) ;;
        log_msg ("Waiting for task " ++ d ++ " to finish. Current status: "
                 ++ py_str status ++ ".") ;;;
        ret VNone.

Definition cuckoo_poll_report (fuel : nat) : M value :=
  retry_forever fuel _exclude_chain_ex _retry_on_none cuckoo_poll_report_once.

(** [safe_str(e)] for an exception: its message. *)
Definition exn_message (e : exn) : string :=
  match e with
  | Exception m | RecoverableError m | CuckooProcessingException m => m
  | _ => ""
  end.

(** The body of [cuckoo_submit]. *)
Definition cuckoo_submit_once (file_content : string) (fuel : nat) : M unit :=
  submitted <-
    try_except
      ((* Submits a new file to Cuckoo for analysis *)
       task_id <- cuckoo_submit_file file_content ;;
       log_msg ("Submitted file. Task id: " ++ py_str task_id ++ ".") ;;;
       if negb (truthy task_id) then
         let err_msg := "Failed to get task for submitted file." in
         t <- get_task ;;
         set_task (set_task_errors (task_errors t ++ [VStr err_msg]) t) ;;;
         log_msg err_msg ;;;
         ret false
       else
         t <- get_task ;;
         set_task (set_task_id task_id t) ;;;
         ret true)
      (fun e =>
         let err_msg := "Error submitting to Cuckoo" in
         t <- get_task ;;
         set_task (set_task_errors
                     (task_errors t ++ [VStr (err_msg ++ ": " ++ exn_message e)]) t) ;;;
         delete_if_live ;;;
         raise (RecoverableError "Unable to submit to Cuckoo")) ;;
  if negb submitted then ret tt
  else
    t <- get_task ;;
    log_msg ("Submission succeeded. File: " ++ task_file t ++ " -- Task ID: "
             ++ py_str (task_id t)) ;;;
    status <-
      try_except cuckoo_poll_started
        (fun e =>
           match e with
           | RetryError => log_msg "VM startup timed out" ;;; ret VNone
           | _ => raise e
           end) ;;
    status <-
      (if py_eqb status (VStr "started") then
         try_except (cuckoo_poll_report fuel)
           (fun e =>
              match e with
              | RetryError =>
                  log_msg "Max retries exceeded for report status." ;;; ret VNone
              | _ => raise e
              end)
       else ret status) ;;
    err_msg <-
      (if _retry_on_none status then
         ret (Some "Timed out while waiting for cuckoo to analyze file.")
       else if py_eqb status (VStr "missing") then
         ret (Some "Task went missing while waiting for cuckoo to analyze file.")
       else if py_eqb status (VStr "stopped") then
         ret (Some "Service has been stopped while waiting for cuckoo to analyze file.")
       else if py_eqb status (VStr "missing_report") then
         (* this most often happens due to some sort of messed up filename that
            the cuckoo agent inside the VM died on. *)
         name <- rename_randomly ;;
         log_msg ("Got missing_report status. This is often caused by invalid "
                  ++ "filenames. Renaming file to " ++ name ++ " and retrying") ;;;
         (* Raise an exception to force a retry *)
         raise (Exception "Retrying after missing_report status")
       else ret None) ;;
    match err_msg with
    | Some msg =>
        log_msg msg ;;;
        delete_if_live ;;;
        raise (RecoverableError msg)
    | None => ret tt
    end.

Definition cuckoo_submit (file_content : string) (fuel : nat) : M unit :=
  retry_bounded 3 _exclude_chain_ex never_reject (cuckoo_submit_once file_content fuel).

(* ----------------------------------------------------------------- *)
(** *** Dropped files *)

(** [s.split('_', 1)[1]]. *)
Fixpoint after_first_underscore (s : string) : result string :=
  match s with
  | EmptyString => Raise IndexError
  | String c r => if Ascii.eqb c "_"%char then OK r else after_first_underscore r
  end.

(** The similarity test of [check_dropped]: the new hash scores at least the
    configured percentage against some hash already accepted. *)
Definition skip_file (ssdeep_hash_of_file : string) (added_hashes : list string) : bool :=
  existsb (fun seen_hash =>
             (ssdeep_match_pct <=? ssdeep_compare ssdeep_hash_of_file seen_hash)%Z)
          added_hashes.

(** [added_hashes.add(h)]. *)
Definition set_add (h : string) (s : list string) : list string :=
  if existsb (String.eqb h) s then s else s ++ [h].

(** The static exclusions applied to a dropped file after the hash tests. *)
Definition dropped_excluded (dropped_hash dropped_name : string) : bool :=
  wlist_check_hash dropped_hash || wlist_check_dropped dropped_name
  || ends_with "_info.txt" dropped_name.

(** One member of the archive of dropped files.  The result is the set of
    accepted similarity hashes and the request, with the file offered for
    extraction or not. *)
Definition check_dropped_member (st : list string * ServiceRequest) (tarobj : tar_member)
  : result (list string * ServiceRequest) :=
  (let (added_hashes, req) := st in
  if tar_isfile tarobj then
    (* A dropped file found *)
    let dropped_name := basename (tar_name tarobj) in
    (* Fixup the name.. the tar originally has files/your/file/path *)
    name <- after_first_underscore (replace_char "/"%char "_"%char (tar_name tarobj)) ;;
    let dropped_file_path := path_join (working_directory req) name in
    let data := tar_data tarobj in
    let offer (added_hashes : list string) :=
      let dropped_hash := md5_hex data in
      if String.eqb dropped_hash (md5 task) then OK (added_hashes, req)
      else if negb (dropped_excluded dropped_hash dropped_name) then
        (* Resubmit *)
        req <- add_extracted req dropped_file_path dropped_name
                             "Dropped file during Cuckoo analysis." ;;
        OK (added_hashes, req)
      else OK (added_hashes, req) in
    if negb (deep_scan task) then
      let h := ssdeep_hash data in
      if skip_file h added_hashes then OK (added_hashes, req)
      else offer (set_add h added_hashes)
    else offer added_hashes
  else OK st)%py.

(** The loop over the archive keeps what it did when a member raises. *)
Fixpoint check_dropped_loop (members : list tar_member) (st : list string * ServiceRequest)
  : (list string * ServiceRequest) * option exn :=
  match members with
  | [] => (st, None)
  | m :: r =>
      match check_dropped_member st m with
      | OK st' => check_dropped_loop r st'
      | Raise e => (st, Some e)
      end
  end.

Definition check_dropped (task_id : value) : M unit :=
  log_msg "Checking dropped files." ;;;
  dropped_tar_bytes <- cuckoo_query_report task_id "dropped" ;;
  match dropped_tar_bytes with
  | VNone => ret tt
  | _ =>
      match untar (py_str dropped_tar_bytes) with
      | None => log_msg "Error extracting dropped files"
      | Some members =>
          st <- get_state ;;
          let '((_, req), failure) := check_dropped_loop members ([], request st) in
          set_results (file_res st) req ;;;
          match failure with
          | Some _ => log_msg "Error extracting dropped files"
          | None => ret tt
          end
      end
  end.

(* ----------------------------------------------------------------- *)
(** *** The job *)

(** The body of [cuckoo_query_pcap]. *)
Definition cuckoo_query_pcap_once (task_id : value) : M value :=
  resp <- http (GET_pcap task_id) ;;
  match resp with
  | Timeout =>
      delete_if_live ;;;
      raise (Exception ("Cuckoo timed out after while trying to query the pcap "
                        ++ "for task " ++ py_str task_id))
  | ConnectionError =>
      raise (RecoverableError
               ("Unable to reach the Cuckoo nest while trying to query the pcap "
                ++ "for task " ++ py_str task_id))
  | Response status_code _ content =>
      if negb (Z.eqb status_code 200) then
        log_msg ("Failed to query pcap for task " ++ py_str task_id) ;;;
        ret VNone
      else ret (VStr content)
  end.

Definition cuckoo_query_pcap (task_id : value) (fuel : nat) : M value :=
  retry_forever fuel always_reject never_reject (cuckoo_query_pcap_once task_id).

Definition has_section (title : string) (r : Result) : bool :=
  existsb (fun sec => String.eqb (title_text sec) title) r.

(** [check_pcap]: the capture is fetched only when the normaliser reported
    network activity. *)
Definition check_pcap (task_id : value) (fuel : nat) : M unit :=
  st <- get_state ;;
  if negb (has_section "Network Activity" (file_res st)) then ret tt
  else
    pcap_data <- cuckoo_query_pcap task_id fuel ;;
    if truthy pcap_data then
      st <- get_state ;;
      let pcap_file_name := "cuckoo_traffic.pcap" in
      let pcap_path := path_join (working_directory (request st)) pcap_file_name in
      (* Resubmit analysis pcap file *)
      match add_extracted (request st) pcap_path pcap_file_name
                          "PCAP from Cuckoo analysis" with
      | OK req => set_results (file_res st) req
      | Raise MaxExtractedExceeded =>
          log_msg "The maximum amount of files to be extracted has been exceeded"
      | Raise e => raise e
      end
    else ret tt.

(** [get_errors]: the body of the section of analysis errors, if any. *)
Definition get_errors (r : Result) : string :=
  match find (fun sec => String.eqb (title_text sec) "Analysis Errors") r with
  | Some sec => String.concat (String "010"%char EmptyString) (body sec)
  | None => ""
  end.

(** The search of [report_machine_info] in the machine list. *)
Fixpoint find_machine (l : list value) (machine_name : value) : result (option value) :=
  match l with
  | [] => OK None
  | machine :: r =>
      (name <- py_get machine "name" VNone ;;
       if py_eqb name machine_name then OK (Some machine)
       else find_machine r machine_name)%py
  end.

(** [report_machine_info]: the address of the guest, or [None] when anything
    at all went wrong. *)
Definition report_machine_info (machine_name : value) : M value :=
  st <- get_state ;;
  let found : result (ResultSection * value) :=
    (ms <- py_get (machines st) "machines" VNone ;;
     l <- py_iter ms ;;
     found <- find_machine l machine_name ;;
     match found with
     | None => Raise (Exception "")
     | Some machine =>
         id <- py_get machine "id" VNone ;;
         name <- py_get machine "name" VNone ;;
         label <- py_get machine "label" VNone ;;
         platform <- py_get machine "platform" VNone ;;
         machine_tags <- py_get machine "tags" (VList []) ;;
         machine_tags <- py_iter machine_tags ;;
         let body :=
           VDict [("id", VStr (py_str id)); ("name", VStr (py_str name));
                  ("label", VStr (py_str label)); ("platform", VStr (py_str platform));
                  ("tags", VList (map (fun tag =>
                                         VStr (replace_char "_"%char " "%char
                                                            (safe_str tag)))
                                      machine_tags))] in
         ip <- py_get machine "ip" (VStr "") ;;
         OK (new_section "Machine Information" UNRESTRICTED KEY_VALUE [json_dumps body],
             VStr (py_str ip))
     end)%py in
  match found with
  | OK (machine_section, ip) =>
      set_results (add_section (file_res st) machine_section) (request st) ;;;
      ret ip
  | Raise exc =>
      log_msg ("Unable to retrieve machine information for " ++ py_str machine_name) ;;;
      ret VNone
  end.

(** The choice of the extension under which the file is submitted, and of
    the analysis package when the extension is [bin]; [None] when the file
    is not analysed at all. *)
Definition choose_extension (original_ext : string * option string)
  : option (string * dict) :=
  match tag_to_extension (file_type task) with
  | Some tag_extension =>
      if negb (is_substring "unknown" (file_type task))
      then Some (tag_extension, [])
      else match snd original_ext with
           | Some submitted_ext =>
               if existsb (String.eqb submitted_ext) SUPPORTED_EXTENSIONS
               then Some (("." ++ submitted_ext)%string,
                          if String.eqb submitted_ext "bin"
                          then [("package", VStr "bin")] else [])
               else None
           | None => None
           end
  | None =>
      match snd original_ext with
      | Some submitted_ext =>
          if existsb (String.eqb submitted_ext) SUPPORTED_EXTENSIONS
          then Some (("." ++ submitted_ext)%string,
                     if String.eqb submitted_ext "bin"
                     then [("package", VStr "bin")] else [])
          else None
      | None => None
      end
  end.

Definition cfg_get (param : string) : value :=
  match dict_get cfg param with Some v => v | None => VNone end.

Definition is_true (v : value) : bool :=
  match v with VBool true => true | _ => false end.

(** The submission arguments derived from the configuration. *)
Definition build_kwargs (kwargs : dict) : result dict :=
  (let kwargs :=
     fold_left
       (fun (kw : dict) (pv : string * value) =>
          if String.eqb (fst pv) "analysis_timeout" then dict_set kw "timeout" (snd pv)
          else if String.eqb (fst pv) "enforce_timeout"
               then dict_set kw "enforce_timeout" (snd pv)
               else kw)
       cfg kwargs in
   let task_options : list string :=
     if is_true (cfg_get "dump_processes") then ["procmemdump=yes"] else [] in
   let dll_function := cfg_get "dll_function" in
   (* Do DLL specific stuff *)
   '(task_options, kwargs) <-
     (if truthy dll_function then
        multi <- py_contains dll_function (VStr "|") ;;
        OK (task_options ++ [("function=" ++ py_str dll_function)%string],
            if multi then dict_set kwargs "package" (VStr "dll_multi") else kwargs)
      else OK (task_options, kwargs)) ;;
   let arguments := cfg_get "arguments" in
   let task_options :=
     if truthy arguments
     then task_options ++ [("arguments=" ++ py_str arguments)%string]
     else task_options in
   let kwargs :=
     if truthy (cfg_get "dump_memory") && Z.eqb (depth task) 0
     then dict_set kwargs "memory" (VBool true) else kwargs in
   let task_options :=
     if truthy (cfg_get "no_monitor") then task_options ++ ["free=yes"]
     else task_options in
   let options := String.concat "," task_options in
   let options :=
     match dict_get cfg "custom_options" with
     | Some VNone | None => options
     | Some custom_options => (options ++ "," ++ py_str custom_options)%string
     end in
   OK (dict_set kwargs "options" (VStr options)))%py.

(** The guarded part of [execute]: from machine discovery to the last
    section. *)
Definition execute_body (file_ext : string) (generate_report : value) (fuel : nat)
  : M unit :=
  ms <- cuckoo_query_machines ;;
  set_machines ms ;;;
  cuckoo_submit (file_contents task) fuel ;;;
  t <- get_task ;;
  if truthy (task_report t) then
    try_except
      (report_info <- lift (py_get (task_report t) "info" (VDict [])) ;;
       machine <- lift (py_get report_info "machine" (VDict [])) ;;
       machine_name <-
         (if is_dict machine then lift (py_get machine "name" VNone) else ret VNone) ;;
       guest_ip <-
         (match machine_name with
          | VNone => log_msg "Unable to retrieve machine name from result." ;;;
                     ret (VStr "")
          | _ => report_machine_info machine_name
          end) ;;
       log_msg "Generating AL Result from Cuckoo results.." ;;;
       st <- get_state ;;
       '(success, al_result, al_request) <-
         lift (generate_al_result (task_report t) (file_res st) (request st)
                                  file_ext guest_ip UNRESTRICTED) ;;
       set_results al_result al_request ;;;
       if negb success then
         let err_str := get_errors al_result in
         delete_if_live ;;;
         raise (CuckooProcessingException
                  ("Cuckoo was unable to process this file. " ++ err_str))
       else ret tt)
      (fun e =>
         match e with
         | RecoverableError m =>
             log_msg ("Recoverable error. Error message: " ++ m) ;;;
             delete_if_live ;;;
             raise e
         | _ =>
             log_msg "Error generating AL report: " ;;;
             delete_if_live ;;;
             t <- get_task ;;
             raise (CuckooProcessingException
                      ("Unable to generate cuckoo al report for task "
                       ++ py_str (task_id t) ++ ": " ++ exn_message e))
         end) ;;;
    (* Get the max size for extract files, used a few times after this *)
    match dict_get cfg "max_file_size" with
    | None => raise KeyError
    | Some _ =>
        (if is_true generate_report then
           log_msg "Generating cuckoo report tar.gz." ;;;
           (* Submit cuckoo analysis report archive as a supplementary file *)
           t <- get_task ;;
           tar_report <- cuckoo_query_report (task_id t) "all" ;;
           match tar_report with
           | VNone => ret tt
           | _ =>
               st <- get_state ;;
               set_results (file_res st)
                           (store_report_archive (py_str tar_report) (request st))
           end
         else ret tt) ;;;
        log_msg "Checking for dropped files and pcap." ;;;
        (* Submit dropped files and pcap if available: *)
        t <- get_task ;;
        check_dropped (task_id t) ;;;
        t <- get_task ;;
        check_pcap (task_id t) fuel ;;;
        if deep_scan task then
          (* Attach report as json as the last result section *)
          st <- get_state ;;
          t <- get_task ;;
          set_results
            (add_section (file_res st)
               (new_section "Full Cuckoo report" UNRESTRICTED JSON
                            [json_dumps (task_report t)]))
            (request st)
        else ret tt
    end
  else
    (* We didn't get a report back.. cuckoo has failed us *)
    log_msg "Raising recoverable error for running job." ;;;
    delete_if_live ;;;
    t <- get_task ;;
    raise (RecoverableError
             ("Unable to retrieve cuckoo report. The following errors were detected: "
              ++ py_str (VList (task_errors t)))).

(** What [execute] does when the guarded part is left: on an exception the
    task is deleted and the exception raised again; otherwise the task is
    deleted and the job ends. *)
Definition execute_cleanup (o : outcome unit) : M unit :=
  match o with
  | Exc e =>
      (* Delete the task now.. *)
      log_msg ("General exception caught during processing: " ++ exn_message e) ;;;
      delete_if_live ;;;
      (* Send the exception off to ServiceBase *)
      raise e
  | Ret _ =>
      (* Delete and exit *)
      delete_if_live
  | Diverge => fun st => (Diverge, st)
  end.

Definition execute (fuel : nat) : M unit :=
  fun st0 =>
    (* a fresh result, and no task yet *)
    let st := mkState None (machines st0) (net st0) (trace st0) (random_words st0)
                      [] (request st0) (log st0) in
    (name <-
       (let name := basename (file_name task) in
        (* Check the filename to see if it's mime encoded *)
        if is_mime_encoded name then
          match decode_mime_header name with
          | Some new_filename =>
              log_msg ("Using decoded filename " ++ new_filename) ;;;
              ret new_filename
          | None =>
              new_filename <- generate_random_words ;;
              log_msg ("Problem decoding filename. Using randomly generated filename "
                       ++ new_filename) ;;;
              ret new_filename
          end
        else ret name) ;;
     (* Check the file extension *)
     let original_ext := rsplit_dot name in
     match choose_extension original_ext with
     | None =>
         log_msg "Cuckoo is exiting because the file type is not supported."
     | Some (file_ext, kwargs) =>
         (* Rename based on the found extension. *)
         let name :=
           if negb (String.eqb file_ext "") && negb (String.eqb (sha256 task) "")
           then (fst original_ext ++ file_ext)%string else name in
         kwargs <- lift (build_kwargs kwargs) ;;
         set_task (mkTask name kwargs VNone VNone []) ;;;
         (fun st1 =>
            let (o, st2) := execute_body file_ext (cfg_get "generate_report") fuel st1 in
            execute_cleanup o st2)
     end) st.

End SandboxClient.

(* ================================================================= *)
(** ** A concrete set of collaborators

    Simple stand-ins for the collaborators, on which the definitions above
    can be run: a CLSID table and a whitelist of one entry each, digests
    that tag their input, and a similarity score that is 100 for equal
    hashes, 50 for hashes of the same length and 0 otherwise. *)

Definition is_hex (c : ascii) : bool :=
  let n := nat_of_ascii c in
  ((48 <=? n) && (n <=? 57) || (65 <=? n) && (n <=? 70) || (97 <=? n) && (n <=? 102))%nat.

(** [true] for a hexadecimal digit, [false] for a dash. *)
Definition uuid_shape : list bool :=
  repeat true 8 ++ [false] ++ repeat true 4 ++ [false] ++ repeat true 4 ++ [false]
  ++ repeat true 4 ++ [false] ++ repeat true 12.

Fixpoint match_shape (shape : list bool) (s : string) : option (string * string) :=
  match shape, s with
  | [], _ => Some (EmptyString, s)
  | hex :: shape', String c r =>
      if (if hex then is_hex c else Ascii.eqb c "-"%char)
      then match match_shape shape' r with
           | Some (m, rest) => Some (String c m, rest)
           | None => None
           end
      else None
  | _ :: _, EmptyString => None
  end.

(** [UUID_RE.findall]: the braced identifiers of a text, left to right,
    without overlap. *)
Fixpoint find_uuids (skip : nat) (s : string) : list string :=
  match s with
  | EmptyString => []
  | String c r =>
      match skip with
      | S n => find_uuids n r
      | O =>
          if Ascii.eqb c "{"%char then
            match match_shape uuid_shape r with
            | Some (m, String "}"%char _) => m :: find_uuids 37 r
            | _ => find_uuids 0 r
            end
          else find_uuids 0 r
      end
  end.

Definition sample_similarity (a b : string) : Z :=
  if String.eqb a b then 100%Z
  else if Nat.eqb (String.length a) (String.length b) then 50%Z
  else 0%Z.

Definition sample_clsid : string := "0002DF01-0000-0000-C000-000000000046".

#[local] Instance sample_externals : Externals := {|
  safe_str := fun v => match v with VStr s => s | _ => "" end;
  repr_container := fun _ => "[...]";
  json_dumps := fun _ => "{...}";
  ssdeep_hash := fun s => ("3:" ++ s ++ ":" ++ s)%string;
  ssdeep_compare := sample_similarity;
  sha1_hex := fun s => ("sha1:" ++ s)%string;
  sha256_hex := fun s => ("sha256:" ++ s)%string;
  md5_hex := fun s => ("md5:" ++ s)%string;
  clsids := fun u => if String.eqb u sample_clsid
                     then Some "InternetExplorer.Application" else None;
  wlist_check_ip := fun _ => false;
  wlist_check_domain := fun _ => false;
  wlist_check_hash := fun h => String.eqb h ("sha1:" ++ sample_clsid)%string;
  wlist_check_dropped := fun _ => false;
  check_signature := fun _ => 3%Z;
  uuid_findall := find_uuids 0;
  user_sid_sub := fun s => s;
  droidmon_conn_match := fun _ => None;
  max_classification := fun c => Some c;
  format_timestamp := fun _ => None
|}.

#[local] Instance sample_framework : Framework := {|
  tag_to_extension := fun _ => None;
  is_mime_encoded := fun _ => false;
  decode_mime_header := fun _ => None;
  untar := fun _ => Some [];
  store_report_archive := fun _ req => req
|}.

(* ================================================================= *)
(** ** Properties of the network flow correlator *)

Section NetworkProperties.
Context `{Externals}.

(** A report in which [domain] was resolved, and nothing else happened: one
    entry in the domain list and one DNS request without an [answers]
    field. *)
Definition dns_only_network (domain : string) : value :=
  VDict [("domains", VList [VDict [("domain", VStr domain)]]);
         ("dns", VList [VDict [("request", VStr domain); ("type", VStr "A")]])].

(** C10.  [process_network] is not total: for every domain that is not
    whitelisted, a report whose only flows for that domain are DNS requests
    without an [answers] field makes the rendering of the domain table
    iterate over [flow_lines] while it is still [None], and the function
    raises [TypeError] instead of returning a result. *)
Theorem C10_process_network_dns_without_answers_raises :
  forall (domain : string) (al_result : Result) (guest_ip : value) (cls : string),
    wlist_check_domain (VStr domain) = false ->
    process_network (dns_only_network domain) al_result guest_ip cls = Raise TypeError.
Proof.
  intros domain al_result guest_ip cls Hwl.
  unfold process_network, dns_only_network.
  cbn. unfold collect_domain_flows. rewrite Hwl. cbn.
  rewrite !String.eqb_refl. cbn.
  unfold render_domain. cbn.
  rewrite !String.eqb_refl. cbn.
  reflexivity.
Qed.

End NetworkProperties.

Lemma C10_witness :
  wlist_check_domain (VStr "evil.example") = false /\
  process_network (dns_only_network "evil.example") [] (VStr "192.168.56.101") ""
  = Raise TypeError.
Proof.
  split; [reflexivity | ].
  apply (@C10_process_network_dns_without_answers_raises sample_externals
           "evil.example" [] (VStr "192.168.56.101") "").
  reflexivity.
Defined.

(* ================================================================= *)
(** ** Properties of the report normaliser *)

Section NormalizerProperties.
Context `{Externals}.

(** The lines of the section of analysis errors: the sanitised text of every
    error whose [str] is not empty. *)
Definition error_lines (errors : list value) : list string :=
  map safe_str (filter (fun e => negb (String.eqb (py_str e) "")) errors).

Lemma process_debug_fold :
  forall errors sec,
    fold_left
      (fun sec error =>
         if negb (String.eqb (py_str error) "") then add_line sec (safe_str error)
         else sec)
      errors sec
    = mkSection (title_text sec) (classification sec) (body_format sec)
                (body sec ++ error_lines errors) (heuristic sec) (tags sec)
                (subsections sec).
Proof.
  induction errors as [|e errors IH]; intros sec; cbn.
  - unfold error_lines; cbn. rewrite app_nil_r. destruct sec; reflexivity.
  - rewrite IH. unfold error_lines; cbn.
    destruct (negb (String.eqb (py_str e) "")); cbn.
    + rewrite <- app_assoc. reflexivity.
    + reflexivity.
Qed.

(** What [process_debug] adds for a list of errors. *)
Definition debug_findings (errors : list value) (cls : string) : list ResultSection :=
  if existsb (fun ln => negb (String.eqb ln "")) (error_lines errors)
  then [new_section "Analysis Errors" cls TEXT (error_lines errors)]
  else [].

Lemma process_debug_errors :
  forall d errors al cls,
    dict_get d "errors" = Some (VList errors) ->
    process_debug (VDict d) al cls = OK (al ++ debug_findings errors cls).
Proof.
  intros d errors al cls Hd.
  unfold process_debug. cbn. unfold dict_mem. rewrite Hd. cbn.
  rewrite process_debug_fold. cbn.
  unfold debug_findings, body_nonempty, add_section. cbn.
  destruct (existsb _ (error_lines errors)).
  - reflexivity.
  - rewrite app_nil_r. reflexivity.
Qed.

Lemma process_debug_no_errors :
  forall d al cls,
    dict_get d "errors" = None ->
    process_debug (VDict d) al cls = OK al.
Proof.
  intros d al cls Hd. unfold process_debug. cbn. unfold dict_mem. rewrite Hd.
  reflexivity.
Qed.

(** The debug entry of a report, as far as [generate_al_result] reads it: it
    is missing or false, or it is a dictionary whose [errors] entry, if
    any, is a list. *)
Inductive debug_shape : option value -> list value -> Prop :=
| debug_absent : debug_shape None []
| debug_falsy : forall v, truthy v = false -> debug_shape (Some v) []
| debug_without_errors :
    forall d, truthy (VDict d) = true -> dict_get d "errors" = None ->
              debug_shape (Some (VDict d)) []
| debug_with_errors :
    forall d errors, dict_get d "errors" = Some (VList errors) ->
                     debug_shape (Some (VDict d)) errors.

(** The info entry of a report: missing or [None], or a dictionary; in the
    latter case one section is emitted for it. *)
Inductive info_shape (cls : string) : option value -> list ResultSection -> Prop :=
| info_absent : info_shape cls None []
| info_none : info_shape cls (Some VNone) []
| info_dict :
    forall d sec, info_section (VDict d) cls = OK sec ->
                  title_text sec = "Analysis Information" ->
                  info_shape cls (Some (VDict d)) [sec].

Lemma info_section_total :
  forall d cls, exists sec,
    info_section (VDict d) cls = OK sec /\ title_text sec = "Analysis Information".
Proof.
  intros d cls. unfold info_section. cbn.
  destruct (format_timestamp _); eexists; split; reflexivity.
Qed.

Lemma debug_step :
  forall dbg errors,
    debug_shape dbg errors ->
    forall cls al,
      (let debug := match dbg with Some x => x | None => VNone end in
       if truthy debug then process_debug debug al cls else OK al)
      = OK (al ++ debug_findings errors cls).
Proof.
  intros dbg errors Hshape cls al.
  destruct Hshape as [ | v Hv | d Ht Hne | d errors Hes].
  - cbn. rewrite app_nil_r. reflexivity.
  - cbv zeta. rewrite Hv. cbn. rewrite app_nil_r. reflexivity.
  - cbv zeta. rewrite Ht. rewrite process_debug_no_errors by assumption.
    cbn. rewrite app_nil_r. reflexivity.
  - cbv zeta.
    assert (Ht : truthy (VDict d) = true) by (destruct d; [discriminate Hes | reflexivity]).
    rewrite Ht. apply process_debug_errors. assumption.
Qed.

(** C6, as the code has it.  For a report without [behavior], [network],
    [signatures] and [droidmon] entries whose [info] and [debug] entries
    have the shapes above, and a valid classification, [generate_al_result]
    returns [True] and adds to the result the information section (when
    there is an [info] entry) followed by the section of analysis errors
    (when some error has a non-empty text), and nothing else; the request is
    left as it was. *)
Theorem C6_report_without_subreports :
  forall (d : dict) (al : Result) (req : ServiceRequest) (file_ext : string)
         (guest_ip : value) (svc cls : string) (errors : list value)
         (info_secs : list ResultSection),
    max_classification svc = Some cls ->
    dict_get d "behavior" = None ->
    dict_get d "network" = None ->
    dict_get d "signatures" = None ->
    dict_get d "droidmon" = None ->
    info_shape cls (dict_get d "info") info_secs ->
    debug_shape (dict_get d "debug") errors ->
    generate_al_result (VDict d) al req file_ext guest_ip svc
    = OK (true, al ++ info_secs ++ debug_findings errors cls, req).
Proof.
  intros d al req file_ext guest_ip svc cls errors info_secs
         Hcls Hb Hn Hs Hdm Hinfo Hdebug.
  unfold generate_al_result. rewrite Hcls. cbn.
  rewrite Hb, Hn, Hs, Hdm. cbn.
  pose proof (debug_step Hdebug cls) as Hdbg.
  cbv zeta in Hdbg.
  destruct Hinfo as [ | | di sec Hsec Htitle].
  - cbn. rewrite Hdbg. cbn. reflexivity.
  - cbn. rewrite Hdbg. cbn. reflexivity.
  - rewrite Hsec. cbn [bind]. rewrite Hdbg. cbn [bind].
    unfold add_section. rewrite <- !app_assoc. reflexivity.
Qed.

End NormalizerProperties.

Definition sample_request : ServiceRequest := mkRequest "/tmp/work" [] 501.

Definition report_with_debug : dict :=
  [("info", VDict [("id", VInt 7); ("version", VStr "2.0.7")]);
   ("debug", VDict [("errors", VList [VStr "The analysis hit the critical timeout"])])].

Lemma C6_witness :
  dict_get report_with_debug "behavior" = None /\
  dict_get report_with_debug "network" = None /\
  dict_get report_with_debug "signatures" = None /\
  dict_get report_with_debug "droidmon" = None /\
  generate_al_result (VDict report_with_debug) [] sample_request ".exe" (VStr "") ""
  = OK (true,
        [new_section "Analysis Information" "" KEY_VALUE ["{...}"];
         new_section "Analysis Errors" "" TEXT ["The analysis hit the critical timeout"]],
        sample_request).
Proof.
  repeat (split; [reflexivity | ]).
  apply (@C6_report_without_subreports sample_externals report_with_debug []
           sample_request ".exe" (VStr "") "" ""
           [VStr "The analysis hit the critical timeout"]
           [new_section "Analysis Information" "" KEY_VALUE ["{...}"]]);
    try reflexivity.
  - apply info_dict; reflexivity.
  - apply debug_with_errors. reflexivity.
Defined.

(** C6, as stated, fails: a report with an [info] entry and none of the
    three sub-reports yields a finding that is not the debug-error one, and
    a report whose [debug] entry is a number makes the normaliser raise. *)
Lemma C6_counterexample :
  let report := [("info", VDict [("id", VInt 7)])] in
  let broken := [("debug", VInt 5)] in
  (dict_get report "behavior" = None /\
   dict_get report "network" = None /\
   dict_get report "signatures" = None /\
   dict_get report "debug" = None /\
   generate_al_result (VDict report) [] sample_request ".exe" (VStr "") ""
   = OK (true, [new_section "Analysis Information" "" KEY_VALUE ["{...}"]],
         sample_request)) /\
  (dict_get broken "behavior" = None /\
   dict_get broken "network" = None /\
   dict_get broken "signatures" = None /\
   generate_al_result (VDict broken) [] sample_request ".exe" (VStr "") ""
   = Raise TypeError).
Proof.
  cbv zeta. repeat split; reflexivity.
Qed.

(* ----------------------------------------------------------------- *)
(** *** The behavioural categories *)

Section CategoryProperties.
Context `{Externals}.

Lemma query_section_fold :
  forall (tag_type : option string) items sec,
    let sec' :=
      fold_left
        (fun sec item =>
           let ln := safe_str item in
           let sec := add_line sec ln in
           match tag_type with
           | Some ty => add_tag sec ty (VStr ln)
           | None => sec
           end)
        items sec in
    title_text sec' = title_text sec /\
    body sec' = body sec ++ map safe_str items.
Proof.
  intros tag_type items. induction items as [|x items IH]; intros sec; cbn.
  - split; [reflexivity | now rewrite app_nil_r].
  - cbv zeta in IH.
    destruct tag_type as [ty|]; cbn;
      match goal with
      | |- context [fold_left ?f items ?s] => destruct (IH s) as [Ht Hb]
      end; rewrite Ht, Hb; cbn; rewrite <- app_assoc; split; reflexivity.
Qed.

Lemma substring_length_le :
  forall n s, String.length (String.substring 0 n s) <= n.
Proof.
  induction n as [|n IH]; intros s.
  - destruct s; cbn; lia.
  - destruct s as [|c s]; cbn; [lia | ]. specialize (IH s). lia.
Qed.

Lemma chars_length : forall s, List.length (chars s) = String.length s.
Proof. induction s as [|c s IH]; cbn; [reflexivity | now rewrite IH]. Qed.

(** A slice has at most as many items as its bound. *)
Lemma slice_items_bounded :
  forall v n v' items,
    py_slice_to v n = OK v' -> py_iter v' = OK items -> List.length items <= n.
Proof.
  intros v n v' items Hs Hi.
  destruct v; cbn in Hs; try discriminate; inversion Hs; subst; cbn in Hi;
    inversion Hi; subst.
  - rewrite length_map, chars_length. apply substring_length_le.
  - apply firstn_le_length.
Qed.

(** What one turn of the loop over [result_queries] does to the result. *)
Lemma process_query_spec :
  forall behavior cls al req rs q title limit tag al' req' rs',
    process_query behavior cls (al, req, rs) (q, title, limit, tag)
    = OK (al', req', rs') ->
    exists v,
      summary_get behavior q = OK v /\
      ((truthy v = false /\ al' = al /\ rs' = rs) \/
       (truthy v = true /\
        exists sec items,
          al' = al ++ [sec] /\ rs' = Some (List.length al) /\
          body sec = map safe_str items /\
          match limit with
          | Some n =>
              title_text sec = (title ++ " (Limit " ++ str_of_Z (Z.of_nat n) ++ ")")%string
              /\ List.length items <= n
          | None => title_text sec = title /\ py_iter v = OK items
          end)).
Proof.
  intros behavior cls al req rs q title limit tag al' req' rs' Hq.
  unfold process_query in Hq.
  destruct (summary_get behavior q) as [v|e] eqn:Hv; cbn in Hq; [ | discriminate].
  exists v. split; [reflexivity | ].
  destruct (truthy v) eqn:Ht.
  - right. split; [reflexivity | ].
    destruct limit as [n|]; cbn in Hq.
    + destruct (py_slice_to v n) as [v'|e] eqn:Hs; cbn in Hq; [ | discriminate].
      destruct (py_iter v') as [items|e] eqn:Hi; cbn in Hq; [ | discriminate].
      match type of Hq with
      | context [fold_left ?f items ?s] =>
          pose proof (query_section_fold tag items s) as Hfold;
          cbv zeta in Hfold; destruct Hfold as [Htitle Hbody];
          set (sec := fold_left f items s) in *
      end.
      destruct (if String.eqb q "command_line" then _ else _) as [req1|e];
        cbn in Hq; [ | discriminate].
      inversion Hq; subst.
      exists sec, items. repeat split; try assumption.
      eapply slice_items_bounded; eassumption.
    + destruct (py_iter v) as [items|e] eqn:Hi; cbn in Hq; [ | discriminate].
      match type of Hq with
      | context [fold_left ?f items ?s] =>
          pose proof (query_section_fold tag items s) as Hfold;
          cbv zeta in Hfold; destruct Hfold as [Htitle Hbody];
          set (sec := fold_left f items s) in *
      end.
      destruct (if String.eqb q "command_line" then _ else _) as [req1|e];
        cbn in Hq; [ | discriminate].
      inversion Hq; subst.
      exists sec, items. repeat split; assumption.
  - left. inversion Hq; subst. repeat split; reflexivity.
Qed.

(** A section seen through what the claims speak of: its title and the
    lines of its body. *)
Definition shape (sec : ResultSection) : string * list string :=
  (title_text sec, body sec).

(** [sh] is the shape of the section the loop builds for the query
    [(q, title, limit, _)]. *)
Definition shape_of_query (behavior : value) (q title : string) (limit : option nat)
  (sh : string * list string) : Prop :=
  exists v items,
    summary_get behavior q = OK v /\ truthy v = true /\
    snd sh = map safe_str items /\
    match limit with
    | Some n =>
        fst sh = (title ++ " (Limit " ++ str_of_Z (Z.of_nat n) ++ ")")%string
        /\ List.length items <= n
    | None => fst sh = title /\ py_iter v = OK items
    end.

(** [res_sec], when set, points into the part of the result added since
    [al]. *)
Definition res_sec_ok (al new : Result) (rs : option nat) : Prop :=
  match rs with
  | None => True
  | Some i => List.length al <= i < List.length (al ++ new)
  end.

Lemma queries_loop_spec :
  forall behavior cls qs al new0 req rs al' req' rs',
    for_each qs (process_query behavior cls) (al ++ new0, req, rs)
    = OK (al', req', rs') ->
    res_sec_ok al new0 rs ->
    exists new1,
      al' = al ++ new0 ++ new1 /\
      res_sec_ok al (new0 ++ new1) rs' /\
      (forall sec, In sec new1 ->
         exists q title limit tag,
           In (q, title, limit, tag) qs /\
           shape_of_query behavior q title limit (shape sec)) /\
      (forall q title limit tag v,
         In (q, title, limit, tag) qs ->
         summary_get behavior q = OK v -> truthy v = true ->
         exists sec, In sec new1 /\ shape_of_query behavior q title limit (shape sec)).
Proof.
  intros behavior cls qs.
  induction qs as [|[[[q title] limit] tag] qs IH];
    intros al new0 req rs al' req' rs' Hloop Hrs.
  - cbn in Hloop. inversion Hloop; subst. exists [].
    rewrite !app_nil_r. repeat split; try assumption.
    + intros sec [].
    + intros ? ? ? ? ? [].
  - cbn [for_each] in Hloop.
    destruct (process_query behavior cls (al ++ new0, req, rs) (q, title, limit, tag))
      as [[[al1 req1] rs1]|e] eqn:Hstep; cbn [bind] in Hloop; [ | discriminate].
    apply process_query_spec in Hstep.
    destruct Hstep as [v [Hv [[Ht [Hal Hrs1]] | [Ht [sec [items [Hal [Hrs1 [Hb Hl]]]]]]]]];
      subst al1 rs1.
    + destruct (IH _ _ _ _ _ _ _ Hloop Hrs) as [new1 [Heq [Hrs' [P1 P2]]]].
      exists new1. repeat split; try assumption.
      * intros s Hs. destruct (P1 s Hs) as [q0 [t0 [l0 [g0 [Hin Hsh]]]]].
        exists q0, t0, l0, g0. split; [right; assumption | assumption].
      * intros q0 t0 l0 g0 v0 [Heq0 | Hin] Hv0 Ht0.
        -- inversion Heq0; subst. rewrite Hv in Hv0. inversion Hv0; subst.
           rewrite Ht in Ht0. discriminate.
        -- eapply P2; eassumption.
    + rewrite <- app_assoc in Hloop.
      assert (Hrs1 : res_sec_ok al (new0 ++ [sec]) (Some (List.length (al ++ new0)))).
      { cbn. rewrite !length_app. cbn. lia. }
      destruct (IH _ _ _ _ _ _ _ Hloop Hrs1) as [new1 [Heq [Hrs' [P1 P2]]]].
      assert (Hsec : shape_of_query behavior q title limit (shape sec)).
      { exists v, items. do 3 (split; [assumption | ]). exact Hl. }
      exists (sec :: new1). rewrite <- app_assoc in Heq, Hrs'. cbn in Heq, Hrs'.
      repeat split; try assumption.
      * intros s [Hs | Hs].
        -- subst s. exists q, title, limit, tag. split; [left; reflexivity | assumption].
        -- destruct (P1 s Hs) as [q0 [t0 [l0 [g0 [Hin Hsh]]]]].
           exists q0, t0, l0, g0. split; [right; assumption | assumption].
      * intros q0 t0 l0 g0 v0 [Heq0 | Hin] Hv0 Ht0.
        -- inversion Heq0; subst. exists sec. split; [left; reflexivity | assumption].
        -- destruct (P2 _ _ _ _ _ Hin Hv0 Ht0) as [s [Hs Hsh]].
           exists s. split; [right; assumption | assumption].
Qed.

Lemma map_update_nth :
  forall (A B : Type) (f : A -> B) (g : A -> A) (l : list A) (j : nat),
    (forall x, f (g x) = f x) ->
    map f (firstn j l ++
           match nth_error l j with Some x => [g x] | None => [] end ++
           skipn (S j) l)
    = map f l.
Proof.
  intros A B f g l. induction l as [|x l IH]; intros j Hfg.
  - destruct j; reflexivity.
  - destruct j as [|j].
    + cbn. rewrite Hfg. reflexivity.
    + cbn [firstn nth_error skipn app map]. f_equal.
      specialize (IH j Hfg).
      destruct l as [|y l]; [destruct j; reflexivity | exact IH].
Qed.

(** Tagging [res_sec] changes no title and no body, and stays within the
    part of the result added since [al]. *)
Lemma tag_res_sec_spec :
  forall al new rs ty v al',
    tag_res_sec (al ++ new) rs ty v = OK al' ->
    res_sec_ok al new rs ->
    exists new', al' = al ++ new' /\ map shape new' = map shape new.
Proof.
  intros al new rs ty v al' Htag Hrs.
  destruct rs as [i|]; unfold tag_res_sec in Htag; [ | discriminate].
  cbn in Hrs. rewrite length_app in Hrs.
  injection Htag as Htag. subst al'.
  change (match al ++ new with [] => [] | _ :: l => skipn i l end)
    with (skipn (S i) (al ++ new)).
  rewrite firstn_app, skipn_app, nth_error_app2 by lia.
  rewrite firstn_all2 by lia.
  replace (skipn (S i) al) with (@nil ResultSection) by (symmetry; apply skipn_all2; lia).
  replace (S i - List.length al) with (S (i - List.length al)) by lia.
  set (j := i - List.length al).
  exists (firstn j new ++
          match nth_error new j with Some sec => [add_tag sec ty v] | None => [] end
          ++ skipn (S j) new).
  split.
  - cbn. rewrite <- !app_assoc. reflexivity.
  - apply map_update_nth. intros sec. reflexivity.
Qed.

Lemma clsid_section_title :
  forall (cm : list (string * string)) (keys : list string) (sec : ResultSection),
    title_text
      (fold_left
         (fun sec clsid =>
            match sm_get cm clsid with
            | Some uuid => add_line sec (clsid ++ " : " ++ uuid)%string
            | None => sec
            end)
         keys sec)
    = title_text sec.
Proof.
  intros cm keys. induction keys as [|k keys IH]; intros sec; cbn; [reflexivity | ].
  rewrite IH. destruct (sm_get cm k); reflexivity.
Qed.

(** Inversion of one step of the error monad. *)
Ltac bind_ok H x E :=
  match type of H with
  | bind ?c _ = OK _ =>
      destruct c as [x|] eqn:E; cbn [bind] in H; [ | discriminate H]
  end.

(** C7.  Whenever [process_behavior] returns, the sections it added are such
    that a section carrying the title of a limited category (directories
    created or deleted, modules loaded, files deleted, the two file checks,
    registry keys written) has at most 25 lines, and every non-empty
    unlimited category (commands, downloads, written files, WMI queries,
    mutexes) has a section whose lines are all the items of the input, in
    order. *)
Theorem C7_category_limits :
  forall (behavior : value) (al : Result) (req : ServiceRequest) (cls : string)
         (executed : bool) (al' : Result) (req' : ServiceRequest),
    process_behavior behavior al req cls = OK (executed, al', req') ->
    exists new,
      al' = al ++ new /\
      (forall sec q title tag,
         In sec new ->
         In (q, title, Some result_limit, tag) result_queries ->
         title_text sec = (title ++ " (Limit 25)")%string ->
         List.length (body sec) <= 25) /\
      (forall q title tag v,
         In (q, title, None, tag) result_queries ->
         summary_get behavior q = OK v -> truthy v = true ->
         exists items sec,
           py_iter v = OK items /\ In sec new /\
           title_text sec = title /\ body sec = map safe_str items).
Proof.
  intros behavior al req cls executed al' req' Hpb.
  unfold process_behavior in Hpb.
  bind_ok Hpb keys1 E1. bind_ok Hpb ks1 E2. bind_ok Hpb rm1 E3.
  bind_ok Hpb keys2 E4. bind_ok Hpb ks2 E5. bind_ok Hpb rm2 E6.
  bind_ok Hpb pt E7. bind_ok Hpb procs E8. bind_ok Hpb ps E9. bind_ok Hpb rm3 E10.
  bind_ok Hpb guids E11.
  bind_ok Hpb st E12. destruct st as [[al1 req1] rs1].
  bind_ok Hpb n_guids E13. bind_ok Hpb rm4 E14.
  (* the loop over the categories *)
  rewrite <- (app_nil_r al) in E12.
  apply queries_loop_spec in E12; [ | exact I].
  destruct E12 as [new1 [Hal1 [Hrs1 [P1 P2]]]]. cbn [app] in Hal1, Hrs1. subst al1.
  (* the two taggings and the CLSID section keep every title and body *)
  bind_ok Hpb st E15. destruct st as [ex al2].
  assert (H2 : exists new2 extra,
             al2 = al ++ new2 ++ extra /\ map shape new2 = map shape new1 /\
             (extra = [] \/ exists sec, extra = [sec] /\ title_text sec = "CLSIDs")).
  { destruct (bm_clsids rm4) as [[|c cm]|].
    - injection E15 as Hex Hal2. subst ex al2. exists new1, []. rewrite app_nil_r.
      repeat split; try assumption. left; reflexivity.
    - bind_ok E15 al3 E16.
      destruct (tag_res_sec_spec _ _ _ _ _ E16 Hrs1) as [new2 [Heq Hshape]].
      injection E15 as Hex Hal2. subst ex al2 al3.
      unfold add_section. rewrite <- app_assoc.
      eexists new2, [_]. split; [reflexivity | ]. split; [assumption | ].
      right. eexists. split; [reflexivity | ].
      exact (clsid_section_title (c :: cm) _ _).
    - injection E15 as Hex Hal2. subst ex al2. exists new1, []. rewrite app_nil_r.
      repeat split; try assumption. left; reflexivity. }
  destruct H2 as [new2 [extra [Hal2 [Hshape2 Hextra]]]]. subst al2.
  assert (Hrs2 : res_sec_ok al (new2 ++ extra) rs1).
  { destruct rs1 as [i|]; [ | exact I]. cbn in Hrs1 |- *.
    rewrite !length_app in *.
    assert (Hlen : List.length new2 = List.length new1)
      by (rewrite <- (length_map shape new2), Hshape2, length_map; reflexivity).
    lia. }
  assert (H3 : exists new3,
             al' = al ++ new3 /\ map shape new3 = map shape new1 ++ map shape extra).
  { bind_ok Hpb al3 E17. injection Hpb as _ Hal3 _. subst al3.
    destruct (bm_regkeys rm4) as [[|k ks]|].
    - injection E17 as <-. exists (new2 ++ extra).
      split; [reflexivity | ]. rewrite map_app, Hshape2. reflexivity.
    - destruct (tag_res_sec_spec _ _ _ _ _ E17 Hrs2) as [new3 [Heq Hshape3]].
      exists new3. split; [assumption | ].
      rewrite Hshape3, map_app, Hshape2. reflexivity.
    - injection E17 as <-. exists (new2 ++ extra).
      split; [reflexivity | ]. rewrite map_app, Hshape2. reflexivity. }
  destruct H3 as [new3 [Hal' Hshape3]].
  exists new3. split; [assumption | ]. split.
  - (* limited categories *)
    intros sec q title tag Hsec Hq Htitle.
    apply (in_map shape) in Hsec. rewrite Hshape3 in Hsec.
    apply in_app_or in Hsec. destruct Hsec as [Hsec | Hsec].
    + apply in_map_iff in Hsec. destruct Hsec as [sec1 [Hsh Hin1]].
      destruct (P1 sec1 Hin1) as [q0 [t0 [l0 [g0 [Hin0 Hq0]]]]].
      destruct Hq0 as [v [items [Hv [Ht [Hbody Hlim]]]]].
      rewrite Hsh in Hbody, Hlim. cbn [shape fst snd] in Hbody, Hlim.
      destruct l0 as [n|].
      * destruct Hlim as [_ Hlen]. rewrite Hbody, length_map.
        assert (Hn : n = 25).
        { cbn in Hin0. unfold result_limit in Hin0.
          repeat (destruct Hin0 as [Hin0 | Hin0];
                  [inversion Hin0; reflexivity | ]).
          destruct Hin0. }
        lia.
      * exfalso. destruct Hlim as [Ht0 _]. rewrite Htitle in Ht0.
        cbn in Hq, Hin0.
        repeat (destruct Hq as [Hq | Hq]; [inversion Hq; subst | ]);
          try (destruct Hq);
          repeat (destruct Hin0 as [Hin0 | Hin0]; [inversion Hin0; subst | ]);
          try (destruct Hin0); discriminate Ht0.
    + exfalso. destruct Hextra as [-> | [sx [-> Hx]]]; [destruct Hsec | ].
      destruct Hsec as [Hsec | []].
      unfold shape in Hsec. injection Hsec as Ht0 _. rewrite Hx, Htitle in Ht0.
      cbn in Hq.
      repeat (destruct Hq as [Hq | Hq]; [inversion Hq; subst | ]);
        try (destruct Hq); discriminate Ht0.
  - (* unlimited categories *)
    intros q title tag v Hq Hv Ht.
    destruct (P2 _ _ _ _ _ Hq Hv Ht) as [sec1 [Hin1 Hq1]].
    destruct Hq1 as [v1 [items [Hv1 [_ [Hbody [Htitle Hiter]]]]]].
    rewrite Hv in Hv1. injection Hv1 as <-.
    assert (Hin3 : In (shape sec1) (map shape new3)).
    { rewrite Hshape3. apply in_or_app. left. apply in_map. assumption. }
    apply in_map_iff in Hin3. destruct Hin3 as [sec [Hsh Hin3]].
    exists items, sec. split; [assumption | ]. split; [assumption | ].
    unfold shape in Hsh. injection Hsh as Ht3 Hb3.
    cbn [shape fst snd] in Hbody, Htitle.
    split; congruence.
Qed.

End CategoryProperties.

(** A behaviour report with thirty loaded modules, three commands and no
    process. *)
Definition sample_behavior : value :=
  VDict [("processes", VList []);
         ("summary",
          VDict [("dll_loaded",
                  VList (map (fun n => VStr ("module" ++ str_of_Z (Z.of_nat n) ++ ".dll"))
                             (seq 0 30)));
                 ("command_line",
                  VList [VStr "cmd.exe /c a.bat"; VStr "powershell -enc AAAA";
                         VStr "whoami"])])].

Lemma C7_witness :
  exists executed al' req' new,
    process_behavior sample_behavior [] sample_request "" = OK (executed, al', req') /\
    al' = [] ++ new /\
    (forall sec q title tag,
       In sec new ->
       In (q, title, Some result_limit, tag) result_queries ->
       title_text sec = (title ++ " (Limit 25)")%string ->
       List.length (body sec) <= 25) /\
    (forall q title tag v,
       In (q, title, None, tag) result_queries ->
       summary_get sample_behavior q = OK v -> truthy v = true ->
       exists items sec,
         py_iter v = OK items /\ In sec new /\
         title_text sec = title /\ body sec = map safe_str items).
Proof.
  destruct (process_behavior sample_behavior [] sample_request "")
    as [[[executed al'] req']|e] eqn:Hrun; [ | vm_compute in Hrun; discriminate Hrun].
  destruct (@C7_category_limits sample_externals sample_behavior [] sample_request ""
              executed al' req' Hrun) as [new Hnew].
  exists executed, al', req', new. split; [reflexivity | exact Hnew].
Defined.

(* ----------------------------------------------------------------- *)
(** *** Whitelisted COM activity *)

Definition com_call : value :=
  VDict [("api", VStr "CoCreateInstance");
         ("arguments",
          VDict [("clsid", VStr "{0002df01-0000-0000-c000-000000000046}")])].

(** A report whose only behaviour is the creation of one COM object, the
    class of which is on the whitelist, together with network data and a
    signature match.  [summary] holds the behavioural summary. *)
Definition com_report (summary : dict) : value :=
  VDict [("behavior",
          VDict [("processes", VList [VDict [("calls", VList [com_call])]]);
                 ("summary", VDict summary)]);
         ("network", VDict [("hosts", VList [VStr "203.0.113.7"])]);
         ("signatures", VList [VDict [("name", VStr "dropper")]])].

(** C3, at an input where the code departs from it.  The class identifier
    resolves and its set is on the whitelist, but the summary has no
    category to report: [res_sec] is still [None] when the similarity hash
    of the identifiers is attached to it, and the normaliser raises instead
    of emitting the note. *)
Theorem C3_whitelisted_clsids_without_category_raise :
  wlist_check_hash (sha1_hex (String.concat "," [sample_clsid])) = true /\
  generate_al_result (com_report []) [] sample_request ".docx" (VStr "") ""
  = Raise AttributeError.
Proof. split; reflexivity. Qed.

(** The same report with one category in its summary: the note is emitted,
    and neither the network data nor the signature is reported. *)
Lemma whitelisted_clsids_with_category_suppress :
  exists al req,
    generate_al_result (com_report [("dll_loaded", VList [VStr "ole32.dll"])]) []
                       sample_request ".docx" (VStr "") ""
    = OK (true, al, req) /\
    titles al = ["Modules Loaded (Limit 25)"; "CLSIDs"; "Notes"].
Proof. eexists _, _. split; reflexivity. Qed.

(* ================================================================= *)
(** ** Properties of the dropped-file extractor *)

(** The collaborators [E] with another similarity hash. *)
Definition with_similarity (E : Externals) (h : string -> string)
  (c : string -> string -> Z) : Externals := {|
  safe_str := @safe_str E;
  repr_container := @repr_container E;
  json_dumps := @json_dumps E;
  ssdeep_hash := h;
  ssdeep_compare := c;
  sha1_hex := @sha1_hex E;
  sha256_hex := @sha256_hex E;
  md5_hex := @md5_hex E;
  clsids := @clsids E;
  wlist_check_ip := @wlist_check_ip E;
  wlist_check_domain := @wlist_check_domain E;
  wlist_check_hash := @wlist_check_hash E;
  wlist_check_dropped := @wlist_check_dropped E;
  check_signature := @check_signature E;
  uuid_findall := @uuid_findall E;
  user_sid_sub := @user_sid_sub E;
  droidmon_conn_match := @droidmon_conn_match E;
  max_classification := @max_classification E;
  format_timestamp := @format_timestamp E
|}.

Section DroppedFileProperties.
Context `{Externals}.

Variable task : ServiceTask.

(** C1, as the code has it.  The similarity test is antitone in the
    configured percentage: against the same accepted hashes, a file skipped
    at a percentage is skipped at every lower one, so that raising the
    percentage can only skip fewer files; and a second blob is skipped as a
    duplicate of a first exactly when [ssdeep.compare] scores their hashes
    at or above the percentage. *)
Theorem C1_similarity_threshold_antitone :
  forall (pct1 pct2 : Z) (h : string) (added_hashes : list string) (b1 b2 : string),
    (pct1 <= pct2)%Z ->
    (skip_file pct2 h added_hashes = true -> skip_file pct1 h added_hashes = true) /\
    skip_file pct1 (ssdeep_hash b2) [ssdeep_hash b1]
    = (pct1 <=? ssdeep_compare (ssdeep_hash b2) (ssdeep_hash b1))%Z.
Proof.
  intros pct1 pct2 h added_hashes b1 b2 Hle. split.
  - unfold skip_file. rewrite !existsb_exists.
    intros [seen [Hin Hge]]. exists seen. split; [assumption | ].
    apply Z.leb_le in Hge. apply Z.leb_le. lia.
  - unfold skip_file. cbn. apply orb_false_r.
Qed.

(** A file the similarity test skips is not offered for extraction, and
    leaves the accepted hashes as they were. *)
Lemma skipped_member_not_offered :
  forall (pct : Z) (added_hashes : list string) (req : ServiceRequest)
         (tarobj : tar_member) (name : string),
    deep_scan task = false ->
    tar_isfile tarobj = true ->
    after_first_underscore (replace_char "/"%char "_"%char (tar_name tarobj)) = OK name ->
    skip_file pct (ssdeep_hash (tar_data tarobj)) added_hashes = true ->
    check_dropped_member task pct (added_hashes, req) tarobj = OK (added_hashes, req).
Proof.
  intros pct added_hashes req tarobj name Hdeep Hfile Hname Hskip.
  unfold check_dropped_member. rewrite Hfile, Hname. cbn [bind].
  rewrite Hdeep. cbn [negb]. rewrite Hskip. reflexivity.
Qed.

(** C9, as the code has it.  In a deep scan, a file member of the archive
    whose digest differs from the submitted file's and which none of the
    static exclusions covers (the hash whitelist, the name whitelist, and
    names ending in [_info.txt]) is offered for extraction whatever the
    accepted hashes and the percentage are; the accepted hashes are left as
    they were, and the similarity hash plays no part in the outcome. *)
Theorem C9_deep_scan_bypasses_similarity :
  forall (pct : Z) (added_hashes : list string) (req : ServiceRequest)
         (tarobj : tar_member) (name : string),
    deep_scan task = true ->
    tar_isfile tarobj = true ->
    after_first_underscore (replace_char "/"%char "_"%char (tar_name tarobj)) = OK name ->
    String.eqb (md5_hex (tar_data tarobj)) (md5 task) = false ->
    dropped_excluded (md5_hex (tar_data tarobj)) (basename (tar_name tarobj)) = false ->
    check_dropped_member task pct (added_hashes, req) tarobj
    = bind (add_extracted req (path_join (working_directory req) name)
                          (basename (tar_name tarobj))
                          "Dropped file during Cuckoo analysis.")
           (fun req' => OK (added_hashes, req')) /\
    (forall hash compare,
        @check_dropped_member (with_similarity _ hash compare) task pct
                              (added_hashes, req) tarobj
        = check_dropped_member task pct (added_hashes, req) tarobj).
Proof.
  intros pct added_hashes req tarobj name Hdeep Hfile Hname Hmd5 Hexcl.
  split.
  - unfold check_dropped_member. rewrite Hfile, Hname. cbn [bind].
    rewrite Hdeep. cbn [negb]. rewrite Hmd5, Hexcl. reflexivity.
  - intros hash compare. unfold check_dropped_member.
    rewrite Hfile, Hname, Hdeep. reflexivity.
Qed.

End DroppedFileProperties.

Definition sample_task (deep : bool) : ServiceTask :=
  mkServiceTask "invoice.docx" "PK..." "document/office/word" "ab12" "md5:PK..." deep 0.

Definition dropped_a : tar_member := mkMember true "files/1_a.bin" "abc".
Definition dropped_b : tar_member := mkMember true "files/2_b.bin" "abd".
Definition dropped_info : tar_member := mkMember true "files/3_run_info.txt" "log".

Lemma C1_witness :
  (40 <= 60)%Z /\
  (skip_file 60 (ssdeep_hash "abc") [ssdeep_hash "abc"] = true ->
   skip_file 40 (ssdeep_hash "abc") [ssdeep_hash "abc"] = true) /\
  skip_file 40 (ssdeep_hash "abd") [ssdeep_hash "abc"]
  = (40 <=? ssdeep_compare (ssdeep_hash "abd") (ssdeep_hash "abc"))%Z.
Proof.
  split; [lia | ].
  apply (@C1_similarity_threshold_antitone sample_externals 40%Z 60%Z
           (ssdeep_hash "abc") [ssdeep_hash "abc"] "abc" "abd").
  lia.
Defined.

(** C1, as stated, fails: with the second blob scoring 50 against the
    first, raising the percentage from 40 to 60 turns a skipped duplicate
    into an extracted file. *)
Lemma C1_counterexample :
  (40 <= 60)%Z /\
  ssdeep_compare (ssdeep_hash "abd") (ssdeep_hash "abc") = 50%Z /\
  skip_file 40 (ssdeep_hash "abd") [ssdeep_hash "abc"] = true /\
  skip_file 60 (ssdeep_hash "abd") [ssdeep_hash "abc"] = false /\
  map (fun f => snd (fst f))
      (extracted (snd (fst (check_dropped_loop (sample_task false) 40
                              [dropped_a; dropped_b] ([], sample_request)))))
  = ["1_a.bin"] /\
  map (fun f => snd (fst f))
      (extracted (snd (fst (check_dropped_loop (sample_task false) 60
                              [dropped_a; dropped_b] ([], sample_request)))))
  = ["1_a.bin"; "2_b.bin"].
Proof. repeat split; try reflexivity. lia. Qed.

Lemma C9_witness :
  check_dropped_member (sample_task true) 80 ([ssdeep_hash "abc"], sample_request)
                       dropped_b
  = OK ([ssdeep_hash "abc"],
        mkRequest "/tmp/work"
                  [("/tmp/work/2_b.bin", "2_b.bin", "Dropped file during Cuckoo analysis.")]
                  501) /\
  (forall hash compare,
      @check_dropped_member (with_similarity sample_externals hash compare)
                            (sample_task true) 80
                            ([ssdeep_hash "abc"], sample_request) dropped_b
      = check_dropped_member (sample_task true) 80
                             ([ssdeep_hash "abc"], sample_request) dropped_b).
Proof.
  apply (@C9_deep_scan_bypasses_similarity sample_externals (sample_task true) 80%Z
           [ssdeep_hash "abc"] sample_request dropped_b "2_b.bin"); reflexivity.
Defined.

(** C9, as stated, fails: in a deep scan a dropped file named
    [3_run_info.txt], whose digest differs from the submitted file's and
    which is on neither whitelist, is not offered for extraction. *)
Lemma C9_counterexample :
  deep_scan (sample_task true) = true /\
  String.eqb (md5_hex (tar_data dropped_info)) (md5 (sample_task true)) = false /\
  wlist_check_hash (md5_hex (tar_data dropped_info)) = false /\
  wlist_check_dropped (basename (tar_name dropped_info)) = false /\
  check_dropped_member (sample_task true) 80 ([], sample_request) dropped_info
  = OK ([], sample_request).
Proof. repeat split; reflexivity. Qed.

(* ================================================================= *)
(** ** Properties of the task runner *)

Fixpoint has_dot (s : string) : bool :=
  match s with
  | EmptyString => false
  | String c r => Ascii.eqb c "."%char || has_dot r
  end.

Lemma rsplit_dot_without_dot :
  forall s, has_dot s = false -> rsplit_dot s = (s, None).
Proof.
  induction s as [|c s IH]; cbn; intros Hs; [reflexivity | ].
  apply orb_false_iff in Hs. destruct Hs as [Hc Hs].
  rewrite (IH Hs), Hc. reflexivity.
Qed.

Lemma rsplit_dot_none :
  forall s h, rsplit_dot s = (h, None) -> h = s /\ has_dot s = false.
Proof.
  induction s as [|c s IH]; cbn; intros h Hr.
  - inversion Hr. split; reflexivity.
  - destruct (rsplit_dot s) as [h' [t'|]] eqn:Hr'; [discriminate | ].
    destruct (Ascii.eqb c "."%char) eqn:Hc; [discriminate | ].
    destruct (IH h' eq_refl) as [-> Hs]. inversion Hr; subst.
    split; [reflexivity | ]. rewrite Hs. reflexivity.
Qed.

Lemma rsplit_dot_tail_without_dot :
  forall s h t, rsplit_dot s = (h, Some t) -> has_dot t = false.
Proof.
  induction s as [|c s IH]; cbn; intros h t Hs; [discriminate | ].
  destruct (rsplit_dot s) as [h' [t'|]] eqn:Hr.
  - inversion Hs; subst. eapply IH. reflexivity.
  - destruct (Ascii.eqb c "."%char) eqn:Hc; inversion Hs; subst.
    destruct (rsplit_dot_none _ Hr) as [-> Hd]. exact Hd.
Qed.

Lemma rsplit_last_without_dot : forall s, has_dot (rsplit_last s) = false.
Proof.
  intros s. unfold rsplit_last. destruct (rsplit_dot s) as [h [t|]] eqn:Hr.
  - eapply rsplit_dot_tail_without_dot. eassumption.
  - destruct (rsplit_dot_none _ Hr) as [-> Hd]. exact Hd.
Qed.

(** The renaming keeps what follows the last dot: the random word may be
    anything, the extension is found again behind the dot that was added. *)
Lemma rename_keeps_extension :
  forall word name,
    rsplit_last (word ++ "." ++ rsplit_last name)%string = rsplit_last name.
Proof.
  intros word name.
  pose proof (rsplit_last_without_dot name) as He.
  set (e := rsplit_last name) in *. clearbody e.
  unfold rsplit_last.
  assert (Hr : rsplit_dot (word ++ "." ++ e)%string = (word, Some e)).
  { induction word as [|c w IH]; cbn.
    - rewrite (rsplit_dot_without_dot _ He). reflexivity.
    - cbn in IH. rewrite IH. reflexivity. }
  rewrite Hr. reflexivity.
Qed.

Section SubmissionProperties.
Context `{Externals} `{Framework}.

Variable cfg : dict.

(** The name a file gets when it is renamed with the random word [word]. *)
Definition renamed (word name : string) : string :=
  (word ++ "." ++ rsplit_last name)%string.

Definition file_of (st : state) : option string := option_map task_file (cuckoo_task st).
Definition id_of (st : state) : option value := option_map task_id (cuckoo_task st).

(** C5.  A job without a task identifier whose first three submissions are
    answered with status 500 posts the file exactly three times, each time
    after the first under a fresh random name that keeps what follows the
    last dot, consumes exactly those three answers, and fails with the
    submission error, which the clean-up of [execute] raises again without
    making a request. *)
Theorem C5_submission_500_three_attempts :
  forall (content : string) (fuel : nat) (st : state) (t : CuckooTask)
         (j1 j2 j3 : option value) (c1 c2 c3 : string) (rest : list http_result),
    cuckoo_task st = Some t ->
    task_id t = VNone ->
    net st = Response 500 j1 c1 :: Response 500 j2 c2 :: Response 500 j3 c3 :: rest ->
    let w1 := hd "aa" (random_words st) in
    let w2 := hd "aa" (tl (random_words st)) in
    let w3 := hd "aa" (tl (tl (random_words st))) in
    let f1 := renamed w1 (task_file t) in
    let f2 := renamed w2 f1 in
    let f3 := renamed w3 f2 in
    let run := cuckoo_submit cfg content fuel st in
    fst run = Exc (RecoverableError "Unable to submit to Cuckoo") /\
    trace (snd run)
    = POST_submit f2 (task_kwargs t) :: POST_submit f1 (task_kwargs t)
      :: POST_submit (task_file t) (task_kwargs t) :: trace st /\
    net (snd run) = rest /\
    file_of (snd run) = Some f3 /\
    id_of (snd run) = Some VNone /\
    rsplit_last f1 = rsplit_last (task_file t) /\
    rsplit_last f2 = rsplit_last (task_file t) /\
    rsplit_last f3 = rsplit_last (task_file t) /\
    fst (execute_cleanup (fst run) (snd run))
    = Exc (RecoverableError "Unable to submit to Cuckoo") /\
    trace (snd (execute_cleanup (fst run) (snd run))) = trace (snd run).
Proof.
  intros content fuel st t j1 j2 j3 c1 c2 c3 rest Ht Hid Hnet.
  destruct st as [ct ms nt tr rw fr rq lg]. cbn in Ht, Hnet. subst ct nt.
  destruct t as [f kw i r errs]. cbn in Hid. subst i.
  cbv zeta.
  assert (Hext : forall w n, rsplit_last (renamed w n) = rsplit_last n)
    by (intros; apply rename_keeps_extension).
  destruct kw as [|kv kw];
    repeat match goal with |- _ /\ _ => split end;
    try (rewrite !Hext; reflexivity);
    lazy; reflexivity.
Qed.

End SubmissionProperties.

Definition sample_job : CuckooTask :=
  mkTask "invoice.docx" [("options", VStr "")] VNone VNone [].

Definition server_error : http_result := Response 500 None "Internal Server Error".

(** A job about to submit, facing the answers [answers]. *)
Definition job_facing (t : CuckooTask) (answers : list http_result) : state :=
  mkState (Some t) VNone answers [] ["Kx3"; "q9Zb"; "T0m"] [] sample_request [].

Lemma C5_witness :
  let run := cuckoo_submit [] "PK..." 10
               (job_facing sample_job [server_error; server_error; server_error]) in
  fst run = Exc (RecoverableError "Unable to submit to Cuckoo") /\
  trace (snd run)
  = [POST_submit "q9Zb.docx" [("options", VStr "")];
     POST_submit "Kx3.docx" [("options", VStr "")];
     POST_submit "invoice.docx" [("options", VStr "")]] /\
  net (snd run) = [] /\
  file_of (snd run) = Some "T0m.docx".
Proof.
  pose proof (@C5_submission_500_three_attempts sample_externals []
                "PK..." 10
                (job_facing sample_job [server_error; server_error; server_error])
                sample_job None None None
                "Internal Server Error" "Internal Server Error" "Internal Server Error"
                [] eq_refl eq_refl eq_refl) as Hrun.
  cbv zeta in Hrun |- *.
  destruct Hrun as [H1 [H2 [H3 [H4 _]]]].
  split; [exact H1 | ]. split; [exact H2 | ]. split; [exact H3 | exact H4].
Defined.

(* ----------------------------------------------------------------- *)
(** *** Clean-up on leaving the job *)

(** A call that got no answer, and the exception [cuckoo_delete_task]
    raises for it. *)
Definition call_failed (a : http_result) : bool :=
  match a with
  | Timeout | ConnectionError => true
  | Response _ _ _ => false
  end.

Definition delete_failure `{Externals} (task_id : value) (a : http_result) : exn :=
  match a with
  | Timeout =>
      Exception ("Cuckoo timed out after while trying to delete task " ++ py_str task_id)
  | _ =>
      RecoverableError
        ("Unable to reach the Cuckoo nest while trying to delete task " ++ py_str task_id)
  end.

(** The line logged for an answered delete. *)
Definition delete_log_line `{Externals} (task_id : value) (status_code : Z) : string :=
  if Z.eqb status_code 200
  then ("Deleted task: " ++ py_str task_id ++ ".")%string
  else ("Failed to delete task " ++ py_str task_id ++ ". Status code: "
        ++ str_of_Z status_code)%string.

Section CleanupProperties.
Context `{Externals}.

Ltac split_all := repeat match goal with |- _ /\ _ => split end.

(** C2, as the code has it.  Whenever the guarded part of [execute] is left,
    by returning or by raising, with a live task identifier, a delete of
    that task is the first request made.  If the backend answers it,
    whatever the status, the answer is logged, no further request is made
    and the job ends as the guarded part did.  If the call fails twice (it
    times out or cannot connect), the exception of the second failure is
    what the job raises. *)
Theorem C2_cleanup_on_exit :
  forall (o : outcome unit) (st : state) (i : value),
    (o = Ret tt \/ exists e, o = Exc e) ->
    live_task_id st = Some i ->
    let run := execute_cleanup o st in
    (exists more, trace (snd run) = more ++ GET_delete i :: trace st) /\
    (forall code j c rest,
        net st = Response code j c :: rest ->
        fst run = o /\
        trace (snd run) = GET_delete i :: trace st /\
        hd "" (log (snd run)) = delete_log_line i code) /\
    (forall a b rest,
        net st = a :: b :: rest ->
        call_failed a = true -> call_failed b = true ->
        fst run = Exc (delete_failure i b) /\
        trace (snd run) = GET_delete i :: GET_delete i :: trace st).
Proof.
  intros o st i Ho Hlive.
  destruct st as [ct ms nt tr rw fr rq lg].
  unfold live_task_id in Hlive. cbn [cuckoo_task] in Hlive.
  destruct ct as [[f kw ti r errs]|]; [ | discriminate Hlive].
  cbn [task_kwargs task_id] in Hlive.
  destruct kw as [|kv kw]; [discriminate Hlive | ].
  cbn [truthy] in Hlive.
  assert (Hti : ti = i /\ i <> VNone)
    by (destruct ti; inversion Hlive; split; congruence).
  destruct Hti as [-> Hi]. clear Hlive.
  cbv zeta. split_all.
  - (* a delete is issued *)
    destruct Ho as [-> | [e ->]];
      destruct i; try congruence;
      (destruct nt as [|[ | |code j c] [|[ | |code' j' c'] rest]];
       lazy -[Z.eqb app];
       repeat match goal with
              | |- context [Z.eqb ?x 200] => destruct (Z.eqb x 200)
              end;
       first [ exists []; reflexivity
             | eexists [_]; reflexivity ]).
  - (* an answered delete is logged and changes nothing *)
    intros code j c rest Hnet. cbn [net] in Hnet. subst nt.
    unfold delete_log_line.
    destruct Ho as [-> | [e ->]]; destruct i; try congruence;
      split_all; lazy -[Z.eqb str_of_Z py_str String.append];
      destruct (Z.eqb code 200); reflexivity.
  - (* two failed calls *)
    intros a b rest Hnet Ha Hb. cbn [net] in Hnet. subst nt.
    destruct a; try discriminate Ha; destruct b; try discriminate Hb;
      destruct Ho as [-> | [e ->]]; destruct i; try congruence;
      split_all; lazy; reflexivity.
Qed.

End CleanupProperties.

Definition ok_json (v : value) : http_result := Response 200 (Some v) "".

(** The answers of a backend whose analysis of task 7 fails. *)
Definition failed_analysis_answers : list http_result :=
  [ok_json (VDict [("machines", VList [])]);
   ok_json (VDict [("task_id", VInt 7)]);
   ok_json (VDict [("task", VDict [("id", VInt 7);
                                   ("guest", VDict [("status", VStr "running")])])]);
   ok_json (VDict [("task", VDict [("id", VInt 7); ("status", VStr "failed_analysis");
                                   ("errors", VList [VStr "boom"])])])].

(** The service before a job, facing the answers [answers]. *)
Definition idle_state (answers : list http_result) : state :=
  mkState None VNone answers [] ["Kx3"; "q9Zb"; "T0m"] [] sample_request [].

Definition running_job : CuckooTask :=
  mkTask "invoice.docx" [("options", VStr "")] (VInt 7) VNone [].

Lemma C2_witness :
  let st := job_facing running_job [Response 404 None ""] in
  let run := execute_cleanup (Exc (RecoverableError "no report")) st in
  live_task_id st = Some (VInt 7) /\
  fst run = Exc (RecoverableError "no report") /\
  trace (snd run) = [GET_delete (VInt 7)] /\
  hd "" (log (snd run)) = "Failed to delete task 7. Status code: 404".
Proof.
  cbv zeta. split; [reflexivity | ].
  destruct (@C2_cleanup_on_exit sample_externals
              (Exc (RecoverableError "no report"))
              (job_facing running_job [Response 404 None ""]) (VInt 7)
              (or_intror (ex_intro _ (RecoverableError "no report") eq_refl))
              eq_refl) as [_ [Hanswered _]].
  exact (Hanswered 404%Z None "" [] eq_refl).
Defined.

(** C2, as stated, fails: a delete that times out twice is escalated.  At
    the end of a job that succeeded, the time-out becomes the outcome; and
    in a whole run in which the analysis failed, the error that reports the
    failure is replaced by the time-out of the delete. *)
Lemma C2_counterexample :
  let st := job_facing running_job [Timeout; Timeout] in
  let whole := execute [("max_file_size", VInt 1000)] (sample_task false) 80 10
                 (idle_state (failed_analysis_answers
                              ++ [Timeout; Timeout; Timeout; Timeout])) in
  let answered := execute [("max_file_size", VInt 1000)] (sample_task false) 80 10
                    (idle_state (failed_analysis_answers ++ [Response 200 None ""])) in
  live_task_id st = Some (VInt 7) /\
  fst (execute_cleanup (Ret tt) st)
  = Exc (Exception "Cuckoo timed out after while trying to delete task 7") /\
  fst answered
  = Exc (RecoverableError
           "Unable to retrieve cuckoo report. The following errors were detected: [...]") /\
  fst whole = Exc (Exception "Cuckoo timed out after while trying to delete task 7").
Proof.
  cbv zeta. repeat match goal with |- _ /\ _ => split end; vm_compute; reflexivity.
Qed.

(* ----------------------------------------------------------------- *)
(** *** A report that went missing *)

(** The answers of the backend to one submission that is analysed and
    reported as task [i], but whose report is not found; [d] is the status
    with which the delete of the task is answered. *)
Definition missing_report_round (i : value) (d : Z) : list http_result :=
  [ok_json (VDict [("task_id", i)]);
   ok_json (VDict [("task", VDict [("id", i);
                                   ("guest", VDict [("status", VStr "running")])])]);
   ok_json (VDict [("task", VDict [("id", i); ("status", VStr "reported")])]);
   Response 404 None "";
   Response d None ""].

(** The requests such a submission makes, the most recent first. *)
Definition missing_report_requests (name : string) (kwargs : dict) (i : value)
  : list http_request :=
  [GET_delete i; GET_report i "json"; GET_task i; GET_task i; POST_submit name kwargs].

Section RetryLemmas.
Context {A : Type}.
Variables (roe : exn -> bool) (ror : A -> bool) (f : M A).

Lemma retry_bounded_returns :
  forall n st a st',
    f st = (Ret a, st') -> ror a = false ->
    retry_bounded n roe ror f st = (Ret a, st').
Proof.
  intros n st a st' Hf Ha. destruct n; cbn; rewrite Hf, Ha; reflexivity.
Qed.

Lemma retry_bounded_raises :
  forall n st e st',
    f st = (Exc e, st') -> roe e = false ->
    retry_bounded n roe ror f st = (Exc e, st').
Proof.
  intros n st e st' Hf He. destruct n; cbn; rewrite Hf, He; reflexivity.
Qed.

Lemma retry_bounded_again :
  forall n st e st',
    f st = (Exc e, st') -> roe e = true ->
    retry_bounded (S (S n)) roe ror f st = retry_bounded (S n) roe ror f st'.
Proof.
  intros n st e st' Hf He. cbn. rewrite Hf, He. reflexivity.
Qed.

Lemma retry_bounded_gives_up :
  forall st e st',
    f st = (Exc e, st') -> roe e = true ->
    retry_bounded 1 roe ror f st = (Exc e, st').
Proof.
  intros st e st' Hf He. cbn. rewrite Hf, He. reflexivity.
Qed.

Lemma retry_forever_returns :
  forall n st a st',
    f st = (Ret a, st') -> ror a = false ->
    retry_forever (S n) roe ror f st = (Ret a, st').
Proof.
  intros n st a st' Hf Ha. cbn. rewrite Hf, Ha. reflexivity.
Qed.

End RetryLemmas.

Section MissingReportProperties.
Context `{Externals}.

Variable cfg : dict.

(** The facts about a state that the steps of a submission depend on. *)
Ltac expose st :=
  let ct := fresh "ct" in let ms := fresh "ms" in let nt := fresh "nt" in
  let tr := fresh "tr" in let rw := fresh "rw" in let fr := fresh "fr" in
  let rq := fresh "rq" in let lg := fresh "lg" in
  destruct st as [ct ms nt tr rw fr rq lg];
  cbn [cuckoo_task net trace random_words machines file_res request log] in *;
  subst.

Ltac split_all := repeat match goal with |- _ /\ _ => split end.

(** A valid task identifier: true, and equal to itself. *)
Definition task_identifier (i : value) : Prop :=
  truthy i = true /\ py_eqb i i = true.

Lemma task_identifier_not_none :
  forall i, task_identifier i -> forall (X : Type) (a b : value -> X),
      match i with VNone => a i | _ => b i end = b i.
Proof. intros i [Ht _] X a b. destruct i; try reflexivity. discriminate Ht. Qed.

Lemma delete_answered :
  forall st t kv kw i d j c rest,
    cuckoo_task st = Some t -> task_kwargs t = kv :: kw ->
    net st = Response d j c :: rest ->
    exists st',
      cuckoo_delete_task i st = (Ret tt, st') /\
      cuckoo_task st' = Some (if Z.eqb d 200 then set_task_id VNone t else t) /\
      net st' = rest /\ trace st' = GET_delete i :: trace st /\
      random_words st' = random_words st.
Proof.
  intros st t kv kw i d j c rest Ht Hkw Hnet. expose st.
  destruct t as [f kw0 ti r errs]. cbn in Hkw. subst kw0.
  destruct (Z.eqb d 200) eqn:Hd; eexists;
    (split;
     [ unfold cuckoo_delete_task; (apply retry_bounded_returns; [ | reflexivity]);
       lazy -[Z.eqb py_str str_of_Z String.append]; rewrite Hd; reflexivity
     | split_all; reflexivity ]).
Qed.

Ltac known_identifier i Hid :=
  destruct i; try (destruct Hid as [Hid _]; discriminate Hid).

(** A fetch of the report answered with 404: the task is deleted, and the
    fetch is not tried again. *)
Lemma report_not_found :
  forall st t kv kw i d j c j' c' rest,
    cuckoo_task st = Some t -> task_kwargs t = kv :: kw -> task_id t = i ->
    task_identifier i ->
    net st = Response 404 j c :: Response d j' c' :: rest ->
    exists st',
      cuckoo_query_report cfg i "json" st = (Exc MissingCuckooReportException, st') /\
      cuckoo_task st' = Some (if Z.eqb d 200 then set_task_id VNone t else t) /\
      net st' = rest /\
      trace st' = GET_delete i :: GET_report i "json" :: trace st /\
      random_words st' = random_words st.
Proof.
  intros st t kv kw i d j c j' c' rest Ht Hkw Hti Hid Hnet.
  destruct t as [f kw0 ti r errs]. cbn in Hkw, Hti. subst kw0 ti. expose st.
  unfold cuckoo_query_report.
  assert (Honce : exists st',
             cuckoo_query_report_once cfg i "json"
               (mkState (Some (mkTask f (kv :: kw) i r errs)) ms
                        (Response 404 j c :: Response d j' c' :: rest) tr rw fr rq lg)
             = (Exc MissingCuckooReportException, st') /\
             cuckoo_task st'
             = Some (if Z.eqb d 200
                     then set_task_id VNone (mkTask f (kv :: kw) i r errs)
                     else mkTask f (kv :: kw) i r errs) /\
             net st' = rest /\
             trace st' = GET_delete i :: GET_report i "json" :: tr /\
             random_words st' = rw).
  { known_identifier i Hid;
      lazy -[cuckoo_delete_task];
      match goal with
      | |- context [cuckoo_delete_task ?x ?s] =>
          destruct (@delete_answered s _ kv kw x d j' c' rest eq_refl eq_refl eq_refl)
            as (st3 & Hdel & Ht3 & Hn3 & Htr3 & Hrw3);
          rewrite Hdel
      end;
      expose st3;
      (eexists; split; [reflexivity | split_all; reflexivity]). }
  destruct Honce as (st' & Honce & Hfields).
  exists st'. split; [ | exact Hfields].
  unfold cuckoo_query_report. apply retry_bounded_raises; [exact Honce | reflexivity].
Qed.

(** Tests on values are settled by evaluation, or, when they bear on the
    task identifier, by what is known of it. *)
Ltac settle Hid :=
  match goal with
  | |- context [py_eqb ?a ?b] =>
      let v := eval lazy in (py_eqb a b) in
      lazymatch v with
      | true => change (py_eqb a b) with true
      | false => change (py_eqb a b) with false
      | _ => rewrite (proj2 Hid)
      end
  | |- context [truthy ?a] =>
      let v := eval lazy in (truthy a) in
      lazymatch v with
      | true => change (truthy a) with true
      | false => change (truthy a) with false
      | _ => rewrite (proj1 Hid)
      end
  end.

(** A task record is found. *)
Lemma task_found :
  forall st i td c rest,
    net st = Response 200 (Some (VDict [("task", VDict td)])) c :: rest ->
    exists st',
      cuckoo_query_task i st = (Ret (VDict td), st') /\
      cuckoo_task st' = cuckoo_task st /\ net st' = rest /\
      trace st' = GET_task i :: trace st /\ random_words st' = random_words st.
Proof.
  intros st i td c rest Hnet. expose st.
  eexists. split; [lazy; reflexivity | split_all; reflexivity].
Qed.

(** The guest has started. *)
Lemma guest_started :
  forall st t i c rest,
    cuckoo_task st = Some t -> task_id t = i -> task_identifier i ->
    net st
    = Response 200
        (Some (VDict [("task", VDict [("id", i);
                                      ("guest", VDict [("status", VStr "running")])])])) c
      :: rest ->
    exists st',
      cuckoo_poll_started st = (Ret (VStr "started"), st') /\
      cuckoo_task st' = cuckoo_task st /\ net st' = rest /\
      trace st' = GET_task i :: trace st /\ random_words st' = random_words st.
Proof.
  intros st t i c rest Ht Hti Hid Hnet.
  destruct t as [f kw ti r errs]. cbn in Hti. subst ti.
  destruct (task_found st i Hnet) as (st1 & Hq & Ht1 & Hn1 & Htr1 & Hrw1).
  expose st. expose st1.
  eexists. split.
  - unfold cuckoo_poll_started. apply retry_bounded_returns; [ | reflexivity].
    unfold cuckoo_poll_started_once.
    lazy -[py_eqb truthy cuckoo_query_task]. rewrite Hq.
    repeat (lazy -[py_eqb truthy]; settle Hid).
    lazy. reflexivity.
  - split_all; reflexivity.
Qed.

(** The task is reported, its report is not found: the poll ends with
    [missing_report], the task having been deleted. *)
Lemma reported_without_report :
  forall fuel st t kv kw i d c j1 c1 j2 c2 rest,
    cuckoo_task st = Some t -> task_kwargs t = kv :: kw -> task_id t = i ->
    task_identifier i ->
    net st
    = Response 200
        (Some (VDict [("task", VDict [("id", i); ("status", VStr "reported")])])) c
      :: Response 404 j1 c1 :: Response d j2 c2 :: rest ->
    exists st',
      cuckoo_poll_report cfg (S fuel) st = (Ret (VStr "missing_report"), st') /\
      cuckoo_task st' = Some (if Z.eqb d 200 then set_task_id VNone t else t) /\
      net st' = rest /\
      trace st' = GET_delete i :: GET_report i "json" :: GET_task i :: trace st /\
      random_words st' = random_words st.
Proof.
  intros fuel st t kv kw i d c j1 c1 j2 c2 rest Ht Hkw Hti Hid Hnet.
  destruct t as [f kw0 ti r errs]. cbn in Hkw, Hti. subst kw0 ti. expose st.
  assert (Honce : exists st',
             cuckoo_poll_report_once cfg
               (mkState (Some (mkTask f (kv :: kw) i r errs)) ms
                  (Response 200
                     (Some (VDict [("task", VDict [("id", i);
                                                   ("status", VStr "reported")])])) c
                   :: Response 404 j1 c1 :: Response d j2 c2 :: rest)
                  tr rw fr rq lg)
             = (Ret (VStr "missing_report"), st') /\
             cuckoo_task st'
             = Some (if Z.eqb d 200
                     then set_task_id VNone (mkTask f (kv :: kw) i r errs)
                     else mkTask f (kv :: kw) i r errs) /\
             net st' = rest /\
             trace st' = GET_delete i :: GET_report i "json" :: GET_task i :: tr /\
             random_words st' = rw).
  { unfold cuckoo_poll_report_once.
    lazy -[py_eqb truthy cuckoo_query_task cuckoo_query_report].
    match goal with
    | |- context [cuckoo_query_task ?x ?s] =>
        destruct (@task_found s x _ c (Response 404 j1 c1 :: Response d j2 c2 :: rest)
                    eq_refl)
          as (st1 & Hq & Ht1 & Hn1 & Htr1 & Hrw1);
        rewrite Hq
    end.
    expose st1.
    repeat (lazy -[py_eqb truthy cuckoo_query_report]; settle Hid).
    lazy -[cuckoo_query_report].
    match goal with
    | |- context [cuckoo_query_report cfg ?x "json" ?s] =>
        destruct (@report_not_found s _ kv kw x d j1 c1 j2 c2 rest
                    eq_refl eq_refl eq_refl Hid eq_refl)
          as (st2 & Hr & Ht2 & Hn2 & Htr2 & Hrw2);
        rewrite Hr
    end.
    expose st2. lazy.
    eexists. split; [reflexivity | split_all; reflexivity]. }
  destruct Honce as (st' & Honce & Hfields).
  exists st'. split; [ | exact Hfields].
  unfold cuckoo_poll_report. apply retry_forever_returns; [exact Honce | reflexivity].
Qed.

(** The file is accepted as task [i]. *)
Lemma file_accepted :
  forall content st t i c rest,
    cuckoo_task st = Some t -> task_identifier i ->
    net st = Response 200 (Some (VDict [("task_id", i)])) c :: rest ->
    exists st',
      cuckoo_submit_file content st = (Ret i, st') /\
      cuckoo_task st' = cuckoo_task st /\ net st' = rest /\
      trace st' = POST_submit (task_file t) (task_kwargs t) :: trace st /\
      random_words st' = random_words st.
Proof.
  intros content st t i c rest Ht Hid Hnet.
  destruct t as [f kw ti r errs]. expose st.
  eexists. split.
  - unfold cuckoo_submit_file. apply retry_bounded_returns; [ | reflexivity].
    unfold cuckoo_submit_file_once.
    repeat (lazy -[py_eqb truthy]; settle Hid).
    lazy. reflexivity.
  - split_all; reflexivity.
Qed.

(** One submission whose report goes missing ends in the exception that
    forces a retry, the file renamed. *)
Lemma missing_report_round_raises :
  forall content fuel st t kv kw i d rest,
    cuckoo_task st = Some t -> task_kwargs t = kv :: kw ->
    task_identifier i ->
    net st = missing_report_round i d ++ rest ->
    exists st' t',
      cuckoo_submit_once cfg content (S fuel) st
      = (Exc (Exception "Retrying after missing_report status"), st') /\
      cuckoo_task st' = Some t' /\
      task_file t' = renamed (hd "aa" (random_words st)) (task_file t) /\
      task_kwargs t' = task_kwargs t /\
      net st' = rest /\
      trace st' = missing_report_requests (task_file t) (task_kwargs t) i ++ trace st /\
      random_words st' = tl (random_words st).
Proof.
  intros content fuel st t kv kw i d rest Ht Hkw Hid Hnet.
  unfold missing_report_round, ok_json in Hnet. cbn [app] in Hnet.
  destruct t as [f kw0 ti r errs]. cbn in Hkw. subst kw0. expose st.
  unfold cuckoo_submit_once.
  lazy -[py_eqb truthy Z.eqb cuckoo_submit_file cuckoo_poll_started cuckoo_poll_report].
  match goal with
  | |- context [cuckoo_submit_file ?c ?s] =>
      destruct (@file_accepted c s _ i "" _ eq_refl Hid eq_refl)
        as (st1 & Hs & Ht1 & Hn1 & Htr1 & Hrw1);
      rewrite Hs
  end.
  expose st1.
  repeat (lazy -[py_eqb truthy Z.eqb cuckoo_poll_started cuckoo_poll_report];
          settle Hid).
  lazy -[Z.eqb cuckoo_poll_started cuckoo_poll_report].
  match goal with
  | |- context [cuckoo_poll_started ?s] =>
      destruct (@guest_started s _ i "" _ eq_refl eq_refl Hid eq_refl)
        as (st2 & Hp & Ht2 & Hn2 & Htr2 & Hrw2);
      rewrite Hp
  end.
  expose st2.
  lazy -[Z.eqb cuckoo_poll_report].
  match goal with
  | |- context [cuckoo_poll_report cfg ?n ?s] =>
      destruct (@reported_without_report fuel s _ kv kw i d "" None "" None "" rest
                  eq_refl eq_refl eq_refl Hid eq_refl)
        as (st3 & Hr & Ht3 & Hn3 & Htr3 & Hrw3);
      rewrite Hr
  end.
  expose st3.
  destruct (Z.eqb d 200); lazy;
    (eexists; eexists; split; [reflexivity | split_all; reflexivity]).
Qed.

(** C4, as the code has it.  A submission is accepted, analysed and
    reported, but the fetch of its report is answered with 404 and the
    delete of the task that follows is answered by the backend.  Then the
    attempt ends in the exception that forces a retry of [cuckoo_submit],
    the file having been renamed to a random word followed by what came
    after the last dot; no further status or report request is made for the
    task, and what runs next is the submission again, from its first
    request.  When this happens three times in a row the job makes three
    submissions, each under its own name, and gives up with that
    exception. *)
Theorem C4_missing_report_restarts_submission :
  forall (content : string) (fuel : nat) (st : state) (t : CuckooTask)
         (kv : string * value) (kw : dict) (i1 i2 i3 : value) (d1 d2 d3 : Z)
         (rest : list http_result),
    cuckoo_task st = Some t ->
    task_kwargs t = kv :: kw ->
    task_identifier i1 -> task_identifier i2 -> task_identifier i3 ->
    let f1 := renamed (hd "aa" (random_words st)) (task_file t) in
    let f2 := renamed (hd "aa" (tl (random_words st))) f1 in
    let f3 := renamed (hd "aa" (tl (tl (random_words st)))) f2 in
    (net st = missing_report_round i1 d1 ++ rest ->
     let once := cuckoo_submit_once cfg content (S fuel) st in
     fst once = Exc (Exception "Retrying after missing_report status") /\
     trace (snd once)
     = missing_report_requests (task_file t) (task_kwargs t) i1 ++ trace st /\
     net (snd once) = rest /\
     file_of (snd once) = Some f1 /\
     rsplit_last f1 = rsplit_last (task_file t) /\
     cuckoo_submit cfg content (S fuel) st
     = retry_bounded 2 _exclude_chain_ex never_reject
                     (cuckoo_submit_once cfg content (S fuel)) (snd once)) /\
    (net st = missing_report_round i1 d1 ++ missing_report_round i2 d2
              ++ missing_report_round i3 d3 ++ rest ->
     let run := cuckoo_submit cfg content (S fuel) st in
     fst run = Exc (Exception "Retrying after missing_report status") /\
     trace (snd run)
     = missing_report_requests f2 (task_kwargs t) i3
       ++ missing_report_requests f1 (task_kwargs t) i2
       ++ missing_report_requests (task_file t) (task_kwargs t) i1 ++ trace st /\
     net (snd run) = rest /\
     file_of (snd run) = Some f3 /\
     rsplit_last f3 = rsplit_last (task_file t)).
Proof.
  intros content fuel st t kv kw i1 i2 i3 d1 d2 d3 rest Ht Hkw Hi1 Hi2 Hi3.
  assert (Hext : forall w n, rsplit_last (renamed w n) = rsplit_last n)
    by (intros; apply rename_keeps_extension).
  cbv zeta. split.
  - intros Hnet.
    destruct (missing_report_round_raises content fuel st Ht Hkw Hi1 Hnet)
      as (st1 & t1 & Hrun & Ht1 & Hf1 & Hkw1 & Hn1 & Htr1 & Hrw1).
    rewrite Hrun. cbn [fst snd]. unfold file_of. rewrite Ht1. cbn [option_map].
    split_all; try assumption; try reflexivity.
    + rewrite Hf1. reflexivity.
    + apply Hext.
    + unfold cuckoo_submit. eapply retry_bounded_again; [exact Hrun | reflexivity].
  - intros Hnet.
    destruct (missing_report_round_raises content fuel st Ht Hkw Hi1 Hnet)
      as (st1 & t1 & Hrun1 & Ht1 & Hf1 & Hkw1 & Hn1 & Htr1 & Hrw1).
    rewrite <- Hkw1 in Hkw.
    destruct (missing_report_round_raises content fuel st1 Ht1 Hkw Hi2 Hn1)
      as (st2 & t2 & Hrun2 & Ht2 & Hf2 & Hkw2 & Hn2 & Htr2 & Hrw2).
    rewrite <- Hkw2 in Hkw.
    destruct (missing_report_round_raises content fuel st2 Ht2 Hkw Hi3 Hn2)
      as (st3 & t3 & Hrun3 & Ht3 & Hf3 & Hkw3 & Hn3 & Htr3 & Hrw3).
    assert (Hrun : cuckoo_submit cfg content (S fuel) st
                   = (Exc (Exception "Retrying after missing_report status"), st3)).
    { unfold cuckoo_submit.
      erewrite retry_bounded_again; [ | exact Hrun1 | reflexivity].
      erewrite retry_bounded_again; [ | exact Hrun2 | reflexivity].
      eapply retry_bounded_gives_up; [exact Hrun3 | reflexivity]. }
    rewrite Hrun. cbn [fst snd]. unfold file_of. rewrite Ht3. cbn [option_map].
    split_all; try assumption; try reflexivity.
    + rewrite Htr3, Htr2, Htr1, Hf2, Hf1, Hkw2, Hkw1, Hrw1. reflexivity.
    + rewrite Hf3, Hf2, Hf1, Hrw2, Hrw1. reflexivity.
    + rewrite !Hext. reflexivity.
Qed.

End MissingReportProperties.

Lemma C4_witness :
  let st := job_facing sample_job
              (missing_report_round (VInt 7) 200 ++ missing_report_round (VInt 8) 404
               ++ missing_report_round (VInt 9) 200) in
  let run := cuckoo_submit [] "PK..." 1 st in
  fst run = Exc (Exception "Retrying after missing_report status") /\
  trace (snd run)
  = missing_report_requests "q9Zb.docx" [("options", VStr "")] (VInt 9)
    ++ missing_report_requests "Kx3.docx" [("options", VStr "")] (VInt 8)
    ++ missing_report_requests "invoice.docx" [("options", VStr "")] (VInt 7) /\
  net (snd run) = [] /\
  file_of (snd run) = Some "T0m.docx".
Proof.
  cbv zeta.
  destruct (@C4_missing_report_restarts_submission sample_externals [] "PK..." 0
              (job_facing sample_job
                 (missing_report_round (VInt 7) 200 ++ missing_report_round (VInt 8) 404
                  ++ missing_report_round (VInt 9) 200))
              sample_job ("options", VStr "") [] (VInt 7) (VInt 8) (VInt 9)
              200%Z 404%Z 200%Z []
              eq_refl eq_refl (conj eq_refl eq_refl) (conj eq_refl eq_refl)
              (conj eq_refl eq_refl)) as [_ Hthree].
  destruct (Hthree eq_refl) as [H1 [H2 [H3 [H4 _]]]].
  split; [exact H1 | ]. split; [exact H2 | ]. split; [exact H3 | exact H4].
Defined.

(** C4, as stated, fails: when the delete that follows the 404 times out
    twice, the exception of the delete is what the fetch of the report
    raises; the fetch is tried again for the same task, and if it succeeds
    the job goes on with that report, without a new submission and under the
    old name. *)
Lemma C4_counterexample :
  let answers :=
    [ok_json (VDict [("task_id", VInt 7)]);
     ok_json (VDict [("task", VDict [("id", VInt 7);
                                     ("guest", VDict [("status", VStr "running")])])]);
     ok_json (VDict [("task", VDict [("id", VInt 7); ("status", VStr "reported")])]);
     Response 404 None ""; Timeout; Timeout;
     ok_json (VDict [("info", VDict [("id", VInt 7)])])] in
  let run := cuckoo_submit [("recursion_limit", VInt 10000)] "PK..." 1
               (job_facing sample_job answers) in
  fst run = Ret tt /\
  trace (snd run)
  = [GET_report (VInt 7) "json"; GET_delete (VInt 7); GET_delete (VInt 7);
     GET_report (VInt 7) "json"; GET_task (VInt 7); GET_task (VInt 7);
     POST_submit "invoice.docx" [("options", VStr "")]] /\
  file_of (snd run) = Some "invoice.docx".
Proof.
  cbv zeta. repeat match goal with |- _ /\ _ => split end; vm_compute; reflexivity.
Qed.

(* ================================================================= *)
(** ** Merging the extended HTTP flows into the canonical ones

    [process_network] groups the [http] flows of the report by host, groups
    the [http_ex] flows by host, and hands both to [_add_ex_data] (and the
    same for [https]).  The flows are the sandbox's JSON objects: their
    [host], [port], [uri] and [method] are text, integers or absent, and the
    [dport] of an extended flow is an integer. *)

Definition field (d : dict) (k : string) : value :=
  match dict_get d k with Some v => v | None => VNone end.

(** Text, an integer, or nothing. *)
Definition plain (v : value) : bool :=
  match v with
  | VNone | VInt _ | VStr _ => true
  | _ => false
  end.

Definition canonical_fields (d : dict) : bool :=
  plain (field d "host") && plain (field d "port") &&
  plain (field d "uri") && plain (field d "method").

Definition extended_fields (d : dict) : bool :=
  plain (field d "host") &&
  match field d "dport" with VInt _ => true | _ => false end &&
  plain (field d "uri") && plain (field d "method").

Definition flow_with (fields : dict -> bool) (v : value) : bool :=
  match v with VDict d => fields d | _ => false end.

Definition canonical_flow : value -> bool := flow_with canonical_fields.
Definition extended_flow : value -> bool := flow_with extended_fields.

Definition host_of (v : value) : value :=
  match v with VDict d => field d "host" | _ => VNone end.

(** Every host of an extended flow is the host of a canonical flow. *)
Definition same_hosts (http http_ex : list value) : bool :=
  forallb (fun e => existsb (fun c => py_eqb (host_of c) (host_of e)) http) http_ex.

(** [proto_data.get(host, [])]. *)
Definition flows_of (m : pmap) (host : value) : list dict :=
  match pm_lookup m host with Some l => l | None => [] end.

(** No record of the list is [==] to a later one. *)
Fixpoint distinct_flows (l : list dict) : bool :=
  match l with
  | [] => true
  | f :: r => negb (existsb (fun x => py_eqb (VDict f) (VDict x)) r) && distinct_flows r
  end.

(** The records that [parse_protocol_data] builds from a flow. *)
Definition canonical_record (d : dict) : dict :=
  [("port", field d "port"); ("uri", field d "uri"); ("method", field d "method")].

Definition extended_record (d : dict) : dict :=
  [("dport", field d "dport"); ("uri", field d "uri"); ("method", field d "method")].

(* ----------------------------------------------------------------- *)
(** *** Equality on plain values and lookups under plain keys *)

Lemma plain_eqb_refl : forall a, plain a = true -> py_eqb a a = true.
Proof.
  intros [| b | z | s | l | d] Ha; try discriminate; cbn.
  - reflexivity.
  - apply Z.eqb_refl.
  - apply String.eqb_refl.
Qed.

Lemma plain_eqb_eq : forall a b,
  plain a = true -> plain b = true -> py_eqb a b = true -> a = b.
Proof.
  intros [| x | x | x | x | x] [| y | y | y | y | y] Ha Hb E;
    try discriminate; cbn in E.
  - reflexivity.
  - apply Z.eqb_eq in E. now subst.
  - apply String.eqb_eq in E. now subst.
Qed.

(** Two plain values equal to the same third value are the same. *)
Lemma plain_eqb_join : forall a b q,
  plain a = true -> plain b = true ->
  py_eqb a q = true -> py_eqb b q = true -> a = b.
Proof.
  intros [| x | x | x | x | x] [| y | y | y | y | y] q Ha Hb Ea Eb;
    try discriminate; destruct q as [| c | c | c | c | c];
    try discriminate; cbn in Ea, Eb; try reflexivity.
  - apply Z.eqb_eq in Ea, Eb. congruence.
  - apply Z.eqb_eq in Ea, Eb. congruence.
  - apply String.eqb_eq in Ea, Eb. congruence.
Qed.

Lemma plain_hashable : forall a, plain a = true -> hashable a = true.
Proof. now intros [| x | x | x | x | x]. Qed.

Definition plain_keys (m : pmap) : Prop :=
  forall k l, In (k, l) m -> plain k = true.

Lemma pm_lookup_In : forall (m : pmap) q l,
  pm_lookup m q = Some l -> exists k, In (k, l) m /\ py_eqb k q = true.
Proof.
  induction m as [| [k a] r IH]; intros q l E; cbn in E; [discriminate |].
  destruct (py_eqb k q) eqn:Ek.
  - injection E as <-. exists k. split; [now left | assumption].
  - destruct (IH _ _ E) as [k' [Hin Hk']]. exists k'. split; [now right | assumption].
Qed.

Lemma pm_set_In : forall (m : pmap) g a k l,
  In (k, l) (pm_set m g a) ->
  (l = a /\ (k = g \/ (py_eqb k g = true /\ exists a0, In (k, a0) m))) \/ In (k, l) m.
Proof.
  induction m as [| [k' a'] r IH]; intros g a k l Hin; cbn in Hin.
  - destruct Hin as [E | []]. injection E as <- <-. left. split; [reflexivity | now left].
  - destruct (py_eqb k' g) eqn:Ek.
    + destruct Hin as [E | Hin].
      * injection E as <- <-. left. split; [reflexivity | right].
        split; [assumption | exists a'; now left].
      * right. now right.
    + destruct Hin as [E | Hin].
      * right. now left.
      * destruct (IH _ _ _ _ Hin) as [[Hl [Hk | [Hk [a0 Ha0]]]] | Hold].
        -- left. split; [assumption | now left].
        -- left. split; [assumption | right]. split; [assumption | exists a0; now right].
        -- right. now right.
Qed.

(** Under plain keys, the entry written by [pm_set] sits at the key itself. *)
Lemma pm_set_In_plain : forall (m : pmap) g a k l,
  plain_keys m -> plain g = true ->
  In (k, l) (pm_set m g a) -> (k = g /\ l = a) \/ In (k, l) m.
Proof.
  intros m g a k l Hm Hg Hin.
  destruct (@pm_set_In _ _ _ _ _ Hin) as [[Hl [Hk | [Hk [a0 Ha0]]]] | Hold].
  - left. now split.
  - left. split; [| assumption]. apply plain_eqb_eq; [exact (Hm _ _ Ha0) | assumption | assumption].
  - now right.
Qed.

Lemma pm_set_plain_keys : forall m g a,
  plain_keys m -> plain g = true -> plain_keys (pm_set m g a).
Proof.
  intros m g a Hm Hg k l Hin.
  destruct (@pm_set_In_plain _ _ _ _ _ Hm Hg Hin) as [[-> _] | Hold].
  - assumption.
  - exact (Hm _ _ Hold).
Qed.

Lemma pm_lookup_set : forall (m : pmap) g a q,
  plain_keys m -> plain g = true ->
  pm_lookup (pm_set m g a) q = if py_eqb g q then Some a else pm_lookup m q.
Proof.
  induction m as [| [k' a'] r IH]; intros g a q Hm Hg; cbn.
  - reflexivity.
  - assert (Hk' : plain k' = true) by (apply (Hm k' a'); now left).
    assert (Hr : plain_keys r) by (intros k l Hin; apply (Hm k l); now right).
    destruct (py_eqb k' g) eqn:Ek; cbn.
    + apply plain_eqb_eq in Ek; [| assumption | assumption]. subst k'.
      now destruct (py_eqb g q).
    + rewrite (IH g a q Hr Hg).
      destruct (py_eqb k' q) eqn:Ekq, (py_eqb g q) eqn:Egq; try reflexivity.
      rewrite (@plain_eqb_join _ _ _ Hk' Hg Ekq Egq), plain_eqb_refl in Ek by assumption.
      discriminate.
Qed.

(** A lookup under plain keys depends on the class of the key only. *)
Lemma pm_lookup_plain : forall (m : pmap) k q,
  plain_keys m -> plain k = true -> py_eqb k q = true ->
  pm_lookup m q = pm_lookup m k.
Proof.
  induction m as [| [k' a'] r IH]; intros k q Hm Hk Ekq; cbn; [reflexivity |].
  assert (Hk' : plain k' = true) by (apply (Hm k' a'); now left).
  assert (Hr : plain_keys r) by (intros k0 l Hin; apply (Hm k0 l); now right).
  rewrite (IH k q Hr Hk Ekq).
  destruct (py_eqb k' q) eqn:E1, (py_eqb k' k) eqn:E2; try reflexivity.
  - rewrite (@plain_eqb_join _ _ _ Hk' Hk E1 Ekq), plain_eqb_refl in E2 by assumption.
    discriminate.
  - apply plain_eqb_eq in E2; [| assumption | assumption]. subst k'. congruence.
Qed.

Lemma pm_lookup_In_plain : forall (m : pmap) k l,
  plain_keys m -> plain k = true -> pm_lookup m k = Some l -> In (k, l) m.
Proof.
  intros m k l Hm Hk E. destruct (@pm_lookup_In _ _ _ E) as [k' [Hin Hk']].
  apply plain_eqb_eq in Hk'; [now subst | exact (Hm _ _ Hin) | assumption].
Qed.

(* ----------------------------------------------------------------- *)
(** *** Membership and distinctness *)

Lemma dict_in_list_In : forall x l,
  dict_in_list x l = true <-> exists e, In e l /\ py_eqb (VDict e) (VDict x) = true.
Proof. intros x l. unfold dict_in_list. apply existsb_exists. Qed.

Lemma In_dict_in_list : forall x l,
  py_eqb (VDict x) (VDict x) = true -> In x l -> dict_in_list x l = true.
Proof. intros x l Hx Hin. apply dict_in_list_In. now exists x. Qed.

Lemma distinct_flows_snoc : forall l x,
  distinct_flows (l ++ [x]) = distinct_flows l && negb (dict_in_list x l).
Proof.
  induction l as [| f r IH]; intros x.
  - reflexivity.
  - cbn [app distinct_flows]. rewrite IH, existsb_app.
    unfold dict_in_list. cbn [existsb].
    generalize (existsb (fun e => py_eqb (VDict e) (VDict x)) r).
    generalize (py_eqb (VDict f) (VDict x)).
    generalize (distinct_flows r).
    clear IH. intros b c d.
    match goal with
    | |- context [existsb ?p r] => set (a := existsb p r)
    end.
    change (existsb (fun y => py_eqb (VDict f) (VDict y)) r) with a.
    now destruct a, b, c, d.
Qed.

Lemma merge_ex_flows_keeps : forall ex cur r,
  In r cur -> In r (merge_ex_flows cur ex).
Proof.
  induction ex as [| x ex IH]; intros cur r Hin; [assumption |].
  cbn. apply IH. destruct (dict_in_list x cur); [assumption |].
  apply in_or_app. now left.
Qed.

Lemma merge_ex_flows_prefix : forall ex cur,
  exists added, merge_ex_flows cur ex = cur ++ added.
Proof.
  induction ex as [| x ex IH]; intros cur.
  - exists []. now rewrite app_nil_r.
  - cbn. destruct (dict_in_list x cur).
    + apply IH.
    + destruct (IH (cur ++ [x])) as [added E]. exists (x :: added).
      unfold merge_ex_flows in E. now rewrite E, <- app_assoc.
Qed.

Lemma merge_ex_flows_sound : forall ex cur r,
  In r (merge_ex_flows cur ex) -> In r cur \/ In r ex.
Proof.
  induction ex as [| x ex IH]; intros cur r Hin; [now left |].
  cbn in Hin. apply IH in Hin. destruct Hin as [Hin | Hin]; [| right; now right].
  destruct (dict_in_list x cur); [now left |].
  apply in_app_or in Hin. destruct Hin as [Hin | [-> | []]]; [now left | right; now left].
Qed.

Lemma merge_ex_flows_mono : forall ex cur y,
  dict_in_list y cur = true -> dict_in_list y (merge_ex_flows cur ex) = true.
Proof.
  intros ex cur y Hy. apply dict_in_list_In in Hy. destruct Hy as [e [Hin He]].
  apply dict_in_list_In. exists e. split; [now apply merge_ex_flows_keeps | assumption].
Qed.

Lemma merge_ex_flows_complete : forall ex cur x,
  py_eqb (VDict x) (VDict x) = true ->
  In x ex -> dict_in_list x (merge_ex_flows cur ex) = true.
Proof.
  induction ex as [| y ex IH]; intros cur x Hx Hin; [destruct Hin |].
  cbn. destruct Hin as [-> | Hin]; [| now apply IH].
  apply merge_ex_flows_mono. destruct (dict_in_list x cur) eqn:E; [assumption |].
  apply dict_in_list_In. exists x. split; [apply in_or_app; right; now left | assumption].
Qed.

Lemma merge_ex_flows_distinct : forall ex cur,
  distinct_flows cur = true -> distinct_flows (merge_ex_flows cur ex) = true.
Proof.
  induction ex as [| x ex IH]; intros cur Hcur; [assumption |].
  cbn. apply IH. destruct (dict_in_list x cur) eqn:E; [assumption |].
  now rewrite distinct_flows_snoc, Hcur, E.
Qed.

(* ----------------------------------------------------------------- *)
(** *** What [parse_protocol_data] groups *)

Section GroupedFlows.

Variables (group_by : string) (group_fields : list string).
Variables (typed : dict -> bool) (record : dict -> dict).

Hypothesis build_record :
  forall d, build_flow_data (VDict d) group_fields [] = OK (record d).
Hypothesis typed_group :
  forall d, typed d = true -> plain (field d group_by) = true.
Hypothesis record_eq :
  forall d1 d2, typed d1 = true -> typed d2 = true ->
    py_eqb (VDict (record d1)) (VDict (record d2)) = true -> record d1 = record d2.

(** The map groups exactly the records of the flows, each under the group
    of its flow, and no group holds a record twice. *)
Record grouped (flows : list value) (m : pmap) : Prop := {
  grouped_keys : plain_keys m;
  grouped_origin : forall k l, In (k, l) m ->
    exists d, In (VDict d) flows /\ typed d = true /\ field d group_by = k;
  grouped_sound : forall k l r, In (k, l) m -> In r l ->
    exists d, In (VDict d) flows /\ typed d = true /\
              field d group_by = k /\ record d = r;
  grouped_complete : forall d, In (VDict d) flows -> typed d = true ->
    exists l, pm_lookup m (field d group_by) = Some l /\ In (record d) l;
  grouped_distinct : forall k l, In (k, l) m -> distinct_flows l = true
}.

Lemma grouped_nil : grouped [] [].
Proof.
  split.
  - intros k l [].
  - intros k l [].
  - intros k l r [].
  - intros d [].
  - intros k l [].
Qed.

Lemma parse_protocol_step_grouped : forall flows m d,
  grouped flows m -> typed d = true ->
  exists m', parse_protocol_step group_by group_fields m (VDict d) = OK m' /\
             grouped (flows ++ [VDict d]) m'.
Proof.
  intros flows m d [Hkeys Horigin Hsound Hcomplete Hdistinct] Hd.
  pose proof (@typed_group _ Hd) as Hg.
  unfold parse_protocol_step.
  change (py_get (VDict d) group_by VNone) with (OK (field d group_by)).
  cbn [bind]. rewrite build_record. cbn [bind].
  rewrite (@plain_hashable _ Hg).
  set (g := field d group_by) in *.
  set (cur := match pm_lookup m g with Some l => l | None => [] end).
  assert (Hcur : forall r, In r cur ->
            exists d', In (VDict d') flows /\ typed d' = true /\
                       field d' group_by = g /\ record d' = r).
  { intros r Hr. subst cur. destruct (pm_lookup m g) as [l |] eqn:El; [| destruct Hr].
    exact (Hsound _ _ _ (@pm_lookup_In_plain _ _ _ Hkeys Hg El) Hr). }
  assert (Hdcur : distinct_flows cur = true).
  { subst cur. destruct (pm_lookup m g) as [l |] eqn:El; [| reflexivity].
    exact (Hdistinct _ _ (@pm_lookup_In_plain _ _ _ Hkeys Hg El)). }
  destruct (dict_in_list (record d) cur) eqn:Emem.
  - (* an equal record is already in the group *)
    exists m. split; [reflexivity |]. split.
    + assumption.
    + intros k l Hin. destruct (Horigin _ _ Hin) as [d' [H1 H2]].
      exists d'. split; [apply in_or_app; now left | assumption].
    + intros k l r Hin Hr. destruct (Hsound _ _ _ Hin Hr) as [d' [H1 H2]].
      exists d'. split; [apply in_or_app; now left | assumption].
    + intros d' Hin Hd'. apply in_app_or in Hin. destruct Hin as [Hin | [E | []]].
      * now apply Hcomplete.
      * injection E as <-.
        apply dict_in_list_In in Emem. destruct Emem as [e [He Heq]].
        destruct (Hcur _ He) as [d0 [_ [Hd0 [_ <-]]]].
        apply record_eq in Heq; [| assumption | assumption].
        subst cur. fold g. destruct (pm_lookup m g) as [l |]; [| destruct He].
        exists l. split; [reflexivity | now rewrite <- Heq].
    + assumption.
  - (* the record is new *)
    exists (pm_set m g (cur ++ [record d])). split; [reflexivity |]. split.
    + now apply pm_set_plain_keys.
    + intros k l Hin.
      destruct (@pm_set_In_plain _ _ _ _ _ Hkeys Hg Hin) as [[-> _] | Hold].
      * exists d. split; [apply in_or_app; right; now left | now split].
      * destruct (Horigin _ _ Hold) as [d' [H1 H2]].
        exists d'. split; [apply in_or_app; now left | assumption].
    + intros k l r Hin Hr.
      destruct (@pm_set_In_plain _ _ _ _ _ Hkeys Hg Hin) as [[-> ->] | Hold].
      * apply in_app_or in Hr. destruct Hr as [Hr | [<- | []]].
        -- destruct (Hcur _ Hr) as [d' [H1 H2]].
           exists d'. split; [apply in_or_app; now left | assumption].
        -- exists d. split; [apply in_or_app; right; now left |].
           split; [assumption | split; reflexivity].
      * destruct (Hsound _ _ _ Hold Hr) as [d' [H1 H2]].
        exists d'. split; [apply in_or_app; now left | assumption].
    + intros d' Hin Hd'. rewrite (@pm_lookup_set _ _ (cur ++ [record d]) _ Hkeys Hg).
      apply in_app_or in Hin. destruct Hin as [Hin | [E | []]].
      * destruct (Hcomplete _ Hin Hd') as [l [El Hl]].
        destruct (py_eqb g (field d' group_by)) eqn:Eg.
        -- apply plain_eqb_eq in Eg; [| assumption | now apply typed_group].
           exists (cur ++ [record d]). split; [reflexivity |].
           apply in_or_app. left. subst cur. rewrite Eg, El. assumption.
        -- exists l. now split.
      * injection E as <-. fold g. rewrite (@plain_eqb_refl _ Hg).
        exists (cur ++ [record d]). split; [reflexivity |].
        apply in_or_app. right. now left.
    + intros k l Hin.
      destruct (@pm_set_In_plain _ _ _ _ _ Hkeys Hg Hin) as [[-> ->] | Hold].
      * now rewrite distinct_flows_snoc, Hdcur, Emem.
      * exact (Hdistinct _ _ Hold).
Qed.

Lemma for_each_grouped : forall rest flows m,
  grouped flows m -> forallb (flow_with typed) rest = true ->
  exists m', for_each rest (parse_protocol_step group_by group_fields) m = OK m' /\
             grouped (flows ++ rest) m'.
Proof.
  induction rest as [| v rest IH]; intros flows m Hm Hrest.
  - exists m. split; [reflexivity | now rewrite app_nil_r].
  - cbn in Hrest. apply andb_true_iff in Hrest. destruct Hrest as [Hv Hrest].
    destruct v as [| b | z | s | l | d]; try discriminate. cbn in Hv.
    destruct (@parse_protocol_step_grouped _ _ _ Hm Hv) as [m1 [E1 Hm1]].
    destruct (IH _ _ Hm1 Hrest) as [m' [E' Hm']].
    exists m'. split.
    + cbn [for_each]. rewrite E1. exact E'.
    + now rewrite <- app_assoc in Hm'.
Qed.

Lemma parse_protocol_data_grouped : forall flows,
  forallb (flow_with typed) flows = true ->
  exists m, parse_protocol_data (VList flows) group_by group_fields = OK m /\
            grouped flows m.
Proof.
  intros flows Hflows.
  destruct (@for_each_grouped flows _ _ grouped_nil Hflows) as [m [E Hm]].
  exists m. split; [exact E | exact Hm].
Qed.

End GroupedFlows.

(* ----------------------------------------------------------------- *)
(** *** The two groupings of [process_network] *)

Lemma canonical_build : forall d,
  build_flow_data (VDict d) ["port"; "uri"; "method"] [] = OK (canonical_record d).
Proof. reflexivity. Qed.

Lemma extended_build : forall d,
  build_flow_data (VDict d) ["dport"; "uri"; "method"] [] = OK (extended_record d).
Proof. reflexivity. Qed.

Lemma canonical_host : forall d,
  canonical_fields d = true -> plain (field d "host") = true.
Proof.
  intros d Hd. unfold canonical_fields in Hd.
  repeat (apply andb_true_iff in Hd; destruct Hd as [Hd ?]). assumption.
Qed.

Lemma extended_host : forall d,
  extended_fields d = true -> plain (field d "host") = true.
Proof.
  intros d Hd. unfold extended_fields in Hd.
  repeat (apply andb_true_iff in Hd; destruct Hd as [Hd ?]). assumption.
Qed.

Lemma record3_eqb : forall a b c p u m p' u' m',
  a <> b -> a <> c -> b <> c ->
  py_eqb (VDict [(a, p); (b, u); (c, m)]) (VDict [(a, p'); (b, u'); (c, m')])
  = py_eqb p p' && (py_eqb u u' && (py_eqb m m' && true)).
Proof.
  intros a b c p u m p' u' m' Hab Hac Hbc.
  cbn [py_eqb List.length Nat.eqb dict_get andb].
  rewrite !String.eqb_refl.
  apply String.eqb_neq in Hab, Hac, Hbc.
  now rewrite Hab, Hac, Hbc.
Qed.

Lemma canonical_refl : forall d,
  canonical_fields d = true ->
  py_eqb (VDict (canonical_record d)) (VDict (canonical_record d)) = true.
Proof.
  intros d Hd. unfold canonical_fields in Hd.
  repeat (apply andb_true_iff in Hd; destruct Hd as [Hd ?]).
  unfold canonical_record. rewrite record3_eqb by discriminate.
  now rewrite !plain_eqb_refl.
Qed.

Lemma canonical_eq : forall d1 d2,
  canonical_fields d1 = true -> canonical_fields d2 = true ->
  py_eqb (VDict (canonical_record d1)) (VDict (canonical_record d2)) = true ->
  canonical_record d1 = canonical_record d2.
Proof.
  intros d1 d2 H1 H2 E. unfold canonical_fields in H1, H2.
  repeat (apply andb_true_iff in H1; destruct H1 as [H1 ?]).
  repeat (apply andb_true_iff in H2; destruct H2 as [H2 ?]).
  unfold canonical_record in *. rewrite record3_eqb in E by discriminate.
  repeat (apply andb_true_iff in E; destruct E as [? E]).
  repeat match goal with
         | E : py_eqb ?a ?b = true |- _ => apply plain_eqb_eq in E; [| assumption | assumption]
         end.
  congruence.
Qed.

Lemma extended_dport : forall d,
  extended_fields d = true -> exists z, field d "dport" = VInt z.
Proof.
  intros d Hd. unfold extended_fields in Hd.
  repeat (apply andb_true_iff in Hd; destruct Hd as [Hd ?]).
  destruct (field d "dport"); try discriminate. now eexists.
Qed.

Lemma extended_eq : forall d1 d2,
  extended_fields d1 = true -> extended_fields d2 = true ->
  py_eqb (VDict (extended_record d1)) (VDict (extended_record d2)) = true ->
  extended_record d1 = extended_record d2.
Proof.
  intros d1 d2 H1 H2 E.
  destruct (extended_dport _ H1) as [z1 Hz1], (extended_dport _ H2) as [z2 Hz2].
  unfold extended_fields in H1, H2.
  repeat (apply andb_true_iff in H1; destruct H1 as [H1 ?]).
  repeat (apply andb_true_iff in H2; destruct H2 as [H2 ?]).
  unfold extended_record in *. rewrite record3_eqb in E by discriminate.
  repeat (apply andb_true_iff in E; destruct E as [? E]).
  rewrite Hz1, Hz2 in *.
  repeat match goal with
         | E : py_eqb ?a ?b = true |- _ =>
             apply plain_eqb_eq in E; [| assumption || reflexivity | assumption || reflexivity]
         end.
  congruence.
Qed.

Lemma map_result_map : forall (A B : Type) (f : A -> result B) (g : A -> B) (l : list A),
  (forall x, In x l -> f x = OK (g x)) -> map_result f l = OK (map g l).
Proof.
  induction l as [| x l IH]; intros Hl; [reflexivity |].
  cbn [map_result map]. rewrite (Hl x) by now left. cbn [bind].
  rewrite IH by (intros y Hy; apply Hl; now right). reflexivity.
Qed.

(* ----------------------------------------------------------------- *)
(** *** What [_add_ex_data] merges *)

Section MergedFlows.

Context `{Externals}.
Variables (protocol : string) (port : Z).

(** The full URI that [_add_ex_data] rebuilds: the port is written out
    unless it is the protocol's own. *)
Definition full_uri (host : value) (x : dict) : string :=
  match field x "dport" with
  | VInt z =>
      if Z.eqb z port
      then protocol ++ "://" ++ py_str host ++ py_str (field x "uri")
      else protocol ++ "://" ++ py_str host ++ ":" ++ str_of_Z z ++ py_str (field x "uri")
  | _ => ""
  end.

(** An extended record after the first loop of [_add_ex_data]. *)
Definition rewritten (host : value) (x : dict) : dict :=
  [("uri", VStr (full_uri host x)); ("method", field x "method");
   ("port", field x "dport")].

Lemma rewrite_extended : forall host d,
  extended_fields d = true ->
  rewrite_ex_flow protocol port host (extended_record d)
  = OK (rewritten host (extended_record d)).
Proof.
  intros host d Hd. destruct (extended_dport _ Hd) as [z Hz].
  unfold rewrite_ex_flow, rewritten, full_uri, extended_record, field.
  cbn [py_getitem dict_get String.eqb Ascii.eqb Bool.eqb bind].
  unfold field in Hz.
  destruct (dict_get d "dport") as [v |]; [| discriminate]. subst v.
  cbn [py_eqb]. destruct (Z.eqb z port); reflexivity.
Qed.

Lemma rewritten_refl : forall host d,
  extended_fields d = true ->
  py_eqb (VDict (rewritten host (extended_record d)))
         (VDict (rewritten host (extended_record d))) = true.
Proof.
  intros host d Hd. destruct (extended_dport _ Hd) as [z Hz].
  unfold extended_fields in Hd.
  repeat (apply andb_true_iff in Hd; destruct Hd as [Hd ?]).
  unfold rewritten. rewrite record3_eqb by discriminate.
  change (field (extended_record d) "method") with (field d "method").
  change (field (extended_record d) "dport") with (field d "dport").
  rewrite Hz. cbn [py_eqb]. rewrite String.eqb_refl, Z.eqb_refl.
  now rewrite plain_eqb_refl.
Qed.

(** The state of the loop of [_add_ex_data] over the hosts of the extended
    map: [done] are the entries merged so far. *)
Record merging (canon done acc : pmap) : Prop := {
  merging_keys : plain_keys acc;
  merging_sound : forall k l r, In (k, l) acc -> In r l ->
    (exists l0, In (k, l0) canon /\ In r l0) \/
    (exists fl x, In (k, fl) done /\ In x fl /\ r = rewritten k x);
  merging_canon : forall k l0, pm_lookup canon k = Some l0 ->
    exists added, pm_lookup acc k = Some (l0 ++ added);
  merging_done : forall k fl x, In (k, fl) done -> In x fl ->
    exists l, pm_lookup acc k = Some l /\ dict_in_list (rewritten k x) l = true;
  merging_distinct : forall k l l0, In (k, l) acc ->
    pm_lookup canon k = Some l0 -> distinct_flows l = true
}.

(** An entry of the extended map as the grouping leaves it. *)
Definition extended_entry (entry : value * list dict) : Prop :=
  plain (fst entry) = true /\
  forall x, In x (snd entry) ->
    exists d, extended_fields d = true /\ x = extended_record d.

Lemma merging_start : forall canon,
  plain_keys canon ->
  (forall k l, In (k, l) canon -> distinct_flows l = true) ->
  merging canon [] canon.
Proof.
  intros canon Hkeys Hdistinct. split.
  - assumption.
  - intros k l r Hin Hr. left. now exists l.
  - intros k l0 E. exists []. now rewrite app_nil_r.
  - intros k fl x [].
  - intros k l l0 Hin _. exact (Hdistinct _ _ Hin).
Qed.

Lemma add_ex_host_merging : forall canon done acc entry,
  merging canon done acc -> extended_entry entry ->
  exists acc', add_ex_host protocol port acc entry = OK acc' /\
               merging canon (done ++ [entry]) acc'.
Proof.
  intros canon done acc [k fl] [Hkeys Hsound Hcanon Hdone Hdistinct] [Hk Hfl].
  cbn [fst snd] in Hk, Hfl.
  assert (Hrefl : forall x, In x fl ->
            py_eqb (VDict (rewritten k x)) (VDict (rewritten k x)) = true).
  { intros x Hx. destruct (Hfl _ Hx) as [d [Hd ->]]. now apply rewritten_refl. }
  unfold add_ex_host.
  rewrite (@map_result_map _ _ _ (rewritten k) fl).
  2: { intros x Hx. destruct (Hfl _ Hx) as [d [Hd ->]]. now apply rewrite_extended. }
  cbn [bind].
  destruct (pm_lookup acc k) as [cur |] eqn:Ecur.
  - (* the host has flows already: the new ones are merged into them *)
    assert (Hin_cur : In (k, cur) acc) by now apply pm_lookup_In_plain.
    set (new := merge_ex_flows cur (map (rewritten k) fl)).
    exists (pm_set acc k new). split; [reflexivity |]. split.
    + now apply pm_set_plain_keys.
    + intros k' l r Hin Hr.
      destruct (@pm_set_In_plain _ _ _ _ _ Hkeys Hk Hin) as [[-> ->] | Hold].
      * apply merge_ex_flows_sound in Hr. destruct Hr as [Hr | Hr].
        -- destruct (Hsound _ _ _ Hin_cur Hr) as [Hl | [fl' [x [H1 H2]]]]; [now left |].
           right. exists fl', x. split; [apply in_or_app; now left | assumption].
        -- apply in_map_iff in Hr. destruct Hr as [x [<- Hx]].
           right. exists fl, x. split; [apply in_or_app; right; now left | now split].
      * destruct (Hsound _ _ _ Hold Hr) as [Hl | [fl' [x [H1 H2]]]]; [now left |].
        right. exists fl', x. split; [apply in_or_app; now left | assumption].
    + intros k' l0' E'. destruct (Hcanon _ _ E') as [added El].
      rewrite (@pm_lookup_set _ _ new _ Hkeys Hk).
      destruct (py_eqb k k') eqn:Ek.
      * rewrite (@pm_lookup_plain _ _ _ Hkeys Hk Ek), Ecur in El. injection El as ->.
        destruct (merge_ex_flows_prefix (map (rewritten k) fl) (l0' ++ added))
          as [more Emore].
        exists (added ++ more). subst new. now rewrite Emore, app_assoc.
      * now exists added.
    + intros k' fl' x Hin Hx. rewrite (@pm_lookup_set _ _ new _ Hkeys Hk).
      apply in_app_or in Hin. destruct Hin as [Hin | [E | []]].
      * destruct (Hdone _ _ _ Hin Hx) as [l [El Hl]].
        destruct (py_eqb k k') eqn:Ek.
        -- exists new. split; [reflexivity |].
           rewrite (@pm_lookup_plain _ _ _ Hkeys Hk Ek), Ecur in El. injection El as <-.
           now apply merge_ex_flows_mono.
        -- exists l. now split.
      * injection E as <- <-. rewrite (plain_eqb_refl _ Hk).
        exists new. split; [reflexivity |].
        apply merge_ex_flows_complete; [now apply Hrefl | now apply in_map].
    + intros k' l l0' Hin E'.
      destruct (@pm_set_In_plain _ _ _ _ _ Hkeys Hk Hin) as [[-> ->] | Hold].
      * apply merge_ex_flows_distinct. exact (Hdistinct _ _ _ Hin_cur E').
      * exact (Hdistinct _ _ _ Hold E').
  - (* the host is new: it gets a copy of the rewritten flows *)
    set (new := map (rewritten k) fl).
    exists (pm_set acc k new). split; [reflexivity |]. split.
    + now apply pm_set_plain_keys.
    + intros k' l r Hin Hr.
      destruct (@pm_set_In_plain _ _ _ _ _ Hkeys Hk Hin) as [[-> ->] | Hold].
      * apply in_map_iff in Hr. destruct Hr as [x [<- Hx]].
        right. exists fl, x. split; [apply in_or_app; right; now left | now split].
      * destruct (Hsound _ _ _ Hold Hr) as [Hl | [fl' [x [H1 H2]]]]; [now left |].
        right. exists fl', x. split; [apply in_or_app; now left | assumption].
    + intros k' l0' E'. destruct (Hcanon _ _ E') as [added El].
      rewrite (@pm_lookup_set _ _ new _ Hkeys Hk).
      destruct (py_eqb k k') eqn:Ek.
      * rewrite (@pm_lookup_plain _ _ _ Hkeys Hk Ek), Ecur in El. discriminate.
      * now exists added.
    + intros k' fl' x Hin Hx. rewrite (@pm_lookup_set _ _ new _ Hkeys Hk).
      apply in_app_or in Hin. destruct Hin as [Hin | [E | []]].
      * destruct (Hdone _ _ _ Hin Hx) as [l [El Hl]].
        destruct (py_eqb k k') eqn:Ek.
        -- rewrite (@pm_lookup_plain _ _ _ Hkeys Hk Ek), Ecur in El. discriminate.
        -- exists l. now split.
      * injection E as <- <-. rewrite (plain_eqb_refl _ Hk).
        exists new. split; [reflexivity |].
        apply In_dict_in_list; [now apply Hrefl | now apply in_map].
    + intros k' l l0' Hin E'.
      destruct (@pm_set_In_plain _ _ _ _ _ Hkeys Hk Hin) as [[-> ->] | Hold].
      * destruct (Hcanon _ _ E') as [added El]. congruence.
      * exact (Hdistinct _ _ _ Hold E').
Qed.

Lemma for_each_merging : forall rest canon done acc,
  merging canon done acc ->
  (forall entry, In entry rest -> extended_entry entry) ->
  exists acc', for_each rest (add_ex_host protocol port) acc = OK acc' /\
               merging canon (done ++ rest) acc'.
Proof.
  induction rest as [| entry rest IH]; intros canon done acc Hacc Hrest.
  - exists acc. split; [reflexivity | now rewrite app_nil_r].
  - destruct (@add_ex_host_merging _ _ _ entry Hacc) as [acc1 [E1 Hacc1]];
      [apply Hrest; now left |].
    destruct (IH _ _ _ Hacc1) as [acc' [E' Hacc']];
      [intros e He; apply Hrest; now right |].
    exists acc'. split.
    + cbn [for_each]. rewrite E1. exact E'.
    + now rewrite <- app_assoc in Hacc'.
Qed.

End MergedFlows.

(* ----------------------------------------------------------------- *)
(** *** The merged flows of a report *)

Lemma flow_with_In : forall typed flows d,
  forallb (flow_with typed) flows = true -> In (VDict d) flows -> typed d = true.
Proof.
  intros typed flows d Hflows Hin.
  rewrite forallb_forall in Hflows. exact (Hflows _ Hin).
Qed.

Lemma flow_with_dict : forall typed flows v,
  forallb (flow_with typed) flows = true -> In v flows ->
  exists d, v = VDict d /\ typed d = true.
Proof.
  intros typed flows v Hflows Hin.
  rewrite forallb_forall in Hflows. specialize (Hflows _ Hin).
  destruct v; try discriminate. now eexists.
Qed.

Lemma same_hosts_In : forall http http_ex d,
  forallb canonical_flow http = true ->
  forallb extended_flow http_ex = true ->
  same_hosts http http_ex = true ->
  In (VDict d) http_ex ->
  exists c, In (VDict c) http /\ canonical_fields c = true /\
            field c "host" = field d "host".
Proof.
  intros http http_ex d Hhttp Hex Hsame Hin.
  unfold same_hosts in Hsame. rewrite forallb_forall in Hsame.
  specialize (Hsame _ Hin). apply existsb_exists in Hsame.
  destruct Hsame as [v [Hv E]].
  destruct (flow_with_dict _ _ _ Hhttp Hv) as [c [-> Hc]].
  exists c. split; [assumption | split; [assumption |]].
  cbn [host_of] in E. apply plain_eqb_eq in E; [assumption | |].
  - now apply canonical_host.
  - apply extended_host. exact (flow_with_In _ _ _ Hex Hin).
Qed.

Section FlowCorrelation.

Context `{Externals}.
Variables (protocol : string) (port : Z).

(** The merged map, in terms of the flows of the report: every record is
    the record of a canonical flow of the host or the rewritten record of
    an extended flow of the host, every flow is represented under its
    host, the canonical records of a host come first, and a host with
    canonical flows holds no record twice. *)
Record merged_flows (http http_ex : list value) (canon m : pmap) : Prop := {
  merged_keys : plain_keys m;
  merged_sound : forall k l r, In (k, l) m -> In r l ->
    (exists d, In (VDict d) http /\ canonical_fields d = true /\
               field d "host" = k /\ r = canonical_record d) \/
    (exists d, In (VDict d) http_ex /\ extended_fields d = true /\
               field d "host" = k /\
               r = rewritten protocol port k (extended_record d));
  merged_canonical : forall d, In (VDict d) http -> canonical_fields d = true ->
    exists l, pm_lookup m (field d "host") = Some l /\ In (canonical_record d) l;
  merged_extended : forall d, In (VDict d) http_ex -> extended_fields d = true ->
    exists l, pm_lookup m (field d "host") = Some l /\
              dict_in_list (rewritten protocol port (field d "host") (extended_record d)) l
              = true;
  merged_prefix : forall k l0, pm_lookup canon k = Some l0 ->
    exists added, pm_lookup m k = Some (l0 ++ added);
  merged_distinct : forall k l l0, In (k, l) m ->
    pm_lookup canon k = Some l0 -> distinct_flows l = true
}.

Lemma correlate_flows : forall http http_ex,
  forallb canonical_flow http = true ->
  forallb extended_flow http_ex = true ->
  exists canon ex merged,
    parse_protocol_data (VList http) "host" ["port"; "uri"; "method"] = OK canon /\
    parse_protocol_data (VList http_ex) "host" ["dport"; "uri"; "method"] = OK ex /\
    _add_ex_data canon ex protocol port = OK merged /\
    grouped "host" canonical_fields canonical_record http canon /\
    grouped "host" extended_fields extended_record http_ex ex /\
    merged_flows http http_ex canon merged.
Proof.
  intros http http_ex Hhttp Hex.
  destruct (@parse_protocol_data_grouped "host" ["port"; "uri"; "method"]
              canonical_fields canonical_record canonical_build canonical_host
              canonical_eq http Hhttp) as [canon [Ecanon Gc]].
  destruct (@parse_protocol_data_grouped "host" ["dport"; "uri"; "method"]
              extended_fields extended_record extended_build extended_host
              extended_eq http_ex Hex) as [ex [Eex Ge]].
  destruct (@for_each_merging _ protocol port ex canon [] canon) as [merged [Em Hm]].
  - apply merging_start; [exact (grouped_keys Gc) | exact (grouped_distinct Gc)].
  - intros [k fl] Hin. split; [exact (grouped_keys Ge _ _ Hin) |].
    cbn [snd]. intros x Hx.
    destruct (grouped_sound Ge _ _ _ Hin Hx) as [d [_ [Htd [_ <-]]]]. now exists d.
  - exists canon, ex, merged.
    split; [assumption | split; [assumption | split; [exact Em |]]].
    split; [assumption | split; [assumption |]].
    destruct Hm as [Mkeys Msound Mcanon Mdone Mdistinct].
    cbn [app] in Msound, Mdone. split.
    + assumption.
    + intros k l r Hin Hr.
      destruct (Msound _ _ _ Hin Hr) as [[l0 [H0 Hr0]] | [fl [x [Hfl [Hx ->]]]]].
      * left. destruct (grouped_sound Gc _ _ _ H0 Hr0) as [d [H1 [H2 [H3 H4]]]].
        exists d. now repeat split.
      * right. destruct (grouped_sound Ge _ _ _ Hfl Hx) as [d [H1 [H2 [H3 <-]]]].
        exists d. now repeat split.
    + intros d Hd Htd. destruct (grouped_complete Gc _ Hd Htd) as [l0 [El0 Hl0]].
      destruct (Mcanon _ _ El0) as [added El]. exists (l0 ++ added).
      split; [assumption | apply in_or_app; now left].
    + intros d Hd Htd. destruct (grouped_complete Ge _ Hd Htd) as [fl [Efl Hfl]].
      apply (Mdone _ fl); [| assumption].
      apply pm_lookup_In_plain; [exact (grouped_keys Ge) | now apply extended_host | assumption].
    + assumption.
    + assumption.
Qed.

End FlowCorrelation.

Lemma forallb_Permutation : forall (A : Type) (p : A -> bool) (l l' : list A),
  Permutation l l' -> forallb p l = true -> forallb p l' = true.
Proof.
  intros A p l l' Hperm Hl. rewrite forallb_forall in *.
  intros x Hx. apply Hl. exact (Permutation_in _ (Permutation_sym Hperm) Hx).
Qed.

Section MergedFlowsProperties.

Context `{Externals}.
Variables (protocol : string) (port : Z).

(** Whatever one merged map holds for a host, a merged map of flows that
    include the same ones holds an equal record for. *)
Lemma merged_flows_included : forall http http_ex canon m http' http_ex' canon' m',
  merged_flows protocol port http http_ex canon m ->
  merged_flows protocol port http' http_ex' canon' m' ->
  forallb canonical_flow http = true ->
  forallb extended_flow http_ex = true ->
  incl http http' -> incl http_ex http_ex' ->
  forall host flow, In flow (flows_of m host) ->
    dict_in_list flow (flows_of m' host) = true.
Proof.
  intros http http_ex canon m http' http_ex' canon' m' Hm Hm' Hhttp Hex Hi Hiex
         host flow Hflow.
  unfold flows_of in *.
  destruct (pm_lookup m host) as [l |] eqn:El; [| destruct Hflow].
  destruct (pm_lookup_In _ _ El) as [k [Hin Hk]].
  pose proof (merged_keys Hm _ _ Hin) as Hpk.
  rewrite (@pm_lookup_plain _ _ _ (merged_keys Hm') Hpk Hk).
  destruct (merged_sound Hm _ _ _ Hin Hflow) as [[d [Hd [Htd [<- ->]]]] | [d [Hd [Htd [<- ->]]]]].
  - destruct (merged_canonical Hm' d (Hi _ Hd) Htd) as [l' [El' Hl']].
    rewrite El'. apply In_dict_in_list; [now apply canonical_refl | assumption].
  - destruct (merged_extended Hm' d (Hiex _ Hd) Htd) as [l' [El' Hl']].
    now rewrite El'.
Qed.

End MergedFlowsProperties.

(** Merging the extended flows of a report into the canonical ones leaves
    no host with two equal records, when every host of an extended flow has
    canonical flows. *)
Theorem merged_flows_distinct :
  forall (E : Externals) protocol port http http_ex,
    forallb canonical_flow http = true ->
    forallb extended_flow http_ex = true ->
    same_hosts http http_ex = true ->
    exists canon ex merged,
      parse_protocol_data (VList http) "host" ["port"; "uri"; "method"] = OK canon /\
      parse_protocol_data (VList http_ex) "host" ["dport"; "uri"; "method"] = OK ex /\
      _add_ex_data canon ex protocol port = OK merged /\
      forall host, distinct_flows (flows_of merged host) = true.
Proof.
  intros E protocol port http http_ex Hhttp Hex Hsame.
  destruct (correlate_flows protocol port http http_ex Hhttp Hex)
    as [canon [ex [merged [Ec [Ee [Em [Gc [Ge Hm]]]]]]]].
  exists canon, ex, merged.
  split; [assumption | split; [assumption | split; [assumption |]]].
  intros host. unfold flows_of.
  destruct (pm_lookup merged host) as [l |] eqn:El; [| reflexivity].
  destruct (pm_lookup_In _ _ El) as [k [Hin _]].
  destruct l as [| r l]; [reflexivity |].
  assert (Hc : exists c, In (VDict c) http /\ canonical_fields c = true /\
                         field c "host" = k).
  { destruct (merged_sound Hm _ _ r Hin) as [[d [Hd [Htd [Hk _]]]] | [d [Hd [Htd [Hk _]]]]].
    - now left.
    - now exists d.
    - destruct (same_hosts_In _ _ _ Hhttp Hex Hsame Hd) as [c [Hc [Htc Hkc]]].
      exists c. split; [assumption | split; [assumption | congruence]]. }
  destruct Hc as [c [Hc [Htc <-]]].
  destruct (grouped_complete Gc _ Hc Htc) as [l0 [El0 _]].
  exact (merged_distinct Hm _ _ Hin El0).
Qed.

(** The records that the merged map holds for a host do not depend on the
    order of the flows in the report: with the canonical flows and the
    extended flows each in another order, every record of one outcome has an
    equal record in the other, under the same host. *)
Theorem merged_flows_order_independent :
  forall (E : Externals) protocol port http http_ex http' http_ex',
    forallb canonical_flow http = true ->
    forallb extended_flow http_ex = true ->
    Permutation http http' -> Permutation http_ex http_ex' ->
    exists canon ex merged canon' ex' merged',
      parse_protocol_data (VList http) "host" ["port"; "uri"; "method"] = OK canon /\
      parse_protocol_data (VList http_ex) "host" ["dport"; "uri"; "method"] = OK ex /\
      _add_ex_data canon ex protocol port = OK merged /\
      parse_protocol_data (VList http') "host" ["port"; "uri"; "method"] = OK canon' /\
      parse_protocol_data (VList http_ex') "host" ["dport"; "uri"; "method"] = OK ex' /\
      _add_ex_data canon' ex' protocol port = OK merged' /\
      (forall host flow, In flow (flows_of merged host) ->
         dict_in_list flow (flows_of merged' host) = true) /\
      (forall host flow, In flow (flows_of merged' host) ->
         dict_in_list flow (flows_of merged host) = true).
Proof.
  intros E protocol port http http_ex http' http_ex' Hhttp Hex Hp Hpex.
  pose proof (forallb_Permutation _ Hp Hhttp) as Hhttp'.
  pose proof (forallb_Permutation _ Hpex Hex) as Hex'.
  destruct (correlate_flows protocol port http http_ex Hhttp Hex)
    as [canon [ex [merged [Ec [Ee [Em [_ [_ Hm]]]]]]]].
  destruct (correlate_flows protocol port http' http_ex' Hhttp' Hex')
    as [canon' [ex' [merged' [Ec' [Ee' [Em' [_ [_ Hm']]]]]]]].
  exists canon, ex, merged, canon', ex', merged'.
  repeat match goal with |- _ /\ _ => split end; try assumption.
  - apply (merged_flows_included Hm Hm' Hhttp Hex).
    + intros v Hv. exact (Permutation_in _ Hp Hv).
    + intros v Hv. exact (Permutation_in _ Hpex Hv).
  - apply (merged_flows_included Hm' Hm Hhttp' Hex').
    + intros v Hv. exact (Permutation_in _ (Permutation_sym Hp) Hv).
    + intros v Hv. exact (Permutation_in _ (Permutation_sym Hpex) Hv).
Qed.

(** Merging only appends: the canonical records of a host stay where they
    are, in their order, in front of what the extended flows add. *)
Theorem merged_flows_keep_canonical_first :
  forall (E : Externals) protocol port http http_ex,
    forallb canonical_flow http = true ->
    forallb extended_flow http_ex = true ->
    exists canon ex merged,
      parse_protocol_data (VList http) "host" ["port"; "uri"; "method"] = OK canon /\
      parse_protocol_data (VList http_ex) "host" ["dport"; "uri"; "method"] = OK ex /\
      _add_ex_data canon ex protocol port = OK merged /\
      forall host, exists added,
        flows_of merged host = flows_of canon host ++ added.
Proof.
  intros E protocol port http http_ex Hhttp Hex.
  destruct (correlate_flows protocol port http http_ex Hhttp Hex)
    as [canon [ex [merged [Ec [Ee [Em [_ [_ Hm]]]]]]]].
  exists canon, ex, merged.
  split; [assumption | split; [assumption | split; [assumption |]]].
  intros host. unfold flows_of.
  destruct (pm_lookup canon host) as [l0 |] eqn:El0.
  - destruct (merged_prefix Hm _ El0) as [added El]. exists added. now rewrite El.
  - now exists (match pm_lookup merged host with Some l => l | None => [] end).
Qed.

(** No extended flow is lost: under its host, the merged map holds a record
    with the port and the method of the flow and the full URI, which names
    the port unless it is the default one of the protocol. *)
Theorem merged_flows_hold_extended :
  forall (E : Externals) protocol port http http_ex d z,
    forallb canonical_flow http = true ->
    forallb extended_flow http_ex = true ->
    In (VDict d) http_ex -> field d "dport" = VInt z ->
    exists canon ex merged,
      parse_protocol_data (VList http) "host" ["port"; "uri"; "method"] = OK canon /\
      parse_protocol_data (VList http_ex) "host" ["dport"; "uri"; "method"] = OK ex /\
      _add_ex_data canon ex protocol port = OK merged /\
      dict_in_list
        [("uri", VStr (protocol ++ "://" ++ py_str (field d "host") ++
                       (if Z.eqb z port then "" else ":" ++ str_of_Z z) ++
                       py_str (field d "uri")));
         ("method", field d "method"); ("port", VInt z)]
        (flows_of merged (field d "host")) = true.
Proof.
  intros E protocol port http http_ex d z Hhttp Hex Hd Hz.
  destruct (correlate_flows protocol port http http_ex Hhttp Hex)
    as [canon [ex [merged [Ec [Ee [Em [_ [_ Hm]]]]]]]].
  exists canon, ex, merged.
  split; [assumption | split; [assumption | split; [assumption |]]].
  destruct (merged_extended Hm d Hd (flow_with_In _ _ _ Hex Hd)) as [l [El Hl]].
  unfold flows_of. rewrite El.
  unfold rewritten, full_uri in Hl.
  change (field (extended_record d) "method") with (field d "method") in Hl.
  change (field (extended_record d) "dport") with (field d "dport") in Hl.
  change (field (extended_record d) "uri") with (field d "uri") in Hl.
  rewrite Hz in Hl. destruct (Z.eqb z port); exact Hl.
Qed.

Definition sample_http : list value :=
  [VDict [("host", VStr "example.com"); ("port", VInt 80);
          ("uri", VStr "http://example.com/a"); ("method", VStr "GET")];
   VDict [("host", VStr "cdn.example.net"); ("port", VInt 8080);
          ("uri", VStr "http://cdn.example.net:8080/b"); ("method", VStr "POST")]].

Definition sample_http_ex : list value :=
  [VDict [("host", VStr "example.com"); ("dport", VInt 80);
          ("uri", VStr "/a"); ("method", VStr "GET")];
   VDict [("host", VStr "cdn.example.net"); ("dport", VInt 8080);
          ("uri", VStr "/c"); ("method", VStr "GET")];
   VDict [("host", VStr "example.com"); ("dport", VInt 80);
          ("uri", VStr "/a"); ("method", VStr "GET")]].

Lemma merged_flows_distinct_witness :
  exists canon ex merged,
    parse_protocol_data (VList sample_http) "host" ["port"; "uri"; "method"] = OK canon /\
    parse_protocol_data (VList sample_http_ex) "host" ["dport"; "uri"; "method"] = OK ex /\
    @_add_ex_data sample_externals canon ex "http" 80 = OK merged /\
    forall host, distinct_flows (flows_of merged host) = true.
Proof.
  exact (@merged_flows_distinct sample_externals "http" 80%Z sample_http sample_http_ex
           eq_refl eq_refl eq_refl).
Defined.

Lemma merged_flows_order_independent_witness :
  exists canon ex merged canon' ex' merged',
    parse_protocol_data (VList sample_http) "host" ["port"; "uri"; "method"] = OK canon /\
    parse_protocol_data (VList sample_http_ex) "host" ["dport"; "uri"; "method"] = OK ex /\
    @_add_ex_data sample_externals canon ex "http" 80 = OK merged /\
    parse_protocol_data (VList (rev sample_http)) "host" ["port"; "uri"; "method"]
    = OK canon' /\
    parse_protocol_data (VList (rev sample_http_ex)) "host" ["dport"; "uri"; "method"]
    = OK ex' /\
    @_add_ex_data sample_externals canon' ex' "http" 80 = OK merged' /\
    (forall host flow, In flow (flows_of merged host) ->
       dict_in_list flow (flows_of merged' host) = true) /\
    (forall host flow, In flow (flows_of merged' host) ->
       dict_in_list flow (flows_of merged host) = true).
Proof.
  exact (@merged_flows_order_independent sample_externals "http" 80%Z
           sample_http sample_http_ex (rev sample_http) (rev sample_http_ex)
           eq_refl eq_refl (Permutation_rev _) (Permutation_rev _)).
Defined.

Lemma merged_flows_keep_canonical_first_witness :
  exists canon ex merged,
    parse_protocol_data (VList sample_http) "host" ["port"; "uri"; "method"] = OK canon /\
    parse_protocol_data (VList sample_http_ex) "host" ["dport"; "uri"; "method"] = OK ex /\
    @_add_ex_data sample_externals canon ex "http" 80 = OK merged /\
    forall host, exists added, flows_of merged host = flows_of canon host ++ added.
Proof.
  exact (@merged_flows_keep_canonical_first sample_externals "http" 80%Z
           sample_http sample_http_ex eq_refl eq_refl).
Defined.

Lemma merged_flows_hold_extended_witness :
  exists canon ex merged,
    parse_protocol_data (VList sample_http) "host" ["port"; "uri"; "method"] = OK canon /\
    parse_protocol_data (VList sample_http_ex) "host" ["dport"; "uri"; "method"] = OK ex /\
    @_add_ex_data sample_externals canon ex "http" 80 = OK merged /\
    dict_in_list
      [("uri", VStr "http://cdn.example.net:8080/c"); ("method", VStr "GET");
       ("port", VInt 8080)]
      (flows_of merged (VStr "cdn.example.net")) = true.
Proof.
  exact (@merged_flows_hold_extended sample_externals "http" 80%Z
           sample_http sample_http_ex
           [("host", VStr "cdn.example.net"); ("dport", VInt 8080);
            ("uri", VStr "/c"); ("method", VStr "GET")] 8080%Z
           eq_refl eq_refl (or_intror (or_introl eq_refl)) eq_refl).
Defined.

(* ================================================================= *)
(** ** The fixed-width tables of [dict_list_to_fixedwidth_str_list] *)

Lemma string_length_append : forall s t : string,
  String.length (s ++ t) = String.length s + String.length t.
Proof. induction s as [| c s IH]; intros t; cbn; [reflexivity | now rewrite IH]. Qed.

Lemma spaces_length : forall n, String.length (spaces n) = n.
Proof. induction n as [| n IH]; cbn; [reflexivity | now rewrite IH]. Qed.

(** A padded text is as wide as asked when it fits. *)
Lemma ljust_length : forall s w,
  String.length s <= w -> String.length (ljust s w) = w.
Proof.
  intros s w Hs. unfold ljust. rewrite string_length_append, spaces_length. lia.
Qed.

Lemma ljust_own_length : forall s, ljust s (String.length s) = s.
Proof.
  intros s. unfold ljust. rewrite Nat.sub_diag. cbn.
  induction s as [| c s IH]; cbn; [reflexivity | now rewrite IH].
Qed.

Lemma sm_get_set : forall (A : Type) (m : list (string * A)) k a q,
  sm_get (sm_set m k a) q = if String.eqb k q then Some a else sm_get m q.
Proof.
  induction m as [| [k' a'] r IH]; intros k a q; cbn.
  - reflexivity.
  - destruct (String.eqb k' k) eqn:Ek; cbn.
    + apply String.eqb_eq in Ek. subst k'. now destruct (String.eqb k q).
    + rewrite IH. destruct (String.eqb k' q) eqn:Ekq; [| reflexivity].
      apply String.eqb_eq in Ekq. subst k'.
      rewrite String.eqb_sym in Ek. now rewrite Ek.
Qed.

Lemma insert_sorted_In : forall (A : Type) (leb : A -> A -> bool) x y l,
  In y (insert_sorted leb x l) <-> y = x \/ In y l.
Proof.
  induction l as [| z l IH]; cbn.
  - intuition.
  - destruct (leb x z); cbn; [intuition | rewrite IH; intuition].
Qed.

Lemma sort_by_In : forall (A : Type) (leb : A -> A -> bool) y l,
  In y (sort_by leb l) <-> In y l.
Proof.
  induction l as [| x l IH]; cbn; [reflexivity |].
  rewrite insert_sorted_In, IH. intuition.
Qed.

Lemma dict_get_In : forall d k (v : value), dict_get d k = Some v -> In (k, v) d.
Proof.
  induction d as [| [k' v'] r IH]; intros k v E; cbn in E; [discriminate |].
  destruct (String.eqb k' k) eqn:Ek.
  - apply String.eqb_eq in Ek. injection E as <-. subst. now left.
  - right. now apply IH.
Qed.

Lemma dict_get_key : forall d k, In k (map fst d) -> exists v : value, dict_get d k = Some v.
Proof.
  induction d as [| [k' v'] r IH]; intros k Hin; [destruct Hin |].
  cbn. destruct (String.eqb k' k) eqn:Ek; [now eexists |].
  destruct Hin as [E | Hin]; [| now apply IH].
  cbn in E. subst. now rewrite String.eqb_refl in Ek.
Qed.

Section FixedWidth.

Context `{Externals}.

(** What a format specification accepts: text and numbers. *)
Definition formattable (v : value) : bool :=
  match v with
  | VStr _ | VInt _ | VBool _ => true
  | _ => false
  end.

Definition measures := (list (string * nat) * list (string * (nat * nat)))%type.

(** The column of [k] is known, is labelled with the width of [k], and is
    at least [n] wide. *)
Definition wide (st : measures) (k : string) (n : nat) : Prop :=
  exists w, sm_get (fst st) k = Some w /\ sm_get (snd st) k = Some (String.length k, w)
            /\ n <= w.

Definition measure_step (acc : measures) (kv : string * value) : measures :=
  let (max_lens, lens) := acc in
  let (k, v) := kv in
  let k_len := String.length k in
  let v_len := String.length (py_str v) in
  let m := Nat.max (match sm_get max_lens k with Some n => n | None => 0 end)
                   (v_len + 4) in
  (sm_set max_lens k m, sm_set lens k (k_len, m)).

Lemma fixedwidth_measure_dict : forall st d,
  fixedwidth_measure st (VDict d) = OK (fold_left measure_step d st).
Proof. reflexivity. Qed.

Lemma measure_step_wide : forall st kv k n,
  wide st k n -> wide (measure_step st kv) k n.
Proof.
  intros [max_lens lens] [k0 v0] k n [w [E1 [E2 Hn]]]. cbn in E1, E2.
  unfold measure_step, wide. cbn [fst snd]. rewrite !sm_get_set.
  destruct (String.eqb k0 k) eqn:Ek.
  - apply String.eqb_eq in Ek. subst k0. rewrite E1.
    eexists. split; [reflexivity | split; [reflexivity | lia]].
  - exists w. now repeat split.
Qed.

Lemma measure_step_new : forall st k v,
  wide (measure_step st (k, v)) k (String.length (py_str v) + 4).
Proof.
  intros [max_lens lens] k v. unfold measure_step, wide. cbn [fst snd].
  rewrite !sm_get_set, String.eqb_refl.
  eexists. split; [reflexivity | split; [reflexivity | lia]].
Qed.

Lemma fold_measure_wide : forall d st k n,
  wide st k n -> wide (fold_left measure_step d st) k n.
Proof.
  induction d as [| kv d IH]; intros st k n Hw; [assumption |].
  cbn. apply IH. now apply measure_step_wide.
Qed.

Lemma fold_measure_covers : forall d st k v,
  In (k, v) d -> wide (fold_left measure_step d st) k (String.length (py_str v) + 4).
Proof.
  induction d as [| kv d IH]; intros st k v Hin; [destruct Hin |].
  cbn. destruct Hin as [-> | Hin].
  - apply fold_measure_wide, measure_step_new.
  - now apply IH.
Qed.

(** After the first loop, every value of every dictionary fits its column. *)
Lemma measure_all : forall l st,
  (forall v, In v l -> is_dict v = true) ->
  exists st', for_each l fixedwidth_measure st = OK st' /\
    (forall k n, wide st k n -> wide st' k n) /\
    (forall d k v, In (VDict d) l -> In (k, v) d ->
       wide st' k (String.length (py_str v) + 4)).
Proof.
  induction l as [| x l IH]; intros st Hl.
  - exists st. split; [reflexivity | split; [auto | intros d k v []]].
  - assert (Hx : is_dict x = true) by (apply Hl; now left).
    destruct x as [| | | | | d]; try discriminate.
    destruct (IH (fold_left measure_step d st)) as [st' [E [Hmono Hcov]]];
      [intros v Hv; apply Hl; now right |].
    exists st'. split; [| split].
    + cbn [for_each]. rewrite fixedwidth_measure_dict. exact E.
    + intros k n Hw. apply Hmono. now apply fold_measure_wide.
    + intros d' k v [E' | Hin] Hkv.
      * injection E' as <-. apply Hmono. now apply fold_measure_covers.
      * exact (Hcov _ _ _ Hin Hkv).
Qed.

(** The width of a line with the given keys. *)
Definition cell_width (print_keys : bool) (lens : list (string * (nat * nat)))
  (k : string) : nat :=
  match sm_get lens k with
  | Some (_, w) => if print_keys then String.length k + 2 + w else w
  | None => 0
  end.

Definition line_width (print_keys : bool) (lens : list (string * (nat * nat)))
  (keys : list string) : nat :=
  list_sum (map (cell_width print_keys lens) keys).

Lemma format_cell : forall v w,
  formattable v = true -> String.length (py_str v) + 4 <= w ->
  exists cell, py_format_ljust v w = OK cell /\ String.length cell = w.
Proof.
  intros v w Hv Hw. destruct v as [| b | z | s | l | d]; try discriminate; cbn in *.
  - eexists. split; [reflexivity |]. apply ljust_length. destruct b; cbn in *; lia.
  - eexists. split; [reflexivity |]. apply ljust_length. lia.
  - eexists. split; [reflexivity |]. apply ljust_length. lia.
Qed.

Lemma fixedwidth_cells : forall (print_keys : bool) (st : measures) (d : dict) keys output,
  (forall k, In k keys -> exists v, dict_get d k = Some v /\ formattable v = true /\
                                    wide st k (String.length (py_str v) + 4)) ->
  exists line,
    for_each keys
      (fun (output : string) (k : string) =>
         match sm_get (snd st) k, dict_get d k with
         | Some (k_len, w), Some v =>
             cell <- py_format_ljust v w ;;
             if print_keys
             then OK (output ++ ljust k k_len ++ ": " ++ cell)%string
             else OK (output ++ cell)%string
         | _, _ => Raise KeyError
         end)
      output = OK line /\
    String.length line = String.length output + line_width print_keys (snd st) keys.
Proof.
  intros print_keys st d. induction keys as [| k keys IH]; intros output Hkeys.
  - exists output. split; [reflexivity | unfold line_width; cbn; lia].
  - destruct (Hkeys k) as [v [Ev [Hv [w [_ [Ew Hw]]]]]]; [now left |].
    destruct (format_cell _ Hv Hw) as [cell [Ecell Hcell]].
    cbn [for_each]. rewrite Ew, Ev, Ecell. cbn [bind].
    unfold line_width, list_sum in *. cbn [map fold_right].
    unfold cell_width at 1. rewrite Ew.
    destruct print_keys; cbn [bind].
    + destruct (IH (output ++ ljust k (String.length k) ++ ": " ++ cell)%string)
        as [line [E Hline]]; [intros k' Hk'; apply Hkeys; now right |].
      exists line. split; [exact E |]. rewrite Hline.
      rewrite !string_length_append, ljust_own_length. cbn [String.length]. lia.
    + destruct (IH (output ++ cell)%string) as [line [E Hline]];
        [intros k' Hk'; apply Hkeys; now right |].
      exists line. split; [exact E |]. rewrite Hline, string_length_append. lia.
Qed.

(** Every value of the dictionary can be formatted. *)
Definition formattable_dict (v : value) : bool :=
  match v with
  | VDict d => forallb (fun kv => formattable (snd kv)) d
  | _ => false
  end.

Lemma fixedwidth_line_width : forall (print_keys : bool) (st : measures) (d : dict),
  forallb (fun kv => formattable (snd kv)) d = true ->
  (forall k v, In (k, v) d -> wide st k (String.length (py_str v) + 4)) ->
  exists line,
    fixedwidth_line print_keys (snd st) (VDict d) = OK line /\
    String.length line = line_width print_keys (snd st) (sort_strings (map fst d)).
Proof.
  intros print_keys st d Hd Hwide.
  destruct (@fixedwidth_cells print_keys st d (sort_strings (map fst d)) "")
    as [line [E Hline]].
  - intros k Hk. apply sort_by_In in Hk.
    destruct (dict_get_key _ _ Hk) as [v Ev]. exists v.
    pose proof (dict_get_In _ _ Ev) as Hin.
    split; [assumption | split; [| now apply Hwide]].
    rewrite forallb_forall in Hd. exact (Hd _ Hin).
  - exists line. split; [exact E | exact Hline].
Qed.

End FixedWidth.

Lemma map_result_each : forall (A B : Type) (f : A -> result B) (l : list A),
  (forall x, In x l -> exists y, f x = OK y) ->
  exists ys, map_result f l = OK ys /\ List.length ys = List.length l /\
    forall i x y, nth_error l i = Some x -> nth_error ys i = Some y -> f x = OK y.
Proof.
  induction l as [| a l IH]; intros Hl.
  - exists []. split; [reflexivity | split; [reflexivity |]].
    intros [| i] x y E; discriminate.
  - destruct (Hl a) as [b Eb]; [now left |].
    destruct IH as [ys [E [Hlen Hnth]]]; [intros x Hx; apply Hl; now right |].
    exists (b :: ys). split; [| split].
    + cbn [map_result]. rewrite Eb. cbn [bind]. rewrite E. reflexivity.
    + cbn. now rewrite Hlen.
    + intros [| i] x y Ex Ey; cbn in Ex, Ey.
      * injection Ex as <-. injection Ey as <-. exact Eb.
      * exact (Hnth _ _ _ Ex Ey).
Qed.

Lemma map_result_raises : forall (A B : Type) (f : A -> result B) (e : exn) (l : list A),
  (forall x, In x l -> (exists y, f x = OK y) \/ f x = Raise e) ->
  (exists x, In x l /\ f x = Raise e) ->
  map_result f l = Raise e.
Proof.
  induction l as [| a l IH]; intros Hl [x [Hx Ex]]; [destruct Hx |].
  cbn [map_result]. destruct (Hl a) as [[b Eb] | Ea]; [now left | |].
  - rewrite Eb. cbn [bind]. rewrite IH; [reflexivity | |].
    + intros y Hy. apply Hl. now right.
    + destruct Hx as [-> | Hx]; [congruence | now exists x].
  - now rewrite Ea.
Qed.

Lemma for_each_raises : forall (A S : Type) (f : S -> A -> result S) (e : exn) (l : list A),
  (forall x s, In x l -> (exists s', f s x = OK s') \/ f s x = Raise e) ->
  (exists x, In x l /\ forall s, f s x = Raise e) ->
  forall s, for_each l f s = Raise e.
Proof.
  induction l as [| a l IH]; intros Hl [x [Hx Ex]] s; [destruct Hx |].
  cbn [for_each]. destruct (Hl a s) as [[s' Es] | Ea]; [now left | |].
  - rewrite Es. cbn [bind]. apply IH.
    + intros y t Hy. apply Hl. now right.
    + destruct Hx as [-> | Hx]; [rewrite Ex in Es; discriminate | now exists x].
  - now rewrite Ea.
Qed.

Lemma for_each_ok_or_raises : forall (A S : Type) (f : S -> A -> result S) (e : exn)
  (l : list A),
  (forall x s, In x l -> (exists s', f s x = OK s') \/ f s x = Raise e) ->
  forall s, (exists s', for_each l f s = OK s') \/ for_each l f s = Raise e.
Proof.
  induction l as [| a l IH]; intros Hl s.
  - left. now exists s.
  - cbn [for_each]. destruct (Hl a s) as [[s' Es] | Ea]; [now left | |].
    + rewrite Es. cbn [bind]. apply IH. intros y t Hy. apply Hl. now right.
    + right. now rewrite Ea.
Qed.

Section FixedWidthProperties.

Context `{Externals}.

Lemma format_cell_or_type_error : forall v w,
  (exists cell, py_format_ljust v w = OK cell) \/ py_format_ljust v w = Raise TypeError.
Proof. intros [| b | z | s | l | d] w; cbn; eauto. Qed.

Lemma format_cell_type_error : forall v w,
  formattable v = false -> py_format_ljust v w = Raise TypeError.
Proof. now intros [| b | z | s | l | d] w Hv. Qed.

(** A line is built, or a value refuses the format: nothing else happens
    once the widths cover the dictionary. *)
Lemma fixedwidth_line_outcome : forall (print_keys : bool) (st : measures) (d : dict),
  (forall k v, In (k, v) d -> wide st k (String.length (py_str v) + 4)) ->
  ((exists line, fixedwidth_line print_keys (snd st) (VDict d) = OK line) \/
   fixedwidth_line print_keys (snd st) (VDict d) = Raise TypeError) /\
  ((exists k v, dict_get d k = Some v /\ formattable v = false) ->
   fixedwidth_line print_keys (snd st) (VDict d) = Raise TypeError).
Proof.
  intros print_keys st d Hwide.
  assert (Hstep : forall k (s : string), In k (sort_strings (map fst d)) ->
            (exists s',
               match sm_get (snd st) k, dict_get d k with
               | Some (k_len, w), Some v =>
                   cell <- py_format_ljust v w ;;
                   if print_keys
                   then OK (s ++ ljust k k_len ++ ": " ++ cell)%string
                   else OK (s ++ cell)%string
               | _, _ => Raise KeyError
               end = OK s') \/
            match sm_get (snd st) k, dict_get d k with
            | Some (k_len, w), Some v =>
                cell <- py_format_ljust v w ;;
                if print_keys
                then OK (s ++ ljust k k_len ++ ": " ++ cell)%string
                else OK (s ++ cell)%string
            | _, _ => Raise KeyError
            end = Raise TypeError).
  { intros k s Hk. apply sort_by_In in Hk.
    destruct (dict_get_key _ _ Hk) as [v Ev].
    destruct (Hwide _ _ (dict_get_In _ _ Ev)) as [w [_ [Ew _]]].
    rewrite Ew, Ev.
    destruct (format_cell_or_type_error v w) as [[cell Ec] | Ec]; rewrite Ec; cbn [bind].
    - left. destruct print_keys; eauto.
    - now right. }
  split.
  - unfold fixedwidth_line. apply for_each_ok_or_raises. intros k s Hk. now apply Hstep.
  - intros [k [v [Ev Hv]]]. unfold fixedwidth_line. apply for_each_raises.
    + intros k' s Hk'. now apply Hstep.
    + exists k. split.
      * apply sort_by_In. pose proof (dict_get_In _ _ Ev) as Hin.
        apply in_map_iff. now exists (k, v).
      * intros s. destruct (Hwide _ _ (dict_get_In _ _ Ev)) as [w [_ [Ew _]]].
        rewrite Ew, Ev, (format_cell_type_error _ w Hv). reflexivity.
Qed.

Lemma measure_rejects_non_dict : forall l st,
  existsb (fun v => negb (is_dict v)) l = true ->
  for_each l fixedwidth_measure st = Raise AttributeError.
Proof.
  induction l as [| x l IH]; intros st Hl; [discriminate |].
  cbn [existsb] in Hl. cbn [for_each].
  destruct x as [| b | z | s | r | d]; try reflexivity.
  cbn [is_dict negb orb] in Hl. rewrite fixedwidth_measure_dict. cbn [bind].
  now apply IH.
Qed.

End FixedWidthProperties.

(** A table of dictionaries whose values are text or numbers is rendered
    with one line per dictionary, and dictionaries with the same keys get
    lines of the same width. *)
Theorem fixedwidth_lines_align :
  forall (E : Externals) (dict_list : list value) (print_keys : bool),
    forallb formattable_dict dict_list = true ->
    exists lines,
      dict_list_to_fixedwidth_str_list dict_list print_keys = OK lines /\
      List.length lines = List.length dict_list /\
      forall i j d1 d2 l1 l2,
        nth_error dict_list i = Some (VDict d1) ->
        nth_error dict_list j = Some (VDict d2) ->
        nth_error lines i = Some l1 -> nth_error lines j = Some l2 ->
        sort_strings (map fst d1) = sort_strings (map fst d2) ->
        String.length l1 = String.length l2.
Proof.
  intros E dict_list print_keys Hl. rewrite forallb_forall in Hl.
  destruct (@measure_all E dict_list ([], [])) as [st [Em [_ Hcov]]].
  { intros v Hv. specialize (Hl _ Hv). now destruct v. }
  assert (Hline : forall d, In (VDict d) dict_list ->
            exists line, fixedwidth_line print_keys (snd st) (VDict d) = OK line /\
              String.length line
              = line_width print_keys (snd st) (sort_strings (map fst d))).
  { intros d Hd. apply fixedwidth_line_width.
    - exact (Hl _ Hd).
    - intros k v Hkv. exact (Hcov _ _ _ Hd Hkv). }
  destruct (@map_result_each _ _ (fixedwidth_line print_keys (snd st)) dict_list)
    as [lines [El [Hlen Hnth]]].
  { intros x Hx. pose proof (Hl _ Hx) as Hfx.
    destruct x as [| | | | | d]; try discriminate.
    destruct (Hline d Hx) as [line [E1 _]]. now exists line. }
  exists lines. split; [| split; [exact Hlen |]].
  - unfold dict_list_to_fixedwidth_str_list. rewrite Em. cbn [bind].
    destruct st as [max_lens lens]. exact El.
  - intros i j d1 d2 l1 l2 Ei Ej Eli Elj Hkeys.
    pose proof (Hnth _ _ _ Ei Eli) as E1. pose proof (Hnth _ _ _ Ej Elj) as E2.
    destruct (Hline d1 (nth_error_In _ _ Ei)) as [x1 [F1 W1]].
    destruct (Hline d2 (nth_error_In _ _ Ej)) as [x2 [F2 W2]].
    rewrite F1 in E1. rewrite F2 in E2. injection E1 as <-. injection E2 as <-.
    now rewrite W1, W2, Hkeys.
Qed.

(** A value that refuses a width (an absent field, a list, a dictionary)
    makes the whole table fail with [TypeError]. *)
Theorem fixedwidth_rejects_unformattable :
  forall (E : Externals) (dict_list : list value) (print_keys : bool) d k v,
    forallb is_dict dict_list = true ->
    In (VDict d) dict_list -> dict_get d k = Some v -> formattable v = false ->
    dict_list_to_fixedwidth_str_list dict_list print_keys = Raise TypeError.
Proof.
  intros E dict_list print_keys d k v Hl Hd Ek Hv. rewrite forallb_forall in Hl.
  destruct (@measure_all E dict_list ([], [])) as [st [Em [_ Hcov]]]; [exact Hl |].
  unfold dict_list_to_fixedwidth_str_list. rewrite Em. cbn [bind].
  assert (Hout : forall dx, In (VDict dx) dict_list ->
            forall k' v', In (k', v') dx -> wide st k' (String.length (py_str v') + 4)).
  { intros dx Hx k' v' Hkv. exact (Hcov _ _ _ Hx Hkv). }
  destruct st as [max_lens lens].
  apply map_result_raises.
  - intros x Hx. pose proof (Hl _ Hx) as Hdx.
    destruct x as [| | | | | dx]; try discriminate.
    exact (proj1 (@fixedwidth_line_outcome _ print_keys (max_lens, lens) dx (Hout dx Hx))).
  - exists (VDict d). split; [assumption |].
    apply (proj2 (@fixedwidth_line_outcome _ print_keys (max_lens, lens) d (Hout d Hd))).
    now exists k, v.
Qed.

(** A table with an entry that is not a dictionary fails with
    [AttributeError], before any line is built. *)
Theorem fixedwidth_rejects_non_dict :
  forall (E : Externals) (dict_list : list value) (print_keys : bool),
    existsb (fun v => negb (is_dict v)) dict_list = true ->
    dict_list_to_fixedwidth_str_list dict_list print_keys = Raise AttributeError.
Proof.
  intros E dict_list print_keys Hl.
  unfold dict_list_to_fixedwidth_str_list.
  now rewrite (measure_rejects_non_dict dict_list ([], []) Hl).
Qed.

Definition sample_table : list value :=
  [VDict [("dest_number", VStr "5551234"); ("content", VStr "hello")];
   VDict [("content", VStr "a much longer message"); ("dest_number", VStr "911")];
   VDict [("type", VStr "AES"); ("key", VInt 42)]].

Lemma fixedwidth_lines_align_witness :
  exists lines,
    @dict_list_to_fixedwidth_str_list sample_externals sample_table true = OK lines /\
    List.length lines = List.length sample_table /\
    forall i j d1 d2 l1 l2,
      nth_error sample_table i = Some (VDict d1) ->
      nth_error sample_table j = Some (VDict d2) ->
      nth_error lines i = Some l1 -> nth_error lines j = Some l2 ->
      sort_strings (map fst d1) = sort_strings (map fst d2) ->
      String.length l1 = String.length l2.
Proof.
  exact (@fixedwidth_lines_align sample_externals sample_table true eq_refl).
Defined.

Lemma fixedwidth_rejects_unformattable_witness :
  @dict_list_to_fixedwidth_str_list sample_externals
    [VDict [("port", VInt 80); ("uri", VNone); ("method", VStr "GET")]] true
  = Raise TypeError.
Proof.
  exact (@fixedwidth_rejects_unformattable sample_externals
           [VDict [("port", VInt 80); ("uri", VNone); ("method", VStr "GET")]] true
           [("port", VInt 80); ("uri", VNone); ("method", VStr "GET")] "uri" VNone
           eq_refl (or_introl eq_refl) eq_refl eq_refl).
Defined.

Lemma fixedwidth_rejects_non_dict_witness :
  @dict_list_to_fixedwidth_str_list sample_externals
    [VDict [("type", VStr "AES")]; VStr "DES"] false
  = Raise AttributeError.
Proof.
  exact (@fixedwidth_rejects_non_dict sample_externals
           [VDict [("type", VStr "AES")]; VStr "DES"] false eq_refl).
Defined.

(* ================================================================= *)
(** ** The signatures of a report *)

Section SignatureProperties.

Context `{Externals}.

Definition sig_name (sig : value) : value :=
  match sig with VDict d => field d "name" | _ => VNone end.

(** A signature that [process_signatures] passes over. *)
Definition is_skipped (sig : value) : bool :=
  match sig with
  | VDict d => in_names (field d "name") skipped_sigs
  | _ => false
  end.

Definition kept_sigs (sigs : list value) : list value :=
  filter (fun sig => negb (is_skipped sig)) sigs.

(** The title and the heuristic of the subsection of a signature. *)
Definition sig_entry (sig : value) : string * option Z :=
  (("Signature: " ++ match sig_name sig with VStr n => n | _ => "" end)%string,
   Some (check_signature (sig_name sig))).

Definition entry_of (sec : ResultSection) : string * option Z :=
  (title_text sec, heuristic sec).

Lemma process_signature_skipped : forall c s sig,
  is_skipped sig = true -> process_signature c s sig = OK s.
Proof.
  intros c s [| b | z | t | l | d] Hs; try discriminate.
  unfold process_signature. cbn [py_get bind]. cbn [is_skipped] in Hs.
  unfold field in Hs. now rewrite Hs.
Qed.

Lemma for_each_kept : forall c sigs s,
  for_each sigs (process_signature c) s
  = for_each (kept_sigs sigs) (process_signature c) s.
Proof.
  intros c. induction sigs as [| sig sigs IH]; intros s; [reflexivity |].
  cbn [kept_sigs filter]. destruct (is_skipped sig) eqn:Hs; cbn [negb].
  - cbn [for_each]. rewrite (process_signature_skipped c s sig Hs). cbn [bind]. apply IH.
  - cbn [for_each]. destruct (process_signature c s sig); cbn [bind]; [apply IH | reflexivity].
Qed.

(** A function on sections that leaves the title and the subsections. *)
Definition keeps_frame (s s' : ResultSection) : Prop :=
  title_text s' = title_text s /\ subsections s' = subsections s.

Lemma keeps_frame_refl : forall s, keeps_frame s s.
Proof. now split. Qed.

Lemma keeps_frame_trans : forall s1 s2 s3,
  keeps_frame s1 s2 -> keeps_frame s2 s3 -> keeps_frame s1 s3.
Proof. intros s1 s2 s3 [A B] [C D]. split; congruence. Qed.

Lemma add_line_frame : forall s ln, keeps_frame s (add_line s ln).
Proof. now split. Qed.

Lemma add_tag_frame : forall s ty v, keeps_frame s (add_tag s ty v).
Proof. now split. Qed.

Lemma fold_add_tag_frame : forall ty xs s,
  keeps_frame s (fold_left (fun sec x => add_tag sec ty x) xs s).
Proof.
  intros ty. induction xs as [| x xs IH]; intros s; [apply keeps_frame_refl |].
  cbn. eapply keeps_frame_trans; [apply (add_tag_frame s ty x) | apply IH].
Qed.

Lemma add_sig_list_frame : forall s label items s',
  add_sig_list s label items = OK s' -> keeps_frame s s'.
Proof.
  intros s label items s' E. unfold add_sig_list in E.
  destruct (py_len items) as [n |]; [| discriminate]. cbn [bind] in E.
  destruct (0 <? n)%nat.
  - destruct (py_iter items) as [xs |]; [| discriminate]. cbn [bind] in E.
    injection E as <-.
    eapply keeps_frame_trans; [apply add_line_frame | apply fold_add_tag_frame].
  - injection E as <-. apply keeps_frame_refl.
Qed.

Lemma process_mark_frame : forall s mark s',
  process_mark s mark = OK s' -> keeps_frame s s'.
Proof.
  intros s mark s' E. unfold process_mark in E.
  destruct (py_get mark "type" VNone) as [ty |]; [| discriminate]. cbn [bind] in E.
  destruct (py_get mark "category" VNone) as [cat |]; [| discriminate]. cbn [bind] in E.
  destruct (py_eqb ty (VStr "ioc") && in_names cat ["url"; "file"; "cmdline"; "request"]).
  - destruct (py_getitem mark "ioc"); [| discriminate]. cbn [bind] in E.
    injection E as <-. apply add_line_frame.
  - destruct (py_contains mark (VStr "reg_key")); [| discriminate]. cbn [bind] in E.
    destruct (py_contains mark (VStr "reg_value")); [| discriminate]. cbn [bind] in E.
    destruct (py_eqb ty (VStr "generic") && a && a0).
    + destruct (py_getitem mark "reg_key"); [| discriminate]. cbn [bind] in E.
      destruct (py_getitem mark "reg_value"); [| discriminate]. cbn [bind] in E.
      injection E as <-. apply add_line_frame.
    + injection E as <-. apply keeps_frame_refl.
Qed.

Lemma for_each_mark_frame : forall marks s s',
  for_each marks process_mark s = OK s' -> keeps_frame s s'.
Proof.
  induction marks as [| m marks IH]; intros s s' E; cbn [for_each] in E.
  - injection E as <-. apply keeps_frame_refl.
  - destruct (process_mark s m) as [s1 |] eqn:E1; [| discriminate]. cbn [bind] in E.
    eapply keeps_frame_trans; [exact (process_mark_frame _ _ E1) | exact (IH _ _ E)].
Qed.

(** A signature that is not skipped adds one subsection, with the
    heuristic of its name, and nothing else to the frame. *)
Lemma process_signature_kept : forall c s sig s',
  is_skipped sig = false -> process_signature c s sig = OK s' ->
  title_text s' = title_text s /\
  exists sub, subsections s' = subsections s ++ [sub] /\ entry_of sub = sig_entry sig.
Proof.
  intros c s sig s' Hs E.
  destruct sig as [| b | z | t | l | d]; try discriminate.
  unfold process_signature in E. cbn [py_get bind] in E.
  cbn [is_skipped] in Hs. unfold field in Hs. rewrite Hs in E.
  set (name_v := match dict_get d "name" with Some x => x | None => VNone end) in *.
  destruct name_v as [| | | name | |] eqn:En; try discriminate.
  match type of E with
  | (sigs_res <- add_sig_list ?s0 _ _ ;; _) = _ =>
      set (s1 := s0) in *;
      assert (F1 : title_text s1 = title_text s /\
                   exists sub, subsections s1 = subsections s ++ [sub] /\
                               entry_of sub = sig_entry (VDict d))
  end.
  { split; [reflexivity |]. eexists. split; [reflexivity |].
    unfold sig_entry, entry_of, sig_name, field. fold name_v. rewrite En. reflexivity. }
  clearbody s1.
  destruct (add_sig_list s1 "Categories: " _) as [s2 |] eqn:E2; [| discriminate].
  cbn [bind] in E.
  destruct (add_sig_list s2 "Families: " _) as [s3 |] eqn:E3; [| discriminate].
  cbn [bind] in E.
  apply add_sig_list_frame in E2, E3.
  match type of E with
  | (if _ then _ else OK ?s0) = _ =>
      set (s4 := s0) in *; assert (F4 : keeps_frame s3 s4)
  end.
  { subst s4. destruct (truthy _ && _); [apply add_tag_frame | apply keeps_frame_refl]. }
  clearbody s4.
  assert (F5 : keeps_frame s4 s').
  { destruct (in_names (VStr name) print_iocs).
    - destruct (py_iter _) as [marks |]; [| discriminate]. cbn [bind] in E.
      exact (for_each_mark_frame _ _ E).
    - injection E as <-. apply keeps_frame_refl. }
  pose proof (keeps_frame_trans E2 (keeps_frame_trans E3 (keeps_frame_trans F4 F5)))
    as [T S].
  destruct F1 as [T1 [sub [S1 Hsub]]].
  split; [congruence |]. exists sub. split; [congruence | assumption].
Qed.

Lemma for_each_signature_entries : forall c sigs s s',
  for_each sigs (process_signature c) s = OK s' ->
  title_text s' = title_text s /\
  map entry_of (subsections s')
  = map entry_of (subsections s) ++ map sig_entry (kept_sigs sigs).
Proof.
  intros c. induction sigs as [| sig sigs IH]; intros s s' E; cbn [for_each] in E.
  - injection E as <-. split; [reflexivity | cbn; now rewrite app_nil_r].
  - destruct (process_signature c s sig) as [s1 |] eqn:E1; [| discriminate].
    cbn [bind] in E. destruct (IH _ _ E) as [T S].
    cbn [kept_sigs filter]. destruct (is_skipped sig) eqn:Hs; cbn [negb].
    + rewrite (process_signature_skipped c s sig Hs) in E1. injection E1 as <-.
      now split.
    + destruct (process_signature_kept _ _ _ Hs E1) as [T1 [sub [S1 Hsub]]].
      split; [congruence |]. fold (kept_sigs sigs). rewrite S, S1, map_app. cbn [map].
      rewrite Hsub, <- app_assoc. reflexivity.
Qed.

End SignatureProperties.

(** The signatures on the skip list leave no trace: the outcome is that of
    the report without them, except that a list of nothing but skipped
    signatures still yields a section, which is empty. *)
Theorem skipped_signatures_leave_no_trace :
  forall (E : Externals) (sigs : list value) (al_result : Result) (classification : string),
    sigs <> [] ->
    (kept_sigs sigs <> [] ->
     process_signatures (VList sigs) al_result classification
     = process_signatures (VList (kept_sigs sigs)) al_result classification) /\
    (kept_sigs sigs = [] ->
     process_signatures (VList sigs) al_result classification
     = OK (al_result ++ [new_section "Signatures" classification TEXT []])).
Proof.
  intros E sigs al_result classification Hsigs.
  destruct sigs as [| sig sigs]; [contradiction |].
  unfold process_signatures at 1 3. cbn [py_len List.length Nat.ltb Nat.leb bind py_iter].
  rewrite for_each_kept. split.
  - intros Hkept. unfold process_signatures. cbn [py_len py_iter bind].
    destruct (kept_sigs (sig :: sigs)) as [| k ks]; [contradiction |]. reflexivity.
  - intros ->. reflexivity.
Qed.

(** Every signature that is reported gets a subsection of its own, in the
    order of the report, titled with its name and carrying the heuristic of
    its name; the section is appended to the result. *)
Theorem reported_signatures_have_subsections :
  forall (E : Externals) (sigs : list value) (al_result r : Result) (classification : string),
    sigs <> [] ->
    process_signatures (VList sigs) al_result classification = OK r ->
    exists sec,
      r = al_result ++ [sec] /\
      title_text sec = "Signatures" /\
      map entry_of (subsections sec) = map sig_entry (kept_sigs sigs).
Proof.
  intros E sigs al_result r classification Hsigs Er.
  destruct sigs as [| sig sigs]; [contradiction |].
  unfold process_signatures in Er.
  cbn [py_len List.length Nat.ltb Nat.leb bind py_iter] in Er.
  destruct (for_each (sig :: sigs) (process_signature classification) _) as [sec |] eqn:Es;
    [| discriminate].
  cbn [bind] in Er. injection Er as <-.
  destruct (for_each_signature_entries _ _ _ Es) as [T S].
  exists sec. split; [reflexivity | split; [exact T | exact S]].
Qed.

Definition sample_sigs : list value :=
  [VDict [("name", VStr "dead_host"); ("description", VStr "noise")];
   VDict [("name", VStr "dropper"); ("description", VStr "Drops a binary");
          ("categories", VList [VStr "dropper"]);
          ("marks", VList [VDict [("type", VStr "ioc"); ("category", VStr "file");
                                  ("ioc", VStr "C:\\a.exe")]])];
   VDict [("name", VStr "has_pdb")];
   VDict [("name", VStr "injection_runpe"); ("actor", VStr "APT0")]].

Lemma skipped_signatures_leave_no_trace_witness :
  (kept_sigs sample_sigs <> [] ->
   @process_signatures sample_externals (VList sample_sigs) [] ""
   = @process_signatures sample_externals (VList (kept_sigs sample_sigs)) [] "") /\
  (kept_sigs sample_sigs = [] ->
   @process_signatures sample_externals (VList sample_sigs) [] ""
   = OK ([] ++ [new_section "Signatures" "" TEXT []])).
Proof.
  apply (@skipped_signatures_leave_no_trace sample_externals sample_sigs [] "").
  discriminate.
Defined.

Lemma reported_signatures_have_subsections_witness :
  exists r sec,
    @process_signatures sample_externals (VList sample_sigs) [] "" = OK r /\
    r = [] ++ [sec] /\
    title_text sec = "Signatures" /\
    map entry_of (subsections sec)
    = [("Signature: dropper", Some (@check_signature sample_externals (VStr "dropper")));
       ("Signature: injection_runpe",
        Some (@check_signature sample_externals (VStr "injection_runpe")))].
Proof.
  eexists.
  assert (Hne : sample_sigs <> []) by discriminate.
  destruct (@reported_signatures_have_subsections sample_externals sample_sigs [] _ ""
              Hne eq_refl) as [sec [Hr [Ht Hs]]].
  exists sec. split; [reflexivity | split; [exact Hr | split; [exact Ht | exact Hs]]].
Defined.

(* ================================================================= *)
(** ** Behaviour reports that cannot be normalised *)

Section BehaviorProperties.

Context `{Externals}.

Definition is_text (v : value) : bool :=
  match v with VStr _ => true | _ => false end.

Definition text_list (v : value) : bool :=
  match v with VList l => forallb is_text l | _ => false end.

(** The keys of [summary.keys] and of [summary.regkey_opened], which are
    lists of text when present. *)
Definition opened_keys (behavior : value) : option (list value * list value) :=
  match summary_get behavior "keys", summary_get behavior "regkey_opened" with
  | OK (VList a), OK (VList b) =>
      if forallb is_text a && forallb is_text b then Some (a, b) else None
  | _, _ => None
  end.

(** None of the twelve summary categories of [result_queries] has items. *)
Definition no_category (behavior : value) : bool :=
  forallb
    (fun q : string * string * option nat * option string =>
       let '(q_name, _, _, _) := q in
       match summary_get behavior q_name with
       | OK v => negb (truthy v)
       | Raise _ => false
       end)
    result_queries.

Lemma process_clsid_regkeys : forall key rm,
  bm_regkeys (process_clsid key rm) = bm_regkeys rm.
Proof. reflexivity. Qed.

Lemma process_keys_text : forall keys rm,
  forallb is_text keys = true ->
  exists rm', for_each keys process_key rm = OK rm' /\
    List.length (match bm_regkeys rm' with Some l => l | None => [] end)
    = List.length (match bm_regkeys rm with Some l => l | None => [] end)
      + 2 * List.length keys.
Proof.
  induction keys as [| k keys IH]; intros rm Hk.
  - exists rm. split; [reflexivity | cbn; lia].
  - cbn in Hk. apply andb_true_iff in Hk. destruct Hk as [Hk Hks].
    destruct k as [| | | s | |]; try discriminate.
    cbn [for_each process_key bind].
    destruct (IH (mkBehaviorMap
                    (bm_clsids (process_clsid (VStr (user_sid_sub s)) rm))
                    (Some (match bm_regkeys rm with Some l => l | None => [] end
                           ++ [user_sid_sub s; user_sid_sub s]))) Hks)
      as [rm' [E Hlen]].
    exists rm'. split; [exact E |]. rewrite Hlen. cbn [bm_regkeys].
    rewrite length_app. cbn [List.length]. lia.
Qed.

Lemma process_com_arg_regkeys : forall rm arg rm',
  process_com_arg rm arg = OK rm' -> bm_regkeys rm' = bm_regkeys rm.
Proof.
  intros rm arg rm' E. unfold process_com_arg in E.
  destruct arg as [| | | s | | d].
  1-3, 5: now injection E as <-.
  - now injection E as <-.
  - cbn [py_get bind] in E.
    destruct (py_eqb _ (VStr "ClsId")); cbn [bind] in E; now injection E as <-.
Qed.

Lemma for_each_com_arg_regkeys : forall items rm rm',
  for_each items process_com_arg rm = OK rm' -> bm_regkeys rm' = bm_regkeys rm.
Proof.
  induction items as [| x items IH]; intros rm rm' E; cbn [for_each] in E.
  - now injection E as <-.
  - destruct (process_com_arg rm x) as [rm1 |] eqn:E1; [| discriminate].
    cbn [bind] in E. rewrite (IH _ _ E). exact (process_com_arg_regkeys _ _ E1).
Qed.

Lemma process_com_regkeys : forall args rm rm',
  process_com args rm = OK rm' -> bm_regkeys rm' = bm_regkeys rm.
Proof.
  intros args rm rm' E. unfold process_com in E.
  destruct (py_contains args (VStr "clsid")) as [has |]; [| discriminate].
  cbn [bind] in E. destruct has.
  - destruct (py_get args "clsid" VNone); [| discriminate]. cbn [bind] in E.
    now injection E as <-.
  - destruct (py_iter args) as [items |]; [| discriminate]. cbn [bind] in E.
    exact (for_each_com_arg_regkeys _ _ E).
Qed.

Lemma process_call_regkeys : forall rm call rm',
  process_call rm call = OK rm' -> bm_regkeys rm' = bm_regkeys rm.
Proof.
  intros rm call rm' E. unfold process_call in E.
  destruct (py_get call "api" VNone) as [api |]; [| discriminate]. cbn [bind] in E.
  destruct (py_contains api (VStr "CoCreateInstance")) as [c |]; [| discriminate].
  cbn [bind] in E. destruct c.
  - destruct (py_get call "arguments" VNone); [| discriminate]. cbn [bind] in E.
    exact (process_com_regkeys _ _ E).
  - now injection E as <-.
Qed.

Lemma for_each_call_regkeys : forall calls rm rm',
  for_each calls process_call rm = OK rm' -> bm_regkeys rm' = bm_regkeys rm.
Proof.
  induction calls as [| x calls IH]; intros rm rm' E; cbn [for_each] in E.
  - now injection E as <-.
  - destruct (process_call rm x) as [rm1 |] eqn:E1; [| discriminate].
    cbn [bind] in E. rewrite (IH _ _ E). exact (process_call_regkeys _ _ E1).
Qed.

Lemma for_each_process_regkeys : forall processes rm rm',
  for_each processes process_process rm = OK rm' -> bm_regkeys rm' = bm_regkeys rm.
Proof.
  induction processes as [| x processes IH]; intros rm rm' E; cbn [for_each] in E.
  - now injection E as <-.
  - destruct (process_process rm x) as [rm1 |] eqn:E1; [| discriminate].
    cbn [bind] in E. rewrite (IH _ _ E). unfold process_process in E1.
    destruct (py_get x "calls" VNone); [| discriminate]. cbn [bind] in E1.
    destruct (py_iter _); [| discriminate]. cbn [bind] in E1.
    exact (for_each_call_regkeys _ _ E1).
Qed.

(** With no category present, the loop over [result_queries] creates no
    section. *)
Lemma no_category_no_section : forall behavior classification st,
  no_category behavior = true ->
  for_each result_queries (process_query behavior classification) st = OK st.
Proof.
  intros behavior classification st Hno. unfold no_category in Hno.
  rewrite forallb_forall in Hno.
  assert (Hq : forall qs s,
            (forall q, In q qs -> In q result_queries) ->
            for_each qs (process_query behavior classification) s = OK s).
  { induction qs as [| q qs IH]; intros s Hqs; [reflexivity |].
    cbn [for_each].
    assert (Hstep : process_query behavior classification s q = OK s).
    { specialize (Hno q (Hqs q (or_introl eq_refl))).
      destruct s as [[al rq] rs]. destruct q as [[[q_name title] limit] tag_type].
      unfold process_query.
      destruct (summary_get behavior q_name) as [v |]; [| discriminate].
      cbn [bind]. apply negb_true_iff in Hno. now rewrite Hno. }
    rewrite Hstep. cbn [bind]. apply IH. intros q' Hq'. apply Hqs. now right. }
  apply Hq. auto.
Qed.

End BehaviorProperties.

Section BehaviorErrors.

Context `{Externals}.

Lemma opened_keys_inv : forall behavior a b,
  opened_keys behavior = Some (a, b) ->
  summary_get behavior "keys" = OK (VList a) /\
  summary_get behavior "regkey_opened" = OK (VList b) /\
  forallb is_text a = true /\ forallb is_text b = true /\
  exists d, behavior = VDict d.
Proof.
  intros behavior a b E. unfold opened_keys in E.
  destruct (summary_get behavior "keys") as [[| | | | ka |] |] eqn:Ea; try discriminate.
  destruct (summary_get behavior "regkey_opened") as [[| | | | kb |] |] eqn:Eb;
    try discriminate.
  destruct (forallb is_text ka && forallb is_text kb) eqn:Et; [| discriminate].
  injection E as <- <-. apply andb_true_iff in Et. destruct Et as [Ha Hb].
  repeat split; try assumption.
  destruct behavior as [| | | | | d]; try discriminate. now exists d.
Qed.

(** The registry keys recorded once the two key lists were read. *)
Lemma opened_keys_recorded : forall a b,
  forallb is_text a = true -> forallb is_text b = true ->
  exists rm,
    (rm1 <- for_each a process_key (mkBehaviorMap None None) ;;
     for_each b process_key rm1) = OK rm /\
    List.length (match bm_regkeys rm with Some l => l | None => [] end)
    = 2 * (List.length a + List.length b).
Proof.
  intros a b Ha Hb.
  destruct (process_keys_text a (mkBehaviorMap None None) Ha) as [rm1 [E1 L1]].
  destruct (process_keys_text b rm1 Hb) as [rm2 [E2 L2]].
  exists rm2. rewrite E1. cbn [bind]. split; [exact E2 |].
  rewrite L2, L1. cbn. lia.
Qed.

End BehaviorErrors.

(** A behaviour report without a process list cannot be normalised: the
    loop over the processes iterates over nothing at all. *)
Theorem behavior_without_processes_raises :
  forall (E : Externals) (behavior : value) (al_result : Result)
         (al_request : ServiceRequest) (classification : string) a b,
    opened_keys behavior = Some (a, b) ->
    py_get behavior "processes" VNone = OK VNone ->
    process_behavior behavior al_result al_request classification = Raise TypeError.
Proof.
  intros E behavior al_result al_request classification a b Hk Hp.
  destruct (opened_keys_inv _ Hk) as [Ea [Eb [Ha [Hb [d ->]]]]].
  destruct (opened_keys_recorded a b Ha Hb) as [rm [Erm _]].
  unfold process_behavior. rewrite Ea. cbn [bind py_iter].
  destruct (for_each a process_key _) as [rm1 |] eqn:E1; [| discriminate].
  cbn [bind] in Erm |- *. rewrite Eb. cbn [bind py_iter]. rewrite Erm. cbn [bind].
  change (py_get (VDict d) "processtree" VNone)
    with (OK (match dict_get d "processtree" with Some x => x | None => VNone end)).
  cbn [bind]. rewrite Hp. reflexivity.
Qed.

(** Registry keys were opened but none of the summary categories has
    items: the tag for the keys is put on a section that was never
    created, and the report cannot be normalised. *)
Theorem opened_keys_without_category_raise :
  forall (E : Externals) (behavior : value) (al_result : Result)
         (al_request : ServiceRequest) (classification : string) a b,
    opened_keys behavior = Some (a, b) ->
    (0 < List.length a + List.length b)%nat ->
    no_category behavior = true ->
    (exists e,
       process_behavior behavior al_result al_request classification = Raise e) /\
    (py_get behavior "processes" VNone = OK (VList []) ->
     summary_get behavior "guid" = OK (VList []) ->
     process_behavior behavior al_result al_request classification
     = Raise AttributeError).
Proof.
  intros E behavior al_result al_request classification a b Hk Hlen Hno.
  destruct (opened_keys_inv _ Hk) as [Ea [Eb [Ha [Hb [d ->]]]]].
  destruct (opened_keys_recorded a b Ha Hb) as [rm [Erm Lrm]].
  assert (Hfinal : forall rm' executed al,
            bm_regkeys rm' = bm_regkeys rm ->
            ('(executed, al_result) <-
               (match bm_clsids rm' with
                | Some ((_ :: _) as clsid_map) =>
                    let sorted_clsids :=
                      sort_strings (map (fun nu => safe_str (VStr (snd nu))) clsid_map) in
                    let ssdeep_clsid_hash := ssdeep_hash (String.concat "" sorted_clsids) in
                    al_result <- tag_res_sec al None "dynamic.ssdeep.cls_ids"
                                             (VStr ssdeep_clsid_hash) ;;
                    let clsids_hash := sha1_hex (String.concat "," sorted_clsids) in
                    let executed := if wlist_check_hash clsids_hash then false else executed in
                    let clsid_res :=
                      fold_left
                        (fun sec clsid =>
                           match sm_get clsid_map clsid with
                           | Some uuid => add_line sec (clsid ++ " : " ++ uuid)%string
                           | None => sec
                           end)
                        (sort_strings (map fst clsid_map))
                        (new_section "CLSIDs" classification TEXT []) in
                    OK (executed, add_section al_result clsid_res)
                | _ => OK (executed, al)
                end) ;;
             al_result <-
               (match bm_regkeys rm' with
                | Some ((_ :: _) as regkeys) =>
                    let sorted_regkeys :=
                      sort_strings (map (fun x => safe_str (VStr x)) regkeys) in
                    let regkey_hash := ssdeep_hash (String.concat "" sorted_regkeys) in
                    tag_res_sec al_result None "dynamic.ssdeep.regkeys" (VStr regkey_hash)
                | _ => OK al_result
                end) ;;
             OK (executed, al_result, al_request)) = Raise AttributeError).
  { intros rm' executed al Hrk.
    destruct (bm_clsids rm') as [[| c cm] |]; cbn [bind tag_res_sec]; try reflexivity.
    all: rewrite Hrk; destruct (bm_regkeys rm) as [[| k ks] |];
      cbn [List.length] in Lrm; try lia; reflexivity. }
  unfold process_behavior. rewrite Ea. cbn [bind py_iter].
  destruct (for_each a process_key _) as [rm1 |] eqn:E1; [| discriminate].
  cbn [bind] in Erm |- *. rewrite Eb. cbn [bind py_iter]. rewrite Erm. cbn [bind].
  change (py_get (VDict d) "processtree" VNone)
    with (OK (match dict_get d "processtree" with Some x => x | None => VNone end)).
  cbn [bind]. split.
  - destruct (py_get (VDict d) "processes" VNone) as [ps |]; [| now eexists].
    cbn [bind]. destruct (py_iter ps) as [processes |]; [| now eexists].
    cbn [bind].
    destruct (for_each processes process_process rm) as [rm3 |] eqn:E3; [| now eexists].
    cbn [bind]. pose proof (for_each_process_regkeys _ _ E3) as R3.
    destruct (summary_get (VDict d) "guid") as [guids |]; [| now eexists].
    cbn [bind]. rewrite (no_category_no_section _ classification _ Hno). cbn [bind].
    destruct (py_len guids) as [n |]; [| now eexists]. cbn [bind].
    destruct (0 <? n)%nat.
    + destruct (process_com guids rm3) as [rm4 |] eqn:E4; [| now eexists].
      cbn [bind]. exists AttributeError. apply Hfinal.
      rewrite (process_com_regkeys _ _ E4). exact R3.
    + cbn [bind]. exists AttributeError. now apply Hfinal.
  - intros Hp Hg. rewrite Hp. cbn [bind py_iter for_each]. rewrite Hg. cbn [bind].
    rewrite (no_category_no_section _ classification _ Hno).
    cbn [bind py_len List.length Nat.ltb Nat.leb]. now apply Hfinal.
Qed.

Definition keys_only_behavior (processes : list (string * value)) : value :=
  VDict ([("summary",
           VDict [("regkey_opened",
                   VList [VStr "HKEY_LOCAL_MACHINE\\Software\\Microsoft\\Windows"])])]
         ++ processes).

Lemma behavior_without_processes_raises_witness :
  @process_behavior sample_externals (keys_only_behavior []) [] sample_request ""
  = Raise TypeError.
Proof.
  exact (@behavior_without_processes_raises sample_externals (keys_only_behavior [])
           [] sample_request "" []
           [VStr "HKEY_LOCAL_MACHINE\\Software\\Microsoft\\Windows"] eq_refl eq_refl).
Defined.

Lemma opened_keys_without_category_raise_witness :
  (exists e,
     @process_behavior sample_externals
       (keys_only_behavior [("processes", VList [])]) [] sample_request ""
     = Raise e) /\
  (py_get (keys_only_behavior [("processes", VList [])]) "processes" VNone
   = OK (VList []) ->
   summary_get (keys_only_behavior [("processes", VList [])]) "guid" = OK (VList []) ->
   @process_behavior sample_externals
     (keys_only_behavior [("processes", VList [])]) [] sample_request ""
   = Raise AttributeError).
Proof.
  apply (@opened_keys_without_category_raise sample_externals
           (keys_only_behavior [("processes", VList [])]) [] sample_request "" []
           [VStr "HKEY_LOCAL_MACHINE\\Software\\Microsoft\\Windows"]).
  - reflexivity.
  - cbn. lia.
  - reflexivity.
Defined.

(* ================================================================= *)
(** ** What the polling of the sandbox can return *)

Lemma bindM_ret : forall (A B : Type) (m : M A) (k : A -> M B) st b st',
  bindM m k st = (Ret b, st') ->
  exists a st1, m st = (Ret a, st1) /\ k a st1 = (Ret b, st').
Proof.
  intros A B m k st b st' E. unfold bindM in E.
  destruct (m st) as [[a | e |] st1]; try discriminate. now exists a, st1.
Qed.

Lemma lift_ret : forall (A : Type) (r : result A) st a st',
  lift r st = (Ret a, st') -> r = OK a /\ st' = st.
Proof.
  intros A [x | e] st a st' E; cbn in E; [| discriminate].
  injection E as <- <-. now split.
Qed.

Lemma ret_ret : forall (A : Type) (x : A) st a st',
  ret x st = (Ret a, st') -> a = x /\ st' = st.
Proof. intros A x st a st' E. injection E as <- <-. now split. Qed.

(** What a bounded retry returns was returned by an attempt, and is not a
    value the decorator rejects. *)
Lemma retry_bounded_ret : forall (A : Type) (roe : exn -> bool) (ror : A -> bool)
  (f : M A) n st a st',
  retry_bounded n roe ror f st = (Ret a, st') ->
  ror a = false /\ exists st1, f st1 = (Ret a, st').
Proof.
  intros A roe ror f n. induction n as [| n IH]; intros st a st' E.
  - cbn in E. destruct (f st) as [[x | e |] s1] eqn:Ef; try discriminate.
    + destruct (ror x) eqn:Er; [discriminate |]. injection E as <- <-.
      split; [assumption | now exists st].
    + destruct (roe e); discriminate.
  - cbn in E. destruct (f st) as [[x | e |] s1] eqn:Ef; try discriminate.
    + destruct (ror x) eqn:Er.
      * destruct n as [| m]; [discriminate |]. exact (IH _ _ _ E).
      * injection E as <- <-. split; [assumption | now exists st].
    + destruct (roe e); [| discriminate].
      destruct n as [| m]; [discriminate |]. exact (IH _ _ _ E).
Qed.

Section PollingProperties.

Context `{Externals}.

Lemma poll_started_once_values : forall st v st',
  cuckoo_poll_started_once st = (Ret v, st') -> v = VNone \/ v = VStr "started".
Proof.
  intros st v st' E. unfold cuckoo_poll_started_once in E.
  apply bindM_ret in E. destruct E as [t [s1 [_ E]]].
  apply bindM_ret in E. destruct E as [task_info [s2 [Eq E]]].
  apply retry_bounded_ret in Eq. destruct Eq as [Hnone _].
  destruct task_info as [| b | z | s | l | d]; try discriminate Hnone.
  all: apply bindM_ret in E; destruct E as [t' [s3 [_ E]]].
  all: apply bindM_ret in E; destruct E as [info_id [s4 [_ E]]].
  all: destruct (negb (py_eqb info_id (task_id t'))).
  all: try (apply bindM_ret in E; destruct E as [u [s5 [_ E]]];
            apply ret_ret in E; destruct E as [-> _]; now left).
  all: apply bindM_ret in E; destruct E as [guest [s5 [_ E]]].
  all: apply bindM_ret in E; destruct E as [status [s6 [_ E]]].
  all: destruct (py_eqb status (VStr "starting"));
       apply ret_ret in E; destruct E as [-> _]; [now left | now right].
Qed.

End PollingProperties.

(** [cuckoo_query_task] never returns [None]: an answer without a task is
    tried again, and after the third one the decorator raises. *)
Theorem query_task_never_returns_none :
  forall (E : Externals) (task_id : value) (st st' : state) (v : value),
    cuckoo_query_task task_id st = (Ret v, st') -> v <> VNone.
Proof.
  intros E task_id st st' v Eq Hv. unfold cuckoo_query_task in Eq.
  apply retry_bounded_ret in Eq. destruct Eq as [Hnone _].
  subst v. discriminate Hnone.
Qed.

(** Whatever the sandbox answers, [cuckoo_poll_started] returns "started" or
    raises: the status "missing" is never its result. *)
Lemma poll_started_unfold : forall (E : Externals),
  cuckoo_poll_started
  = retry_bounded GUEST_VM_START_TIMEOUT always_reject _retry_on_none
      cuckoo_poll_started_once.
Proof. reflexivity. Qed.

Theorem poll_started_returns_started_only :
  forall (E : Externals) (st st' : state) (v : value),
    cuckoo_poll_started st = (Ret v, st') -> v = VStr "started".
Proof.
  intros E st st' v Ep. rewrite poll_started_unfold in Ep.
  apply retry_bounded_ret in Ep. destruct Ep as [Hnone [st1 Eonce]].
  apply poll_started_once_values in Eonce. destruct Eonce as [Hv | Hv].
  - rewrite Hv in Hnone. discriminate Hnone.
  - exact Hv.
Qed.

Definition task_answer (status : string) : http_result :=
  ok_json (VDict [("task", VDict [("id", VInt 7);
                                  ("guest", VDict [("status", VStr status)])])]).

Lemma query_task_never_returns_none_witness :
  let st := job_facing running_job [Response 404 None ""; task_answer "running"] in
  fst (@cuckoo_query_task sample_externals (VInt 7) st)
  = Ret (VDict [("id", VInt 7); ("guest", VDict [("status", VStr "running")])]) /\
  VDict [("id", VInt 7); ("guest", VDict [("status", VStr "running")])] <> VNone.
Proof.
  split; [reflexivity |].
  apply (@query_task_never_returns_none sample_externals (VInt 7)
           (job_facing running_job [Response 404 None ""; task_answer "running"])
           (snd (@cuckoo_query_task sample_externals (VInt 7)
                   (job_facing running_job
                      [Response 404 None ""; task_answer "running"])))).
  reflexivity.
Defined.

Lemma poll_started_returns_started_only_witness :
  let st := job_facing running_job [task_answer "starting"; task_answer "running"] in
  fst (@cuckoo_poll_started sample_externals st) = Ret (VStr "started") /\
  trace (snd (@cuckoo_poll_started sample_externals st))
  = [GET_task (VInt 7); GET_task (VInt 7)] /\
  VStr "started" = VStr "started".
Proof.
  split; [reflexivity | split; [reflexivity |]].
  apply (@poll_started_returns_started_only sample_externals
           (job_facing running_job [task_answer "starting"; task_answer "running"])
           (snd (@cuckoo_poll_started sample_externals
                   (job_facing running_job
                      [task_answer "starting"; task_answer "running"])))).
  reflexivity.
Defined.

(* ================================================================= *)
(** ** A sandbox without a free machine *)

(** An answer with a status other than 200. *)
Definition refusal (r : http_result) : bool :=
  match r with
  | Response status_code _ _ => negb (Z.eqb status_code 200)
  | _ => false
  end.

Lemma query_machines_refused : forall st a rest,
  net st = a :: rest -> refusal a = true ->
  exists st',
    cuckoo_query_machines_once st = (Exc CuckooVMBusyException, st') /\
    net st' = rest /\ trace st' = GET_machines :: trace st /\
    cuckoo_task st' = cuckoo_task st /\ file_res st' = file_res st /\
    request st' = request st /\ random_words st' = random_words st.
Proof.
  intros [ct ms nt tr rw fr rq lg] a rest Hnet Ha. cbn [net] in Hnet. subst nt.
  destruct a as [| | code j c]; try discriminate Ha. cbn [refusal] in Ha.
  eexists. split.
  { unfold cuckoo_query_machines_once, bindM, log_msg, http.
    cbn [net cuckoo_task machines trace random_words file_res request log].
    rewrite Ha. reflexivity. }
  repeat split.
Qed.

Lemma query_machines_six_refusals : forall st a1 a2 a3 a4 a5 a6 rest,
  net st = a1 :: a2 :: a3 :: a4 :: a5 :: a6 :: rest ->
  forallb refusal [a1; a2; a3; a4; a5; a6] = true ->
  exists st',
    cuckoo_query_machines st = (Exc CuckooVMBusyException, st') /\
    net st' = rest /\
    trace st' = repeat GET_machines 6 ++ trace st /\
    cuckoo_task st' = cuckoo_task st /\ file_res st' = file_res st /\
    request st' = request st /\ random_words st' = random_words st.
Proof.
  intros st a1 a2 a3 a4 a5 a6 rest Hnet Hall.
  cbn [forallb] in Hall.
  repeat (apply andb_true_iff in Hall; destruct Hall as [? Hall]).
  destruct (query_machines_refused st Hnet) as [s1 [E1 [N1 [T1 [C1 [F1 [Q1 W1]]]]]]];
    [assumption |].
  destruct (query_machines_refused s1 N1) as [s2 [E2 [N2 [T2 [C2 [F2 [Q2 W2]]]]]]];
    [assumption |].
  destruct (query_machines_refused s2 N2) as [s3 [E3 [N3 [T3 [C3 [F3 [Q3 W3]]]]]]];
    [assumption |].
  destruct (query_machines_refused s3 N3) as [s4 [E4 [N4 [T4 [C4 [F4 [Q4 W4]]]]]]];
    [assumption |].
  destruct (query_machines_refused s4 N4) as [s5 [E5 [N5 [T5 [C5 [F5 [Q5 W5]]]]]]];
    [assumption |].
  destruct (query_machines_refused s5 N5) as [s6 [E6 [N6 [T6 [C6 [F6 [Q6 W6]]]]]]];
    [assumption |].
  exists s6. split.
  - unfold cuckoo_query_machines.
    rewrite (@retry_bounded_again _ _ _ _ _ _ _ _ E1 eq_refl).
    rewrite (@retry_bounded_again _ _ _ _ _ _ _ _ E2 eq_refl).
    rewrite (@retry_bounded_again _ _ _ _ _ _ _ _ E3 eq_refl).
    rewrite (@retry_bounded_again _ _ _ _ _ _ _ _ E4 eq_refl).
    rewrite (@retry_bounded_again _ _ _ _ _ _ _ _ E5 eq_refl).
    exact (@retry_bounded_gives_up _ _ _ _ _ _ _ E6 eq_refl).
  - repeat split; try congruence.
    cbn [repeat app]. congruence.
Qed.

Section BusySandbox.

Context `{Externals} `{Framework}.
Variables (cfg : dict) (task : ServiceTask) (ssdeep_match_pct : Z).

(** With six refusals in a row to the query for machines, the job fails as
    busy: the file is never posted, no task is deleted, and the result stays
    empty. *)
Theorem busy_sandbox_aborts_before_submission :
  forall (fuel : nat) (st : state) file_ext kwargs kwargs' a1 a2 a3 a4 a5 a6 rest,
    is_mime_encoded (basename (file_name task)) = false ->
    choose_extension task (rsplit_dot (basename (file_name task)))
    = Some (file_ext, kwargs) ->
    build_kwargs cfg task kwargs = OK kwargs' ->
    net st = a1 :: a2 :: a3 :: a4 :: a5 :: a6 :: rest ->
    forallb refusal [a1; a2; a3; a4; a5; a6] = true ->
    let run := execute cfg task ssdeep_match_pct fuel st in
    fst run = Exc CuckooVMBusyException /\
    trace (snd run) = repeat GET_machines 6 ++ trace st /\
    net (snd run) = rest /\
    file_res (snd run) = [] /\
    request (snd run) = request st.
Proof.
  intros fuel st file_ext kwargs kwargs' a1 a2 a3 a4 a5 a6 rest
         Hmime Hext Hkw Hnet Hall.
  assert (Hrun : exists sf,
            execute cfg task ssdeep_match_pct fuel st = (Exc CuckooVMBusyException, sf) /\
            trace sf = repeat GET_machines 6 ++ trace st /\ net sf = rest /\
            file_res sf = [] /\ request sf = request st).
  { unfold execute. rewrite Hmime.
    unfold bindM at 1. unfold ret at 1. rewrite Hext.
    unfold bindM at 1. rewrite Hkw. unfold lift, ret at 1.
    unfold bindM at 1. unfold set_task at 1.
    cbn [cuckoo_task machines net trace random_words file_res request log].
    match goal with
    | |- context [execute_body _ _ _ _ ?g _ ?s] =>
        set (s1 := s);
        destruct (query_machines_six_refusals s1 (a1 := a1) (a2 := a2) (a3 := a3)
                    (a4 := a4) (a5 := a5) (a6 := a6) (rest := rest))
          as [s6 [E6 [N6 [T6 [C6 [F6 [Q6 W6]]]]]]];
        [exact Hnet | exact Hall |]
    end.
    unfold execute_body. unfold bindM at 1. rewrite E6.
    unfold execute_cleanup, bindM, log_msg, delete_if_live, get_state, live_task_id, raise.
    cbn [cuckoo_task machines net trace random_words file_res request log].
    rewrite C6. subst s1. unfold bindM.
    cbn [cuckoo_task machines net trace random_words file_res request log task_id
         task_kwargs] in *.
    destruct (truthy (VDict kwargs')); cbn [ret]; eexists;
      (split; [reflexivity |]);
      cbn [cuckoo_task machines net trace random_words file_res request log];
      repeat split; assumption. }
  destruct Hrun as [sf [Erun [Ht [Hn [Hf Hq]]]]].
  cbv zeta. rewrite Erun. cbn [fst snd]. repeat split; assumption.
Qed.

End BusySandbox.

Definition busy_answer : http_result := Response 503 None "Service Unavailable".

Lemma busy_sandbox_aborts_before_submission_witness :
  let st := idle_state (repeat busy_answer 6 ++ [ok_json (VDict [("machines", VList [])])]) in
  let run := @execute sample_externals sample_framework [] (sample_task false) 80 10 st in
  fst run = Exc CuckooVMBusyException /\
  trace (snd run) = repeat GET_machines 6 ++ trace st /\
  net (snd run) = [ok_json (VDict [("machines", VList [])])] /\
  file_res (snd run) = [] /\
  request (snd run) = request st.
Proof.
  exact (@busy_sandbox_aborts_before_submission sample_externals sample_framework []
           (sample_task false) 80%Z 10
           (idle_state (repeat busy_answer 6 ++ [ok_json (VDict [("machines", VList [])])]))
           ".docx" [] [("options", VStr "")]
           busy_answer busy_answer busy_answer busy_answer busy_answer busy_answer
           [ok_json (VDict [("machines", VList [])])]
           eq_refl eq_refl eq_refl eq_refl eq_refl).
Defined.

(* ================================================================= *)
(** ** The dropped files offered for extraction *)

Section DroppedFilesOffered.

Context `{Externals}.
Variables (task : ServiceTask) (ssdeep_match_pct : Z).

(** A member of the archive that may be offered: a file that is not the
    submitted file and that no static exclusion covers. *)
Definition eligible (m : tar_member) : bool :=
  tar_isfile m
  && negb (String.eqb (md5_hex (tar_data m)) (md5 task))
  && negb (dropped_excluded (md5_hex (tar_data m)) (basename (tar_name m))).

(** The entry under which a member is offered. *)
Definition offered_as (m : tar_member) (req : ServiceRequest)
  (entry : string * string * string) : Prop :=
  exists name,
    after_first_underscore (replace_char "/"%char "_"%char (tar_name m)) = OK name /\
    entry = (path_join (working_directory req) name, basename (tar_name m),
             "Dropped file during Cuckoo analysis.").

(** No accepted hash scores the threshold or more against an earlier one. *)
Fixpoint spread (l : list string) : bool :=
  match l with
  | [] => true
  | s :: r =>
      forallb (fun h => (ssdeep_compare h s <? ssdeep_match_pct)%Z) r && spread r
  end.

Lemma spread_snoc : forall l h,
  spread (l ++ [h])
  = spread l && forallb (fun s => (ssdeep_compare h s <? ssdeep_match_pct)%Z) l.
Proof.
  induction l as [| s r IH]; intros h; [reflexivity |].
  cbn [app spread forallb]. rewrite IH, forallb_app. cbn [forallb].
  rewrite andb_true_r.
  generalize (forallb (fun h0 => (ssdeep_compare h0 s <? ssdeep_match_pct)%Z) r).
  generalize (forallb (fun s0 => (ssdeep_compare h s0 <? ssdeep_match_pct)%Z) r).
  generalize (ssdeep_compare h s <? ssdeep_match_pct)%Z. generalize (spread r).
  now intros [] [] [] [].
Qed.

Lemma skip_file_false : forall h added,
  skip_file ssdeep_match_pct h added = false ->
  forallb (fun s => (ssdeep_compare h s <? ssdeep_match_pct)%Z) added = true.
Proof.
  intros h added Hs. unfold skip_file in Hs. apply forallb_forall. intros s Hin.
  destruct (ssdeep_compare h s <? ssdeep_match_pct)%Z eqn:E; [reflexivity |].
  assert (Hex : existsb (fun seen => (ssdeep_match_pct <=? ssdeep_compare h seen)%Z) added
                = true).
  { apply existsb_exists. exists s. split; [assumption |].
    apply Z.ltb_ge in E. now apply Z.leb_le. }
  congruence.
Qed.

Lemma set_add_incl : forall h s x, In x s -> In x (set_add h s).
Proof.
  intros h s x Hx. unfold set_add. destruct (existsb (String.eqb h) s);
    [assumption | apply in_or_app; now left].
Qed.

Lemma set_add_In : forall h s, In h (set_add h s).
Proof.
  intros h s. unfold set_add. destruct (existsb (String.eqb h) s) eqn:E.
  - apply existsb_exists in E. destruct E as [x [Hx Ex]].
    apply String.eqb_eq in Ex. now subst.
  - apply in_or_app. right. now left.
Qed.

Lemma set_add_spread : forall h s,
  spread s = true -> skip_file ssdeep_match_pct h s = false -> spread (set_add h s) = true.
Proof.
  intros h s Hs Hskip. unfold set_add. destruct (existsb (String.eqb h) s); [assumption |].
  now rewrite spread_snoc, Hs, (skip_file_false _ _ Hskip).
Qed.

(** What one member does to the accepted hashes and to the request. *)
Lemma check_dropped_member_effect : forall added req m added' req',
  check_dropped_member task ssdeep_match_pct (added, req) m = OK (added', req') ->
  incl added added' /\
  (spread added = true -> spread added' = true) /\
  working_directory req' = working_directory req /\
  max_extracted req' = max_extracted req /\
  (extracted req' = extracted req \/
   exists entry,
     extracted req' = extracted req ++ [entry] /\
     eligible m = true /\ offered_as m req entry /\
     (deep_scan task = false -> In (ssdeep_hash (tar_data m)) added')).
Proof.
  intros added req m added' req' E. unfold check_dropped_member in E.
  destruct (tar_isfile m) eqn:Hfile.
  2: { injection E as <- <-. repeat split; auto using incl_refl. }
  destruct (after_first_underscore _) as [name |] eqn:Hname; [| discriminate].
  cbn [bind] in E.
  assert (Hoffer : forall hashes,
            (if String.eqb (md5_hex (tar_data m)) (md5 task) then OK (hashes, req)
             else if negb (dropped_excluded (md5_hex (tar_data m)) (basename (tar_name m)))
                  then req0 <- add_extracted req (path_join (working_directory req) name)
                                 (basename (tar_name m))
                                 "Dropped file during Cuckoo analysis." ;;
                       OK (hashes, req0)
                  else OK (hashes, req)) = OK (added', req') ->
            added' = hashes /\
            working_directory req' = working_directory req /\
            max_extracted req' = max_extracted req /\
            (extracted req' = extracted req \/
             exists entry,
               extracted req' = extracted req ++ [entry] /\
               eligible m = true /\ offered_as m req entry)).
  { intros hashes Eo.
    destruct (String.eqb (md5_hex (tar_data m)) (md5 task)) eqn:Hmd5.
    { injection Eo as <- <-. repeat split; auto. }
    destruct (dropped_excluded _ _) eqn:Hex; cbn [negb] in Eo.
    { injection Eo as <- <-. repeat split; auto. }
    unfold add_extracted in Eo.
    destruct (List.length (extracted req) <? max_extracted req)%nat; [| discriminate].
    cbn [bind] in Eo. injection Eo as <- <-. cbn.
    repeat split; auto. right. eexists. split; [reflexivity |]. split.
    - unfold eligible. now rewrite Hfile, Hmd5, Hex.
    - exists name. now split. }
  destruct (deep_scan task) eqn:Hdeep; cbn [negb] in E.
  - destruct (Hoffer _ E) as [-> [Hw [Hm Hx]]].
    repeat split; auto using incl_refl.
    destruct Hx as [Hx | [entry [H1 [H2 H3]]]]; [now left |].
    right. exists entry. repeat split; auto. discriminate.
  - destruct (skip_file ssdeep_match_pct (ssdeep_hash (tar_data m)) added) eqn:Hskip.
    + injection E as <- <-. repeat split; auto using incl_refl.
    + destruct (Hoffer _ E) as [-> [Hw [Hm Hx]]].
      split; [intros x Hx'; now apply set_add_incl |].
      split; [intros Hs; now apply set_add_spread |].
      repeat split; auto.
      destruct Hx as [Hx | [entry [H1 [H2 H3]]]]; [now left |].
      right. exists entry. repeat split; auto. intros _. apply set_add_In.
Qed.

Lemma offered_as_wd : forall m req req' entry,
  working_directory req' = working_directory req ->
  offered_as m req' entry -> offered_as m req entry.
Proof. intros m req req' entry Hw [name [E ->]]. exists name. now rewrite Hw. Qed.

Lemma check_dropped_loop_effect : forall members added req added' req' failure,
  check_dropped_loop task ssdeep_match_pct members (added, req)
  = ((added', req'), failure) ->
  incl added added' /\
  (spread added = true -> spread added' = true) /\
  working_directory req' = working_directory req /\
  max_extracted req' = max_extracted req /\
  exists new,
    extracted req' = extracted req ++ new /\
    forall entry, In entry new ->
      exists m, In m members /\ eligible m = true /\ offered_as m req entry /\
                (deep_scan task = false -> In (ssdeep_hash (tar_data m)) added').
Proof.
  induction members as [| m members IH]; intros added req added' req' failure E.
  - cbn in E. injection E as <- <- <-. repeat split; auto using incl_refl.
    exists []. split; [now rewrite app_nil_r | intros entry []].
  - cbn [check_dropped_loop] in E.
    destruct (check_dropped_member task ssdeep_match_pct (added, req) m)
      as [[added1 req1] |] eqn:Em.
    + destruct (check_dropped_member_effect _ _ _ Em) as [I1 [S1 [W1 [M1 X1]]]].
      destruct (IH _ _ _ _ _ E) as [I2 [S2 [W2 [M2 [new [X2 Hnew]]]]]].
      split; [intros x Hx; auto |]. split; [auto |].
      split; [congruence |]. split; [congruence |].
      assert (Htail : forall entry, In entry new ->
                exists m0, In m0 (m :: members) /\ eligible m0 = true /\
                  offered_as m0 req entry /\
                  (deep_scan task = false -> In (ssdeep_hash (tar_data m0)) added')).
      { intros entry Hin. destruct (Hnew _ Hin) as [m0 [H0 [H1 [H2 H3]]]].
        exists m0. split; [now right |]. split; [assumption |].
        split; [exact (offered_as_wd _ W1 H2) | assumption]. }
      destruct X1 as [X1 | [entry [X1 [H1 [H2 H3]]]]].
      * exists new. split; [congruence | exact Htail].
      * exists (entry :: new). split.
        -- rewrite X2, X1, <- app_assoc. reflexivity.
        -- intros e [<- | Hin]; [| now apply Htail].
           exists m. split; [now left |]. repeat split; auto.
    + injection E as <- <- <-. repeat split; auto using incl_refl.
      exists []. split; [now rewrite app_nil_r | intros entry []].
Qed.

End DroppedFilesOffered.

(** Whatever the archive of dropped files holds, the files offered for
    extraction are file members that are not the submitted file (by MD5)
    and that no static exclusion covers, each under its own base name;
    nothing already offered is touched. *)
Theorem dropped_files_offered_are_eligible :
  forall (E : Externals) (task : ServiceTask) (pct : Z) (members : list tar_member)
         (added added' : list string) (req req' : ServiceRequest) (failure : option exn),
    check_dropped_loop task pct members (added, req) = ((added', req'), failure) ->
    exists new,
      extracted req' = extracted req ++ new /\
      forall entry, In entry new ->
        exists m, In m members /\ eligible task m = true /\ offered_as m req entry.
Proof.
  intros E task pct members added added' req req' failure Hloop.
  destruct (check_dropped_loop_effect _ _ _ _ _ Hloop) as [_ [_ [_ [_ [new [X Hnew]]]]]].
  exists new. split; [exact X |]. intros entry Hin.
  destruct (Hnew _ Hin) as [m [H1 [H2 [H3 _]]]]. now exists m.
Qed.

(** The similarity hashes accepted while the archive is walked stay
    pairwise below the threshold, each against the ones accepted before
    it; and outside a deep scan, the hash of every file offered is among
    them. *)
Theorem accepted_hashes_stay_dissimilar :
  forall (E : Externals) (task : ServiceTask) (pct : Z) (members : list tar_member)
         (added' : list string) (req req' : ServiceRequest) (failure : option exn),
    check_dropped_loop task pct members ([], req) = ((added', req'), failure) ->
    spread pct added' = true /\
    (deep_scan task = false ->
     exists new,
       extracted req' = extracted req ++ new /\
       forall entry, In entry new ->
         exists m, In m members /\ offered_as m req entry /\
                   In (ssdeep_hash (tar_data m)) added').
Proof.
  intros E task pct members added' req req' failure Hloop.
  destruct (check_dropped_loop_effect _ _ _ _ _ Hloop) as [_ [S [_ [_ [new [X Hnew]]]]]].
  split; [now apply S |]. intros Hdeep.
  exists new. split; [exact X |]. intros entry Hin.
  destruct (Hnew _ Hin) as [m [H1 [_ [H3 H4]]]]. exists m. auto.
Qed.

Definition dropped_run :=
  @check_dropped_loop sample_externals (sample_task false) 60
    [dropped_a; dropped_b; dropped_info] ([], sample_request).

Lemma dropped_files_offered_are_eligible_witness :
  exists new,
    extracted (snd (fst dropped_run)) = extracted sample_request ++ new /\
    forall entry, In entry new ->
      exists m, In m [dropped_a; dropped_b; dropped_info] /\
                @eligible sample_externals (sample_task false) m = true /\
                offered_as m sample_request entry.
Proof.
  apply (@dropped_files_offered_are_eligible sample_externals (sample_task false) 60%Z
           [dropped_a; dropped_b; dropped_info] [] (fst (fst dropped_run))
           sample_request (snd (fst dropped_run)) (snd dropped_run)).
  vm_compute. reflexivity.
Defined.

Lemma accepted_hashes_stay_dissimilar_witness :
  @spread sample_externals 60 (fst (fst dropped_run)) = true /\
  (deep_scan (sample_task false) = false ->
   exists new,
     extracted (snd (fst dropped_run)) = extracted sample_request ++ new /\
     forall entry, In entry new ->
       exists m, In m [dropped_a; dropped_b; dropped_info] /\
                 offered_as m sample_request entry /\
                 In (@ssdeep_hash sample_externals (tar_data m)) (fst (fst dropped_run))).
Proof.
  apply (@accepted_hashes_stay_dissimilar sample_externals (sample_task false) 60%Z
           [dropped_a; dropped_b; dropped_info] (fst (fst dropped_run))
           sample_request (snd (fst dropped_run)) (snd dropped_run)).
  vm_compute. reflexivity.
Defined.

(* ================================================================= *)
(** ** Deleting the remote task *)

Section DeleteProperties.

Context `{Externals}.

(** An exchange that brought no answer. *)
Definition unanswered (a : http_result) : bool :=
  match a with
  | Response _ _ _ => false
  | _ => true
  end.

(** The answer the next request will get. *)
Definition next_answer (st : state) : http_result := hd ConnectionError (net st).

(** One attempt: one request; it raises exactly when no answer came, and
    only the answer 200 touches the task. *)
Lemma delete_once_outcome : forall i st,
  exists o st',
    cuckoo_delete_task_once i st = (o, st') /\
    trace st' = GET_delete i :: trace st /\
    net st' = tl (net st) /\
    file_res st' = file_res st /\ request st' = request st /\
    match next_answer st with
    | Response code _ _ =>
        o = Ret tt /\
        if (code =? 200)%Z then live_task_id st' = None
        else cuckoo_task st' = cuckoo_task st
    | _ => (exists e, o = Exc e) /\ cuckoo_task st' = cuckoo_task st
    end.
Proof.
  intros i st. unfold cuckoo_delete_task_once, next_answer, bindM, http.
  destruct st as [ct ms nt tr rw fr rq lg]. cbn [net trace cuckoo_task machines
    random_words file_res request log hd tl].
  destruct nt as [| [| | code json content] rest].
  - eexists _, _. split; [reflexivity |]. cbn. repeat split; eauto.
  - eexists _, _. split; [reflexivity |]. cbn. repeat split; eauto.
  - eexists _, _. split; [reflexivity |]. cbn. repeat split; eauto.
  - destruct (code =? 200)%Z eqn:Ecode; cbn [negb].
    + destruct ct as [[f [| kv kw] id rp er] |].
      all: eexists _, _; (split; [reflexivity |]); cbn; rewrite Ecode; now repeat split.
    + eexists _, _. split; [reflexivity |]. cbn. rewrite Ecode. now repeat split.
Qed.

End DeleteProperties.


(** Once a delete was answered with status 200, the clean-up that every
    exit of a job runs has nothing left to do: run again, it sends no
    request and changes nothing. *)
Theorem cleanup_after_delete_is_silent :
  forall (E : Externals) (st : state) (i : value) (json : option value)
         (content : string) (rest : list http_result),
    live_task_id st = Some i ->
    net st = Response 200 json content :: rest ->
    exists st1,
      delete_if_live st = (Ret tt, st1) /\
      trace st1 = GET_delete i :: trace st /\
      net st1 = rest /\
      live_task_id st1 = None /\
      delete_if_live st1 = (Ret tt, st1).
Proof.
  intros E st i json content rest Hlive Hnet.
  destruct (delete_once_outcome i st) as [o1 [s1 [E1 [T1 [N1 [_ [_ C1]]]]]]].
  unfold next_answer in C1. rewrite Hnet in C1, N1. cbn in C1, N1.
  destruct C1 as [-> C1]. exists s1.
  assert (Hrun : delete_if_live st = (Ret tt, s1)).
  { unfold delete_if_live, bindM, get_state. rewrite Hlive.
    unfold cuckoo_delete_task. cbn. now rewrite E1. }
  repeat split; auto.
  unfold delete_if_live, bindM, get_state. now rewrite C1.
Qed.

(** A delete answered with another status is not an error of the job: the
    clean-up returns, and the task identifier stays, so that the next
    clean-up asks again. *)
Theorem refused_delete_keeps_task :
  forall (E : Externals) (st : state) (i : value) (code : Z) (json : option value)
         (content : string) (rest : list http_result),
    live_task_id st = Some i ->
    net st = Response code json content :: rest ->
    code <> 200%Z ->
    exists st1,
      delete_if_live st = (Ret tt, st1) /\
      trace st1 = GET_delete i :: trace st /\
      net st1 = rest /\
      live_task_id st1 = Some i.
Proof.
  intros E st i code json content rest Hlive Hnet Hcode.
  destruct (delete_once_outcome i st) as [o1 [s1 [E1 [T1 [N1 [_ [_ C1]]]]]]].
  unfold next_answer in C1. rewrite Hnet in C1, N1. cbn in C1, N1.
  destruct C1 as [-> C1]. apply Z.eqb_neq in Hcode. rewrite Hcode in C1.
  exists s1. repeat split; auto.
  - unfold delete_if_live, bindM, get_state. rewrite Hlive.
    unfold cuckoo_delete_task. cbn. now rewrite E1.
  - unfold live_task_id in *. now rewrite C1.
Qed.

Definition deleting_state (answers : list http_result) : state :=
  job_facing running_job answers.

Lemma cleanup_after_delete_is_silent_witness :
  exists st1,
    @delete_if_live sample_externals (deleting_state [Response 200 None "ok"])
    = (Ret tt, st1) /\
    trace st1 = GET_delete (VInt 7) :: trace (deleting_state [Response 200 None "ok"]) /\
    net st1 = [] /\
    live_task_id st1 = None /\
    @delete_if_live sample_externals st1 = (Ret tt, st1).
Proof.
  apply (@cleanup_after_delete_is_silent sample_externals
           (deleting_state [Response 200 None "ok"]) (VInt 7) None "ok" []);
    reflexivity.
Defined.

Lemma refused_delete_keeps_task_witness :
  exists st1,
    @delete_if_live sample_externals (deleting_state [Response 500 None "no"])
    = (Ret tt, st1) /\
    trace st1 = GET_delete (VInt 7) :: trace (deleting_state [Response 500 None "no"]) /\
    net st1 = [] /\
    live_task_id st1 = Some (VInt 7).
Proof.
  apply (@refused_delete_keeps_task sample_externals
           (deleting_state [Response 500 None "no"]) (VInt 7) 500%Z None "no" []);
    [reflexivity | reflexivity | lia].
Defined.

(* ================================================================= *)
(** ** What the fetch of a report returns *)

Section ReportFetch.

Context `{Externals}.
Variable cfg : dict.

(** An attempt returns [None], or data that is not empty: a dictionary for
    the format [json], the raw content otherwise. *)
Lemma query_report_once_values : forall i fmt st v st',
  cuckoo_query_report_once cfg i fmt st = (Ret v, st') ->
  v = VNone \/
  (truthy v = true /\
   if String.eqb fmt "json"
   then is_dict v = true /\ dict_get cfg "recursion_limit" <> None
   else exists content, v = VStr content).
Proof.
  intros i fmt st v st' E. unfold cuckoo_query_report_once in E.
  apply bindM_ret in E. destruct E as [u [s1 [_ E]]].
  apply bindM_ret in E. destruct E as [resp [s2 [_ E]]].
  destruct resp as [| | code json content].
  - apply bindM_ret in E. destruct E as [u' [s3 [_ E]]]. discriminate.
  - discriminate.
  - destruct (negb (code =? 200)%Z).
    + destruct (code =? 404)%Z.
      * apply bindM_ret in E. destruct E as [u1 [s3 [_ E]]].
        apply bindM_ret in E. destruct E as [u2 [s4 [_ E]]]. discriminate.
      * apply bindM_ret in E. destruct E as [u1 [s3 [_ E]]].
        apply ret_ret in E. destruct E as [-> _]. now left.
    + apply bindM_ret in E. destruct E as [data [s3 [Ed E]]].
      destruct (truthy data) eqn:Et; cbn [negb] in E.
      2: { apply bindM_ret in E. destruct E as [u1 [s4 [_ E]]]. discriminate. }
      apply ret_ret in E. destruct E as [-> _]. right. split; [assumption |].
      destruct (String.eqb fmt "json").
      * destruct (dict_get cfg "recursion_limit") as [limit |].
        -- destruct (response_dict json) as [d |] eqn:Er.
           ++ apply ret_ret in Ed. destruct Ed as [-> _]. split; [| discriminate].
              unfold response_dict in Er.
              destruct json as [[| b | z | s | [| x l] | d0] |]; try discriminate;
                injection Er as <-; reflexivity.
           ++ apply bindM_ret in Ed. destruct Ed as [u1 [s4 [_ Ed]]]. discriminate.
        -- apply bindM_ret in Ed. destruct Ed as [u1 [s4 [_ Ed]]]. discriminate.
      * apply ret_ret in Ed. destruct Ed as [-> _]. now exists content.
Qed.

(** An attempt answered with 200 that cannot read the limit raises on the
    unbound name, after its one request. *)
Lemma query_report_once_unbound : forall i st json content rest,
  dict_get cfg "recursion_limit" = None ->
  net st = Response 200 json content :: rest ->
  exists st1,
    cuckoo_query_report_once cfg i "json" st = (Exc UnboundLocalError, st1) /\
    trace st1 = GET_report i "json" :: trace st /\
    net st1 = rest /\
    cuckoo_task st1 = cuckoo_task st.
Proof.
  intros i st json content rest Hcfg Hnet.
  unfold cuckoo_query_report_once, bindM, log_msg, http.
  cbn [net trace cuckoo_task machines random_words file_res request log].
  rewrite Hnet. cbn [negb Z.eqb String.eqb Ascii.eqb Bool.eqb]. rewrite Hcfg.
  eexists. split; [reflexivity |]. cbn. now repeat split.
Qed.

End ReportFetch.

(** Whatever the backend answers, a fetch of a report that returns gives
    [None] or data that is not empty: the raw content for a format other
    than [json], and for [json] a dictionary. *)
Theorem query_report_returns_none_or_data :
  forall (E : Externals) (cfg : dict) (i : value) (fmt : string)
         (st st' : state) (v : value),
    cuckoo_query_report cfg i fmt st = (Ret v, st') ->
    v = VNone \/
    (truthy v = true /\
     if String.eqb fmt "json" then is_dict v = true
     else exists content, v = VStr content).
Proof.
  intros E cfg i fmt st st' v Hrun. unfold cuckoo_query_report in Hrun.
  apply retry_bounded_ret in Hrun. destruct Hrun as [_ [s1 Honce]].
  destruct (query_report_once_values _ _ _ _ Honce) as [Hv | [Ht Hv]]; [now left |].
  right. split; [assumption |].
  destruct (String.eqb fmt "json"); [exact (proj1 Hv) | exact Hv].
Qed.

(** Without [recursion_limit] in the configuration no report is ever read
    as [json]: whatever the backend answers, a fetch that returns gives
    [None]; and when the backend answers 200 five times, the fetch asks
    five times and raises on the unbound name. *)
Theorem json_report_needs_recursion_limit :
  forall (E : Externals) (cfg : dict) (i : value),
    dict_get cfg "recursion_limit" = None ->
    (forall (st st' : state) (v : value),
       cuckoo_query_report cfg i "json" st = (Ret v, st') -> v = VNone) /\
    (forall (st : state) j1 c1 j2 c2 j3 c3 j4 c4 j5 c5 rest,
       net st = Response 200 j1 c1 :: Response 200 j2 c2 :: Response 200 j3 c3
                :: Response 200 j4 c4 :: Response 200 j5 c5 :: rest ->
       fst (cuckoo_query_report cfg i "json" st) = Exc UnboundLocalError /\
       trace (snd (cuckoo_query_report cfg i "json" st))
       = repeat (GET_report i "json") 5 ++ trace st /\
       net (snd (cuckoo_query_report cfg i "json" st)) = rest).
Proof.
  intros E cfg i Hcfg. split.
  - intros st st' v Hrun. unfold cuckoo_query_report in Hrun.
    apply retry_bounded_ret in Hrun. destruct Hrun as [_ [s1 Honce]].
    destruct (query_report_once_values _ _ _ _ Honce) as [Hv | [_ Hv]]; [assumption |].
    cbn in Hv. destruct Hv as [_ Hv]. contradiction.
  - intros st j1 c1 j2 c2 j3 c3 j4 c4 j5 c5 rest Hnet.
    destruct (@query_report_once_unbound _ cfg i st _ _ _ Hcfg Hnet) as [s1 [E1 [T1 [N1 _]]]].
    destruct (@query_report_once_unbound _ cfg i s1 _ _ _ Hcfg N1) as [s2 [E2 [T2 [N2 _]]]].
    destruct (@query_report_once_unbound _ cfg i s2 _ _ _ Hcfg N2) as [s3 [E3 [T3 [N3 _]]]].
    destruct (@query_report_once_unbound _ cfg i s3 _ _ _ Hcfg N3) as [s4 [E4 [T4 [N4 _]]]].
    destruct (@query_report_once_unbound _ cfg i s4 _ _ _ Hcfg N4) as [s5 [E5 [T5 [N5 _]]]].
    assert (Hrun : cuckoo_query_report cfg i "json" st = (Exc UnboundLocalError, s5)).
    { unfold cuckoo_query_report. cbn [retry_bounded].
      rewrite E1. cbn [retry_bounded]. rewrite E2. cbn [retry_bounded].
      rewrite E3. cbn [retry_bounded]. rewrite E4. cbn [retry_bounded].
      rewrite E5. reflexivity. }
    rewrite Hrun. cbn [fst snd repeat app].
    rewrite T5, T4, T3, T2, T1. now repeat split.
Qed.

Lemma query_report_returns_none_or_data_witness :
  VStr "tar" = VNone \/
  (truthy (VStr "tar") = true /\
   if String.eqb "all" "json" then is_dict (VStr "tar") = true
   else exists content, VStr "tar" = VStr content).
Proof.
  apply (@query_report_returns_none_or_data sample_externals [] (VInt 7) "all"
           (idle_state [Response 200 None "tar"])
           (snd (@cuckoo_query_report sample_externals [] (VInt 7) "all"
                   (idle_state [Response 200 None "tar"])))
           (VStr "tar")).
  vm_compute. reflexivity.
Defined.

Lemma json_report_needs_recursion_limit_witness :
  (forall (st st' : state) (v : value),
     @cuckoo_query_report sample_externals [] (VInt 7) "json" st = (Ret v, st') ->
     v = VNone) /\
  (forall (st : state) j1 c1 j2 c2 j3 c3 j4 c4 j5 c5 rest,
     net st = Response 200 j1 c1 :: Response 200 j2 c2 :: Response 200 j3 c3
              :: Response 200 j4 c4 :: Response 200 j5 c5 :: rest ->
     fst (@cuckoo_query_report sample_externals [] (VInt 7) "json" st)
     = Exc UnboundLocalError /\
     trace (snd (@cuckoo_query_report sample_externals [] (VInt 7) "json" st))
     = repeat (GET_report (VInt 7) "json") 5 ++ trace st /\
     net (snd (@cuckoo_query_report sample_externals [] (VInt 7) "json" st)) = rest).
Proof.
  apply (@json_report_needs_recursion_limit sample_externals [] (VInt 7)).
  reflexivity.
Defined.

(* ================================================================= *)
(** ** Files that are not analysed *)

Section UnsupportedFiles.

Context `{Externals} `{Framework}.
Variables (cfg : dict) (task : ServiceTask) (ssdeep_match_pct : Z).

(** The name [execute] works with: the base name of the file, decoded when
    it is MIME encoded, or a random word when the decoding fails. *)
Definition effective_name (st : state) : string :=
  let name := basename (file_name task) in
  if is_mime_encoded name then
    match decode_mime_header name with
    | Some new_filename => new_filename
    | None => hd "aa" (random_words st)
    end
  else name.

(** The type of the file gives no extension, or is one of the unknown
    types. *)
Definition unidentified : bool :=
  match tag_to_extension (file_type task) with
  | Some _ => is_substring "unknown" (file_type task)
  | None => true
  end.

(** The name has no extension, or one outside the supported ones. *)
Definition unsupported (name : string) : bool :=
  match snd (rsplit_dot name) with
  | Some submitted_ext => negb (existsb (String.eqb submitted_ext) SUPPORTED_EXTENSIONS)
  | None => true
  end.

Lemma choose_extension_none : forall name,
  choose_extension task (rsplit_dot name) = None <->
  unidentified = true /\ unsupported name = true.
Proof.
  intros name. unfold choose_extension, unidentified, unsupported.
  destruct (tag_to_extension (file_type task)) as [ext |];
    [destruct (is_substring "unknown" (file_type task)) |]; cbn [negb];
    destruct (snd (rsplit_dot name)) as [sub |];
    try destruct (existsb (String.eqb sub) SUPPORTED_EXTENSIONS);
    cbn [negb]; split; intros Hx; try discriminate; try (now split);
    destruct Hx; discriminate.
Qed.

End UnsupportedFiles.

(** A file whose type is not identified and whose name carries no
    supported extension is not analysed: [execute] returns without a single
    request to the sandbox, with an empty result, no task and the request
    as it was. *)
Theorem unidentified_file_is_not_submitted :
  forall (E : Externals) (F : Framework) (cfg : dict) (task : ServiceTask)
         (pct : Z) (fuel : nat) (st : state),
    unidentified task = true ->
    unsupported (effective_name task st) = true ->
    exists st',
      execute cfg task pct fuel st = (Ret tt, st') /\
      trace st' = trace st /\ net st' = net st /\
      file_res st' = [] /\ cuckoo_task st' = None /\ request st' = request st.
Proof.
  intros E F cfg task pct fuel st Hid Hext.
  assert (Hnone : choose_extension task (rsplit_dot (effective_name task st)) = None)
    by (apply choose_extension_none; now split).
  unfold effective_name in Hnone. unfold execute, bindM.
  destruct (is_mime_encoded (basename (file_name task))).
  - destruct (decode_mime_header (basename (file_name task))) as [decoded |].
    + cbn [log_msg ret]. rewrite Hnone. eexists. split; [reflexivity |].
      cbn. now repeat split.
    + cbn [generate_random_words log_msg ret random_words].
      rewrite Hnone. eexists. split; [reflexivity |]. cbn. now repeat split.
  - cbn [ret]. rewrite Hnone. eexists. split; [reflexivity |]. cbn. now repeat split.
Qed.

Definition unknown_task : ServiceTask :=
  mkServiceTask "/tmp/in/notes.xyz" "..." "unknown" "ab12" "md5:..." false 0.

Lemma unidentified_file_is_not_submitted_witness :
  exists st',
    @execute sample_externals sample_framework [] unknown_task 80 10
             (idle_state [Response 200 None ""])
    = (Ret tt, st') /\
    trace st' = trace (idle_state [Response 200 None ""]) /\
    net st' = net (idle_state [Response 200 None ""]) /\
    file_res st' = [] /\ cuckoo_task st' = None /\
    request st' = request (idle_state [Response 200 None ""]).
Proof.
  apply (@unidentified_file_is_not_submitted sample_externals sample_framework []
           unknown_task 80%Z 10%nat (idle_state [Response 200 None ""]));
    reflexivity.
Defined.

(* ================================================================= *)
(** ** The hosts and domains that are tagged *)

(** Inversion of the steps of a computation that returned. *)
Ltac bind_inv H x E :=
  match type of H with
  | bind ?c _ = OK _ =>
      destruct c as [x |] eqn:E; cbn [bind] in H; [| discriminate H]
  end.

Ltac bind_step H :=
  let x := fresh "x" in
  let Ex := fresh "Ex" in
  bind_inv H x Ex.

Section TaggedHosts.

Context `{Externals}.
Variable guest_ip : value.

(** A host that is neither the guest nor whitelisted. *)
Definition reportable_host (host : value) : bool :=
  negb (py_eqb host guest_ip || wlist_check_ip host).

Definition reportable_domain (domain : value) : bool :=
  negb (wlist_check_domain domain).

(** The only tags of the network section: reportable addresses, reportable
    domains, and request targets. *)
Definition network_tag (tag : string * value) : bool :=
  if String.eqb (fst tag) "network.ip" then reportable_host (snd tag)
  else if String.eqb (fst tag) "network.domain" then reportable_domain (snd tag)
  else String.eqb (fst tag) "network.uri".

Definition keys_of {A} (m : option (list (value * A))) : list value :=
  match m with
  | Some l => map fst l
  | None => []
  end.

Lemma for_each_invariant : forall (A S : Type) (P : S -> Prop) (f : S -> A -> result S)
  (l : list A),
  (forall s x s', In x l -> P s -> f s x = OK s' -> P s') ->
  forall s s', P s -> for_each l f s = OK s' -> P s'.
Proof.
  induction l as [| a l IH]; intros Hf s s' Hs E.
  - injection E as <-. exact Hs.
  - cbn [for_each] in E. destruct (f s a) as [s1 |] eqn:Ea; [| discriminate].
    cbn [bind] in E. apply (IH (fun s0 x s0' Hx => Hf s0 x s0' (or_intror Hx)) s1 s');
      [| exact E].
    apply (Hf s a s1); [now left | exact Hs | exact Ea].
Qed.

Lemma pm_set_keys : forall (A : Type) (m : list (value * A)) g a k,
  In k (map fst (pm_set m g a)) -> k = g \/ In k (map fst m).
Proof.
  induction m as [| [k' a'] r IH]; intros g a k Hin; cbn in Hin.
  - destruct Hin as [<- | []]. now left.
  - destruct (py_eqb k' g); cbn in Hin.
    + right. exact Hin.
    + destruct Hin as [<- | Hin]; [right; now left |].
      destruct (IH _ _ _ Hin) as [-> | Hr]; [now left | right; now right].
Qed.

Lemma add_flows_keys : forall key protocol flows fm k,
  In k (map fst (add_flows key protocol flows fm)) -> k = key \/ In k (keys_of fm).
Proof.
  intros key protocol flows fm k Hin. unfold add_flows in Hin.
  apply pm_set_keys in Hin. destruct Hin as [-> | Hin]; [now left | right].
  destruct fm; [exact Hin | destruct Hin].
Qed.

Lemma add_host_flows_keys : forall host protocol flows rm k,
  In k (keys_of (host_flows (add_host_flows host protocol flows rm))) ->
  k = host \/ In k (keys_of (host_flows rm)).
Proof.
  intros host protocol [fl |] rm k Hin; cbn in Hin; [| now right].
  now apply add_flows_keys in Hin.
Qed.

Lemma add_host_flows_domains : forall host protocol flows rm,
  domain_flows (add_host_flows host protocol flows rm) = domain_flows rm.
Proof. intros host protocol [fl |] rm; reflexivity. Qed.

Lemma add_domain_flows_keys : forall domain protocol flows rm k,
  In k (keys_of (domain_flows (add_domain_flows domain protocol flows rm))) ->
  k = domain \/ In k (keys_of (domain_flows rm)).
Proof.
  intros domain protocol [fl |] rm k Hin; cbn in Hin; [| now right].
  now apply add_flows_keys in Hin.
Qed.

Lemma add_domain_flows_hosts : forall domain protocol flows rm,
  host_flows (add_domain_flows domain protocol flows rm) = host_flows rm.
Proof. intros domain protocol [fl |] rm; reflexivity. Qed.

(** The keys of the two maps are reportable. *)
Definition reportable_map (rm : result_map_t) : Prop :=
  (forall k, In k (keys_of (host_flows rm)) -> reportable_host k = true) /\
  (forall k, In k (keys_of (domain_flows rm)) -> reportable_domain k = true).

Lemma collect_host_flows_reportable : forall udp tcp smtp icmp http https rm host rm',
  reportable_map rm ->
  collect_host_flows guest_ip udp tcp smtp icmp http https rm host = OK rm' ->
  reportable_map rm'.
Proof.
  intros udp tcp smtp icmp http https rm host rm' [Hh Hd] E.
  unfold collect_host_flows in E.
  destruct (py_eqb host guest_ip || wlist_check_ip host) eqn:Hskip.
  { injection E as <-. now split. }
  bind_inv E f1 E1. bind_inv E f2 E2. bind_inv E f3 E3. bind_inv E f4 E4.
  bind_inv E f5 E5. bind_inv E f6 E6. injection E as <-.
  split.
  - intros k Hk.
    repeat (apply add_host_flows_keys in Hk;
            destruct Hk as [-> | Hk]; [unfold reportable_host; now rewrite Hskip |]).
    now apply Hh.
  - intros k Hk. rewrite !add_host_flows_domains in Hk. now apply Hd.
Qed.

Lemma add_bare_host_reportable : forall (m : flowmap) host m',
  (forall k, In k (map fst m) -> reportable_host k = true) ->
  add_bare_host guest_ip m host = OK m' ->
  forall k, In k (map fst m') -> reportable_host k = true.
Proof.
  intros m host m' Hm E k Hk. unfold add_bare_host in E.
  destruct (py_eqb host guest_ip || wlist_check_ip host) eqn:Hskip.
  { injection E as <-. now apply Hm. }
  destruct (hashable host); [| discriminate]. injection E as <-.
  apply pm_set_keys in Hk. destruct Hk as [-> | Hk]; [| now apply Hm].
  unfold reportable_host. now rewrite Hskip.
Qed.

Lemma collect_domain_flows_reportable : forall dns http https rm domain rm',
  reportable_map rm ->
  collect_domain_flows dns http https rm domain = OK rm' ->
  reportable_map rm'.
Proof.
  intros dns http https rm domain rm' [Hh Hd] E. unfold collect_domain_flows in E.
  destruct (wlist_check_domain domain) eqn:Hskip.
  { injection E as <-. now split. }
  bind_inv E f1 E1. bind_inv E f2 E2. bind_inv E f3 E3. injection E as <-.
  split.
  - intros k Hk. rewrite !add_domain_flows_hosts in Hk. now apply Hh.
  - intros k Hk.
    repeat (apply add_domain_flows_keys in Hk;
            destruct Hk as [-> | Hk]; [unfold reportable_domain; now rewrite Hskip |]).
    now apply Hd.
Qed.

(** The tags of a section are network tags. *)
Definition tagged_well (sec : ResultSection) : Prop :=
  title_text sec = "Network Activity" /\
  forall tag, In tag (tags sec) -> network_tag tag = true.

Lemma add_tag_well : forall sec ty v,
  tagged_well sec -> network_tag (ty, v) = true -> tagged_well (add_tag sec ty v).
Proof.
  intros sec ty v [Hn Hs] Ht. split; [exact Hn |].
  intros tag Hin. cbn in Hin. apply in_app_or in Hin.
  destruct Hin as [Hin | [<- | []]]; [now apply Hs | exact Ht].
Qed.

Lemma tag_uris_well : forall flows sec, tagged_well sec -> tagged_well (tag_uris sec flows).
Proof.
  unfold tag_uris. induction flows as [| flow flows IH]; intros sec Hs; [exact Hs |].
  cbn [fold_left]. apply IH.
  destruct (dict_get flow "uri") as [uri |]; [| exact Hs].
  destruct (truthy uri); [| exact Hs]. now apply add_tag_well.
Qed.

Lemma render_host_protocol_well : forall host protocols st protocol st',
  tagged_well (fst st) ->
  render_host_protocol host protocols st protocol = OK st' ->
  tagged_well (fst st').
Proof.
  intros host protocols [sec lines] protocol st' Hs E. unfold render_host_protocol in E.
  destruct (sm_get protocols protocol) as [flows |]; [| discriminate].
  bind_inv E fl E1. bind_inv E hl E2. injection E as <-. cbn [fst] in *.
  destruct (is_substring "http" protocol); [now apply tag_uris_well | exact Hs].
Qed.

Lemma render_host_well : forall (m : flowmap) st host st',
  reportable_host host = true ->
  tagged_well (fst st) ->
  render_host m st host = OK st' ->
  tagged_well (fst st').
Proof.
  intros m [sec lines] host st' Hhost Hs E. unfold render_host in E.
  revert E. apply for_each_invariant with (P := fun s => tagged_well (fst s)).
  - intros s x s' _. apply render_host_protocol_well.
  - cbn [fst]. apply add_tag_well; [exact Hs |]. unfold network_tag. cbn. exact Hhost.
Qed.

Lemma render_domain_protocol_well : forall n domain protocols st protocol st',
  tagged_well (fst st) ->
  render_domain_protocol n domain protocols st protocol = OK st' ->
  tagged_well (fst st').
Proof.
  intros n domain protocols [sec lines] protocol st' Hs E.
  unfold render_domain_protocol in E.
  destruct (sm_get protocols protocol) as [flows |]; [| discriminate].
  destruct (is_substring "http" protocol).
  - bind_inv E x E1. destruct x as [sec1 fl1].
    bind_inv E1 ls E0. injection E1 as <- <-.
    bind_inv E fl2 E2. destruct fl2 as [ls2 |]; [| discriminate].
    bind_inv E dl E3. injection E as <-. cbn [fst]. now apply tag_uris_well.
  - cbn [bind] in E. bind_inv E fl2 E2. destruct fl2 as [ls2 |]; [| discriminate].
    bind_inv E dl E3. injection E as <-. exact Hs.
Qed.

Lemma render_domain_well : forall n (m : flowmap) st domain st',
  reportable_domain domain = true ->
  tagged_well (fst st) ->
  render_domain n m st domain = OK st' ->
  tagged_well (fst st').
Proof.
  intros n m [sec lines] domain st' Hdom Hs E. unfold render_domain in E.
  destruct (pm_lookup m domain) as [protocols |]; [| discriminate].
  revert E. apply for_each_invariant with (P := fun s => tagged_well (fst s)).
  - intros s x s' _. apply render_domain_protocol_well.
  - cbn [fst]. apply add_tag_well; [exact Hs |]. unfold network_tag. cbn. exact Hdom.
Qed.

Lemma py_sorted_In : forall l l' k, py_sorted l = OK l' -> In k l' -> In k l.
Proof.
  intros l l' k E Hk. unfold py_sorted in E.
  destruct (List.length l <=? 1)%nat; [injection E as <-; exact Hk |].
  destruct (forallb _ l).
  - injection E as <-. now apply sort_by_In in Hk.
  - destruct (forallb _ l); [| discriminate].
    injection E as <-. now apply sort_by_In in Hk.
Qed.

End TaggedHosts.

Section TaggedNetwork.

Context `{Externals}.

Lemma process_network_tags : forall network al_result guest_ip cls al',
  process_network network al_result guest_ip cls = OK al' ->
  exists sec, al' = al_result ++ [sec] /\ tagged_well guest_ip sec.
Proof.
  intros network al_result guest_ip cls al' E. unfold process_network in E.
  cbv zeta in E.
  do 25 bind_step E.
  clear Ex Ex0 Ex1 Ex2 Ex3 Ex4 Ex5 Ex6 Ex7 Ex8 Ex9 Ex10 Ex11 Ex12 Ex13 Ex14 Ex15 Ex16
        Ex17 Ex18 Ex19 Ex20 Ex21 Ex22 Ex23.
  bind_inv E hosts Ehosts. bind_inv E host_list Elist.
  bind_inv E rm0 Erm0. bind_inv E rm1 Erm1. bind_inv E rm2 Erm2.
  bind_inv E sec1 Esec1. bind_inv E sec2 Esec2. injection E as <-.
  (* the keys of the two maps *)
  assert (R0 : reportable_map guest_ip rm0).
  { revert Erm0. apply for_each_invariant with (P := reportable_map guest_ip).
    - intros s host s' _. apply collect_host_flows_reportable.
    - split; intros k []. }
  assert (R1 : reportable_map guest_ip rm1).
  { destruct (host_flows rm0) as [m |] eqn:Em; [injection Erm1 as <-; exact R0 |].
    destruct (negb (py_eqb hosts (VList []))); [| injection Erm1 as <-; exact R0].
    bind_inv Erm1 m Em1. injection Erm1 as <-. split; cbn; [| exact (proj2 R0)].
    refine (@for_each_invariant _ _
              (fun m0 : flowmap =>
                 forall k, In k (map fst m0) -> reportable_host guest_ip k = true)
              _ _ _ _ _ _ Em1).
    - intros s host s' _. apply add_bare_host_reportable.
    - intros k []. }
  assert (R2 : reportable_map guest_ip rm2).
  { revert Erm2. apply for_each_invariant with (P := reportable_map guest_ip).
    - intros s domain s' _. apply collect_domain_flows_reportable.
    - exact R1. }
  destruct R2 as [Rh Rd].
  (* the tags *)
  assert (T1 : tagged_well guest_ip sec1).
  { destruct (host_flows rm2) as [m |].
    - bind_inv Esec1 keys Ekeys. bind_inv Esec1 st Est. destruct st as [sec lines].
      injection Esec1 as <-.
      assert (Hs : tagged_well guest_ip (fst (sec, lines))).
      { revert Est.
        apply @for_each_invariant
          with (P := fun s : ResultSection * list string => tagged_well guest_ip (fst s))
               (l := keys).
        - intros s host s' Hin' Hs. apply render_host_well; [| exact Hs].
          apply Rh. cbn. exact (@py_sorted_In _ _ _ Ekeys Hin').
        - split; [reflexivity | intros t []]. }
      exact Hs.
    - injection Esec1 as <-. split; [reflexivity | intros t []]. }
  exists sec2. split; [reflexivity |].
  destruct (domain_flows rm2) as [m |].
  - bind_inv Esec2 n En. bind_inv Esec2 keys Ekeys. bind_inv Esec2 st Est.
    destruct st as [sec lines]. injection Esec2 as <-.
    assert (Hs : tagged_well guest_ip (fst (sec, lines))).
    { revert Est.
      apply @for_each_invariant
        with (P := fun s : ResultSection * list string => tagged_well guest_ip (fst s))
             (l := keys).
      - intros s domain s' Hin' Hs. apply render_domain_well; [| exact Hs].
        apply Rd. cbn. exact (@py_sorted_In _ _ _ Ekeys Hin').
      - exact T1. }
    exact Hs.
  - injection Esec2 as <-. exact T1.
Qed.

End TaggedNetwork.

(** Whenever the network part of a report is processed to the end, one
    section is appended, titled "Network Activity", and no tag of it names
    the guest or a whitelisted address as a contacted address, nor a
    whitelisted domain as a contacted domain. *)
Theorem whitelisted_hosts_are_never_tagged :
  forall (E : Externals) (network : value) (al_result : Result) (guest_ip : value)
         (cls : string) (al' : Result),
    process_network network al_result guest_ip cls = OK al' ->
    exists sec,
      al' = al_result ++ [sec] /\
      title_text sec = "Network Activity" /\
      (forall host, In ("network.ip", host) (tags sec) ->
         py_eqb host guest_ip = false /\ wlist_check_ip host = false) /\
      (forall domain, In ("network.domain", domain) (tags sec) ->
         wlist_check_domain domain = false).
Proof.
  intros E network al_result guest_ip cls al' Hrun.
  destruct (process_network_tags _ _ _ _ Hrun) as [sec [Hal [Htitle Htags]]].
  exists sec. split; [exact Hal |]. split; [exact Htitle |]. split.
  - intros host Hin. apply Htags in Hin. unfold network_tag in Hin. cbn in Hin.
    unfold reportable_host in Hin. apply negb_true_iff in Hin.
    now apply orb_false_iff in Hin.
  - intros domain Hin. apply Htags in Hin. unfold network_tag in Hin. cbn in Hin.
    unfold reportable_domain in Hin. now apply negb_true_iff in Hin.
Qed.

Definition guest_address : value := VStr "192.168.56.101".

Definition sample_network : value :=
  VDict [("hosts", VList [guest_address; VStr "8.8.8.8"]);
         ("udp", VList [VDict [("dst", VStr "8.8.8.8"); ("dport", VInt 53)];
                        VDict [("dst", guest_address); ("dport", VInt 68)]])].

Definition sample_network_result : Result :=
  match @process_network sample_externals sample_network [] guest_address "" with
  | OK r => r
  | Raise _ => []
  end.

Lemma whitelisted_hosts_are_never_tagged_witness :
  exists sec,
    sample_network_result = [] ++ [sec] /\
    title_text sec = "Network Activity" /\
    (forall host, In ("network.ip", host) (tags sec) ->
       py_eqb host guest_address = false /\
       @wlist_check_ip sample_externals host = false) /\
    (forall domain, In ("network.domain", domain) (tags sec) ->
       @wlist_check_domain sample_externals domain = false).
Proof.
  apply (@whitelisted_hosts_are_never_tagged sample_externals sample_network []
           guest_address "" sample_network_result).
  vm_compute. reflexivity.
Defined.

(* ================================================================= *)
(** ** What the Android part of a report adds *)

Section DroidmonProperties.

Context `{Externals}.

Lemma fold_add_line_keeps : forall lines sec,
  title_text (fold_left add_line lines sec) = title_text sec /\
  tags (fold_left add_line lines sec) = tags sec /\
  subsections (fold_left add_line lines sec) = subsections sec /\
  heuristic (fold_left add_line lines sec) = heuristic sec.
Proof.
  induction lines as [| ln lines IH]; intros sec; cbn [fold_left]; [now repeat split |].
  destruct (IH (add_line sec ln)) as [T [G [S Hh]]]. now rewrite T, G, S, Hh.
Qed.

(** A table of the Android report: nothing, or one section without tags. *)
Lemma droidmon_table_adds : forall droidmon key title tag_field heur al cls al',
  droidmon_table droidmon key title tag_field heur al cls = OK al' ->
  al' = al \/
  exists sec,
    al' = al ++ [sec] /\ title_text sec = title /\ tags sec = [] /\
    subsections sec = [] /\ heuristic sec = Some heur.
Proof.
  intros droidmon key title tag_field heur al cls al' E. unfold droidmon_table in E.
  bind_inv E has Ehas. destruct has; [| injection E as <-; now left].
  bind_inv E table Etable. bind_inv E rows Erows. bind_inv E lines Elines.
  bind_inv E fields Efields. injection E as <-. right.
  eexists. split; [reflexivity |].
  destruct (fold_add_line_keeps lines
              (set_heuristic (new_section title cls MEMORY_DUMP []) heur))
    as [T [G [S Hh]]].
  now rewrite T, G, S, Hh.
Qed.

Lemma droidmon_appends : forall droidmon network al cls network' al',
  process_droidmon droidmon network al cls = OK (network', al') ->
  exists new, al' = al ++ new.
Proof.
  intros droidmon network al cls network' al' Hrun. unfold process_droidmon in Hrun.
  bind_inv Hrun has_raw E1. bind_inv Hrun u E2. bind_inv Hrun has_conn E3.
  bind_inv Hrun net1 E4. bind_inv Hrun al1 E5. bind_inv Hrun al2 E6.
  injection Hrun as <- <-.
  apply droidmon_table_adds in E5. apply droidmon_table_adds in E6.
  destruct E5 as [-> | [s1 [-> _]]]; destruct E6 as [-> | [s2 [-> _]]].
  - exists []. now rewrite app_nil_r.
  - now exists [s2].
  - now exists [s1].
  - exists [s1; s2]. now rewrite <- app_assoc.
Qed.

End DroidmonProperties.

(** The Android part of a report adds at most two sections to the result,
    the table of SMS activity and then the table of crypto keys, and
    neither carries a tag: the tags that are computed (the hashes of the
    class names, the phone numbers, the key types) are put on a section
    that is never added to the result. *)
Theorem droidmon_tags_are_never_reported :
  forall (E : Externals) (droidmon network network' : value) (al al' : Result)
         (cls : string),
    process_droidmon droidmon network al cls = OK (network', al') ->
    exists sms crypto,
      al' = al ++ sms ++ crypto /\
      (sms = [] \/
       exists sec, sms = [sec] /\ title_text sec = "SMS Activity" /\ tags sec = []
                   /\ subsections sec = []) /\
      (crypto = [] \/
       exists sec, crypto = [sec] /\ title_text sec = "Crypto Keys" /\ tags sec = []
                   /\ subsections sec = []).
Proof.
  intros E droidmon network network' al al' cls Hrun. unfold process_droidmon in Hrun.
  bind_inv Hrun has_raw E1. bind_inv Hrun u E2. bind_inv Hrun has_conn E3.
  bind_inv Hrun net1 E4. bind_inv Hrun al1 E5. bind_inv Hrun al2 E6.
  injection Hrun as <- <-.
  apply droidmon_table_adds in E5. apply droidmon_table_adds in E6.
  destruct E5 as [-> | [s1 [-> [T1 [G1 [S1 _]]]]]];
    destruct E6 as [-> | [s2 [-> [T2 [G2 [S2 _]]]]]].
  - exists [], []. split; [now rewrite app_nil_r |]. split; now left.
  - exists [], [s2]. split; [reflexivity |]. split; [now left | right; now exists s2].
  - exists [s1], []. split; [now rewrite app_nil_r |].
    split; [right; now exists s1 | now left].
  - exists [s1], [s2]. split; [now rewrite <- app_assoc |].
    split; right; [now exists s1 | now exists s2].
Qed.

Definition sample_droidmon : value :=
  VDict [("raw", VList [VDict [("class", VStr "android.telephony.SmsManager")]]);
         ("sms", VList [VDict [("dest_number", VStr "5550100")]])].

Definition sample_droidmon_result : Result :=
  match @process_droidmon sample_externals sample_droidmon (VDict []) [] "" with
  | OK (_, r) => r
  | Raise _ => []
  end.

Lemma droidmon_tags_are_never_reported_witness :
  exists sms crypto,
    sample_droidmon_result = [] ++ sms ++ crypto /\
    (sms = [] \/
     exists sec, sms = [sec] /\ title_text sec = "SMS Activity" /\ tags sec = []
                 /\ subsections sec = []) /\
    (crypto = [] \/
     exists sec, crypto = [sec] /\ title_text sec = "Crypto Keys" /\ tags sec = []
                 /\ subsections sec = []).
Proof.
  apply (@droidmon_tags_are_never_reported sample_externals sample_droidmon (VDict [])
           (VDict []) [] sample_droidmon_result "").
  vm_compute. reflexivity.
Defined.

(* ================================================================= *)
(** ** The result only grows *)

Section ResultGrows.

Context `{Externals}.

Lemma process_debug_appends : forall debug al cls al',
  process_debug debug al cls = OK al' -> exists new, al' = al ++ new.
Proof.
  intros debug al cls al' E. unfold process_debug in E.
  bind_inv E has Ehas. destruct has.
  2: { injection E as <-. exists []. now rewrite app_nil_r. }
  bind_inv E errors E1. bind_inv E items E2.
  destruct (body_nonempty _); injection E as <-.
  - eexists. reflexivity.
  - exists []. now rewrite app_nil_r.
Qed.

Lemma process_signatures_appends : forall sigs al cls al',
  process_signatures sigs al cls = OK al' -> exists new, al' = al ++ new.
Proof.
  intros sigs al cls al' E. unfold process_signatures in E.
  bind_inv E n En. destruct (0 <? n)%nat.
  - bind_inv E items E1. bind_inv E sec E2. injection E as <-. eexists. reflexivity.
  - injection E as <-. exists []. now rewrite app_nil_r.
Qed.

Lemma process_behavior_appends : forall behavior al req cls executed al' req',
  process_behavior behavior al req cls = OK (executed, al', req') ->
  exists new, al' = al ++ new.
Proof.
  intros behavior al req cls executed al' req' E. unfold process_behavior in E.
  do 11 bind_step E.
  bind_inv E st Eloop. destruct st as [[al1 req1] rs1].
  bind_inv E n_guids En. bind_inv E rm4 Erm.
  rewrite <- (app_nil_r al) in Eloop.
  apply queries_loop_spec in Eloop; [| exact I].
  destruct Eloop as [new1 [Hal1 [Hrs1 _]]]. cbn [app] in Hal1, Hrs1. subst al1.
  bind_inv E st Eclsid. destruct st as [ex al2].
  assert (H2 : exists new2, al2 = al ++ new2 /\ res_sec_ok al new2 rs1).
  { destruct (bm_clsids rm4) as [[| c cm] |].
    - injection Eclsid as _ <-. now exists new1.
    - bind_inv Eclsid al3 Etag.
      destruct (tag_res_sec_spec _ _ _ _ _ Etag Hrs1) as [new2 [-> Hshape]].
      injection Eclsid as _ <-. unfold add_section. rewrite <- app_assoc.
      eexists. split; [reflexivity |].
      destruct rs1 as [i |]; [| exact I]. cbn in Hrs1 |- *.
      assert (Hlen : List.length new2 = List.length new1)
        by (rewrite <- (length_map shape new2), Hshape, length_map; reflexivity).
      rewrite !length_app in *. cbn [List.length]. lia.
    - injection Eclsid as _ <-. now exists new1. }
  destruct H2 as [new2 [-> Hrs2]].
  bind_inv E al3 Ereg. injection E as _ <- _.
  destruct (bm_regkeys rm4) as [[| k ks] |].
  - injection Ereg as <-. now exists new2.
  - destruct (tag_res_sec_spec _ _ _ _ _ Ereg Hrs2) as [new3 [-> _]]. now exists new3.
  - injection Ereg as <-. now exists new2.
Qed.

End ResultGrows.

Section RequestGrows.

Context `{Externals}.

(** The request [req'] is [req] with more files offered. *)
Definition offers_more (req req' : ServiceRequest) : Prop :=
  working_directory req' = working_directory req /\
  max_extracted req' = max_extracted req /\
  exists more, extracted req' = extracted req ++ more.

Lemma offers_more_refl : forall req, offers_more req req.
Proof. intros req. repeat split. exists []. now rewrite app_nil_r. Qed.

Lemma offers_more_trans : forall a b c,
  offers_more a b -> offers_more b c -> offers_more a c.
Proof.
  intros a b c [W1 [M1 [m1 X1]]] [W2 [M2 [m2 X2]]].
  split; [congruence |]. split; [congruence |].
  exists (m1 ++ m2). now rewrite X2, X1, <- app_assoc.
Qed.

Lemma dump_command_line_offers : forall req raw_ln req',
  dump_command_line req raw_ln = OK req' -> offers_more req req'.
Proof.
  intros req raw_ln req' E. unfold dump_command_line in E.
  destruct raw_ln as [| b | z | s | l | d]; try discriminate.
  unfold add_extracted in E.
  destruct (List.length (extracted req) <? max_extracted req)%nat; cbn in E.
  - injection E as <-. cbn. repeat split. eexists. reflexivity.
  - injection E as <-. apply offers_more_refl.
Qed.

Lemma process_query_offers : forall behavior cls st q st',
  process_query behavior cls st q = OK st' ->
  offers_more (snd (fst st)) (snd (fst st')).
Proof.
  intros behavior cls [[al req] rs] [[[q_name title] limit] tag_type] st' E.
  unfold process_query in E. bind_inv E q_res Eqr.
  destruct (truthy q_res); [| injection E as <-; apply offers_more_refl].
  bind_inv E x Ex. destruct x as [q_res' title'].
  bind_inv E items Ei. bind_inv E req1 Er. injection E as <-. cbn [fst snd].
  destruct (String.eqb q_name "command_line").
  - revert Er. apply for_each_invariant with (P := offers_more req).
    + intros s x s' _ Hs Ed. apply (offers_more_trans Hs).
      exact (dump_command_line_offers _ _ Ed).
    + apply offers_more_refl.
  - injection Er as <-. apply offers_more_refl.
Qed.

Lemma process_behavior_offers : forall behavior al req cls executed al' req',
  process_behavior behavior al req cls = OK (executed, al', req') ->
  offers_more req req'.
Proof.
  intros behavior al req cls executed al' req' E. unfold process_behavior in E.
  do 11 bind_step E.
  bind_inv E st Eloop. destruct st as [[al1 req1] rs1].
  bind_inv E n_guids En. bind_inv E rm4 Erm.
  bind_inv E st Eclsid. destruct st as [ex al2].
  bind_inv E al3 Ereg. injection E as _ _ <-.
  change req1 with (snd (fst (al1, req1, rs1))).
  revert Eloop.
  apply for_each_invariant
    with (P := fun st : query_state => offers_more req (snd (fst st))).
  - intros s q s' _ Hs Eqr. apply (offers_more_trans Hs).
    exact (process_query_offers _ _ _ _ Eqr).
  - apply offers_more_refl.
Qed.

End RequestGrows.

(** Whenever the normaliser returns, the sections that were in the result
    are still there, in place and unchanged, followed by the ones it added;
    the files already offered for extraction are still offered, followed by
    the command lines it dumped.  It reports a failure only for an invalid
    classification, and then it has added nothing. *)
Theorem normaliser_only_adds :
  forall (E : Externals) (api_report : value) (al al' : Result)
         (req req' : ServiceRequest) (file_ext : string) (guest_ip : value)
         (svc : string) (success : bool),
    generate_al_result api_report al req file_ext guest_ip svc
    = OK (success, al', req') ->
    (exists new, al' = al ++ new) /\
    offers_more req req' /\
    (success = false -> max_classification svc = None /\ al' = al /\ req' = req).
Proof.
  intros E api_report al al' req req' file_ext guest_ip svc success Hrun.
  unfold generate_al_result in Hrun.
  destruct (max_classification svc) as [cls |].
  2: { injection Hrun as <- <- <-. split; [exists []; now rewrite app_nil_r |].
       split; [apply offers_more_refl | now intros _]. }
  bind_inv Hrun info Einfo. bind_inv Hrun al1 E1.
  do 5 bind_step Hrun.
  bind_inv Hrun al2 E2. bind_inv Hrun st E3. destruct st as [[executed al3] req3].
  bind_inv Hrun st E4. destruct st as [network al4].
  bind_inv Hrun al5 E5. injection Hrun as <- <- <-.
  assert (H1 : exists n1, al1 = al ++ n1).
  { destruct info; try (bind_inv E1 sec Es; injection E1 as <-; eexists; reflexivity).
    injection E1 as <-. exists []. now rewrite app_nil_r. }
  assert (H2 : exists n2, al2 = al1 ++ n2).
  { destruct (truthy x2); [exact (process_debug_appends _ _ _ E2) |].
    injection E2 as <-. exists []. now rewrite app_nil_r. }
  assert (H3 : (exists n3, al3 = al2 ++ n3) /\ offers_more req req3).
  { destruct (truthy x).
    - split; [exact (process_behavior_appends _ _ _ _ E3) |].
      exact (process_behavior_offers _ _ _ _ E3).
    - injection E3 as _ <- <-. split; [| apply offers_more_refl].
      exists []. now rewrite app_nil_r. }
  assert (H4 : exists n4, al4 = al3 ++ n4).
  { destruct (truthy x1).
    - destruct (droidmon_appends _ _ _ _ E4) as [n4 Hn4]. now exists n4.
    - injection E4 as _ <-. exists []. now rewrite app_nil_r. }
  assert (H5 : exists n5, al5 = al4 ++ n5).
  { destruct executed.
    - bind_inv E5 al6 E6.
      assert (H6 : exists n6, al6 = al4 ++ n6).
      { destruct (truthy network).
        - destruct (process_network_tags _ _ _ _ E6) as [sec [-> _]]. now exists [sec].
        - injection E6 as <-. exists []. now rewrite app_nil_r. }
      destruct H6 as [n6 ->].
      destruct (truthy x3).
      + destruct (process_signatures_appends _ _ _ E5) as [n7 ->].
        exists (n6 ++ n7). now rewrite app_assoc.
      + injection E5 as <-. now exists n6.
    - injection E5 as <-. eexists. reflexivity. }
  destruct H1 as [n1 ->]. destruct H2 as [n2 ->]. destruct H3 as [[n3 ->] Hreq].
  destruct H4 as [n4 ->]. destruct H5 as [n5 ->].
  split; [exists (n1 ++ n2 ++ n3 ++ n4 ++ n5); now rewrite <- !app_assoc |].
  split; [exact Hreq | discriminate].
Qed.

Definition machine_section : ResultSection :=
  new_section "Machine Information" "" KEY_VALUE ["{...}"].

Definition failing_report : value :=
  VDict [("debug", VDict [("errors", VList [VStr "analysis hit the critical timeout"])])].

Lemma normaliser_only_adds_witness :
  (exists new,
     [machine_section; new_section "Analysis Errors" "" TEXT
                         ["analysis hit the critical timeout"]]
     = [machine_section] ++ new) /\
  offers_more sample_request sample_request /\
  (true = false ->
   @max_classification sample_externals "" = None /\
   [machine_section; new_section "Analysis Errors" "" TEXT
                       ["analysis hit the critical timeout"]]
   = [machine_section] /\
   sample_request = sample_request).
Proof.
  apply (@normaliser_only_adds sample_externals failing_report [machine_section]
           [machine_section; new_section "Analysis Errors" "" TEXT
                               ["analysis hit the critical timeout"]]
           sample_request sample_request ".exe" (VStr "") "" true).
  vm_compute. reflexivity.
Defined.

(* ================================================================= *)
(** ** The network capture *)

Section CaptureProperties.

Context `{Externals}.

(** A retry without a stop condition that rejects every exception never
    lets one through. *)
Lemma retry_forever_never_raises : forall (A : Type) (ror : A -> bool) (f : M A)
  fuel st e,
  fst (retry_forever fuel always_reject ror f st) <> Exc e.
Proof.
  intros A ror f fuel. induction fuel as [| n IH]; intros st e; cbn; [discriminate |].
  destruct (f st) as [[a | e' |] st']; cbn.
  - destruct (ror a); [apply IH | discriminate].
  - apply IH.
  - discriminate.
Qed.

(** An attempt that cannot reach the backend raises after its one request,
    and deletes nothing. *)
Lemma query_pcap_once_unreachable : forall i st rest,
  net st = ConnectionError :: rest ->
  exists e st1,
    cuckoo_query_pcap_once i st = (Exc e, st1) /\
    trace st1 = GET_pcap i :: trace st /\
    net st1 = rest /\
    file_res st1 = file_res st /\ request st1 = request st /\
    cuckoo_task st1 = cuckoo_task st.
Proof.
  intros i st rest Hnet. unfold cuckoo_query_pcap_once, bindM, http. rewrite Hnet.
  eexists _, _. split; [reflexivity |]. cbn. now repeat split.
Qed.

(** An attempt that is answered returns the capture for the status 200,
    and [None] for any other. *)
Lemma query_pcap_once_answered : forall i st code json content rest,
  net st = Response code json content :: rest ->
  exists st1,
    cuckoo_query_pcap_once i st
    = (Ret (if (code =? 200)%Z then VStr content else VNone), st1) /\
    trace st1 = GET_pcap i :: trace st /\
    net st1 = rest /\
    file_res st1 = file_res st /\ request st1 = request st /\
    cuckoo_task st1 = cuckoo_task st.
Proof.
  intros i st code json content rest Hnet.
  unfold cuckoo_query_pcap_once, bindM, http. rewrite Hnet.
  destruct (code =? 200)%Z; cbn [negb].
  - eexists. split; [reflexivity |]. cbn. now repeat split.
  - eexists. split; [reflexivity |]. cbn. now repeat split.
Qed.

Lemma query_pcap_waits : forall i k fuel st code json content rest,
  net st = repeat ConnectionError k ++ Response code json content :: rest ->
  k < fuel ->
  exists st1,
    cuckoo_query_pcap i fuel st
    = (Ret (if (code =? 200)%Z then VStr content else VNone), st1) /\
    trace st1 = repeat (GET_pcap i) (S k) ++ trace st /\
    net st1 = rest /\
    file_res st1 = file_res st /\ request st1 = request st /\
    cuckoo_task st1 = cuckoo_task st.
Proof.
  intros i k. induction k as [| k IH]; intros fuel st code json content rest Hnet Hk.
  - destruct fuel as [| n]; [lia |]. cbn [repeat app] in Hnet.
    destruct (query_pcap_once_answered i st Hnet) as [st1 [E1 Hst1]].
    exists st1. split; [| exact Hst1].
    unfold cuckoo_query_pcap. cbn [retry_forever]. rewrite E1. reflexivity.
  - destruct fuel as [| n]; [lia |]. cbn [repeat app] in Hnet.
    destruct (query_pcap_once_unreachable i st Hnet)
      as [e [s1 [E1 [T1 [N1 [F1 [R1 C1]]]]]]].
    destruct (IH n s1 code json content rest N1 ltac:(lia))
      as [st1 [E2 [T2 [N2 [F2 [R2 C2]]]]]].
    exists st1. split.
    + unfold cuckoo_query_pcap in *. cbn [retry_forever]. rewrite E1.
      cbn [always_reject]. exact E2.
    + rewrite T2, T1, N2, F2, F1, R2, R1, C2, C1. repeat split.
      change (GET_pcap i :: trace st) with ([GET_pcap i] ++ trace st).
      rewrite app_assoc, <- repeat_cons. reflexivity.
Qed.

End CaptureProperties.

(** The fetch of the network capture has no stop condition: it never raises,
    whatever the backend does.  When the backend cannot be reached [k] times
    and then answers, the fetch asks [k + 1] times and returns the capture
    for the status 200, and [None] for any other status. *)
Theorem capture_fetch_never_raises :
  forall (E : Externals) (i : value) (fuel : nat) (st : state),
    (forall e, fst (cuckoo_query_pcap i fuel st) <> Exc e) /\
    (forall k code json content rest,
       net st = repeat ConnectionError k ++ Response code json content :: rest ->
       k < fuel ->
       fst (cuckoo_query_pcap i fuel st)
       = Ret (if (code =? 200)%Z then VStr content else VNone) /\
       trace (snd (cuckoo_query_pcap i fuel st)) = repeat (GET_pcap i) (S k) ++ trace st /\
       net (snd (cuckoo_query_pcap i fuel st)) = rest).
Proof.
  intros E i fuel st. split.
  - intros e. unfold cuckoo_query_pcap. apply retry_forever_never_raises.
  - intros k code json content rest Hnet Hk.
    destruct (@query_pcap_waits _ i k fuel st code json content rest Hnet Hk)
      as [st1 [E1 [T1 [N1 _]]]].
    rewrite E1. cbn [fst snd]. now repeat split.
Qed.

(** The capture is asked for only when the result holds a section titled
    "Network Activity".  When it does and the backend answers 200 with a
    capture that is not empty, the capture is offered for extraction as
    [cuckoo_traffic.pcap] if the limit of extracted files allows it;
    otherwise the request stays as it was, and no error is raised. *)
Theorem capture_offered_within_limit :
  forall (E : Externals) (i : value) (fuel : nat) (st : state),
    (has_section "Network Activity" (file_res st) = false ->
     check_pcap i fuel st = (Ret tt, st)) /\
    (forall json content rest,
       has_section "Network Activity" (file_res st) = true ->
       net st = Response 200 json content :: rest ->
       content <> ""%string ->
       0 < fuel ->
       fst (check_pcap i fuel st) = Ret tt /\
       trace (snd (check_pcap i fuel st)) = GET_pcap i :: trace st /\
       file_res (snd (check_pcap i fuel st)) = file_res st /\
       working_directory (request (snd (check_pcap i fuel st)))
       = working_directory (request st) /\
       extracted (request (snd (check_pcap i fuel st)))
       = if (List.length (extracted (request st)) <? max_extracted (request st))%nat
         then extracted (request st)
              ++ [(path_join (working_directory (request st)) "cuckoo_traffic.pcap",
                   "cuckoo_traffic.pcap", "PCAP from Cuckoo analysis")]
         else extracted (request st)).
Proof.
  intros E i fuel st. split.
  - intros Hno. unfold check_pcap, bindM, get_state. now rewrite Hno.
  - intros json content rest Hhas Hnet Hcontent Hfuel.
    destruct (@query_pcap_waits _ i 0 fuel st 200%Z json content rest Hnet Hfuel)
      as [st1 [E1 [T1 [N1 [F1 [R1 C1]]]]]].
    cbn [Z.eqb Pos.eqb] in E1.
    assert (Hrun : exists st2,
               check_pcap i fuel st = (Ret tt, st2) /\
               trace st2 = trace st1 /\ file_res st2 = file_res st1 /\
               working_directory (request st2) = working_directory (request st1) /\
               extracted (request st2)
               = if (List.length (extracted (request st1)) <? max_extracted (request st1))%nat
                 then extracted (request st1)
                      ++ [(path_join (working_directory (request st1))
                                     "cuckoo_traffic.pcap",
                           "cuckoo_traffic.pcap", "PCAP from Cuckoo analysis")]
                 else extracted (request st1)).
    { unfold check_pcap, bindM, get_state. rewrite Hhas. cbn [negb]. rewrite E1.
      assert (Ht : truthy (VStr content) = true)
        by (destruct content; [contradiction | reflexivity]).
      rewrite Ht. unfold add_extracted.
      destruct (List.length (extracted (request st1)) <? max_extracted (request st1))%nat.
      - eexists. split; [reflexivity |]. cbn. now repeat split.
      - eexists. split; [reflexivity |]. cbn. now repeat split. }
    destruct Hrun as [st2 [E2 [T2 [F2 [W2 X2]]]]].
    rewrite E2. cbn [fst snd]. rewrite T2, T1, F2, F1, W2, X2, R1. now repeat split.
Qed.

Definition network_found : Result :=
  [new_section "Network Activity" "" MEMORY_DUMP []].

Definition capture_state (answers : list http_result) : state :=
  mkState (Some running_job) VNone answers [] [] network_found sample_request [].

Lemma capture_offered_within_limit_witness :
  (has_section "Network Activity" (file_res (idle_state [])) = false ->
   @check_pcap sample_externals (VInt 7) 3 (idle_state []) = (Ret tt, idle_state [])) /\
  fst (@check_pcap sample_externals (VInt 7) 3
         (capture_state [Response 200 None "pcap"])) = Ret tt /\
  extracted (request (snd (@check_pcap sample_externals (VInt 7) 3
                             (capture_state [Response 200 None "pcap"]))))
  = [("/tmp/work/cuckoo_traffic.pcap", "cuckoo_traffic.pcap",
      "PCAP from Cuckoo analysis")].
Proof.
  split.
  - exact (proj1 (@capture_offered_within_limit sample_externals (VInt 7) 3
                    (idle_state []))).
  - destruct (proj2 (@capture_offered_within_limit sample_externals (VInt 7) 3
                       (capture_state [Response 200 None "pcap"]))
                    None "pcap" [] eq_refl eq_refl ltac:(discriminate) ltac:(lia))
      as [H1 [_ [_ [_ H5]]]].
    split; [exact H1 | exact H5].
Defined.

Lemma capture_fetch_never_raises_witness :
  fst (@cuckoo_query_pcap sample_externals (VInt 7) 3
         (idle_state [ConnectionError; ConnectionError; Response 200 None "pcap"]))
  = Ret (VStr "pcap") /\
  trace (snd (@cuckoo_query_pcap sample_externals (VInt 7) 3
                (idle_state [ConnectionError; ConnectionError; Response 200 None "pcap"])))
  = [GET_pcap (VInt 7); GET_pcap (VInt 7); GET_pcap (VInt 7)] /\
  net (snd (@cuckoo_query_pcap sample_externals (VInt 7) 3
              (idle_state [ConnectionError; ConnectionError; Response 200 None "pcap"])))
  = [].
Proof.
  exact (proj2 (@capture_fetch_never_raises sample_externals (VInt 7) 3
                  (idle_state [ConnectionError; ConnectionError;
                               Response 200 None "pcap"]))
               2 200%Z None "pcap" [] eq_refl ltac:(lia)).
Defined.

(* ================================================================= *)
(** ** The machine of the analysis *)

(** Looking up the machine of the analysis asks the backend nothing and
    never raises.  Either it returns [None] and leaves the result as it
    was, or it returns the address of the machine as text and has appended
    one section, titled "Machine Information", to the result. *)
Theorem machine_lookup_never_raises :
  forall (E : Externals) (machine_name : value) (st : state),
    exists (v : value) (st' : state),
      report_machine_info machine_name st = (Ret v, st') /\
      trace st' = trace st /\ net st' = net st /\ request st' = request st /\
      cuckoo_task st' = cuckoo_task st /\
      ((v = VNone /\ file_res st' = file_res st) \/
       (exists ip sec,
          v = VStr ip /\ file_res st' = file_res st ++ [sec] /\
          title_text sec = "Machine Information" /\ tags sec = [])).
Proof.
  intros E machine_name st. unfold report_machine_info, bindM, get_state.
  match goal with
  | |- context [match ?found with OK _ => _ | Raise _ => _ end] =>
      destruct found as [[machine_section ip] |] eqn:Efound
  end.
  - eexists _, _. split; [reflexivity |]. cbn. repeat split. right.
    repeat bind_step Efound.
    match type of Efound with
    | match ?o with Some _ => _ | None => _ end = _ =>
        destruct o as [machine |]; [| discriminate]
    end.
    repeat bind_step Efound. injection Efound as <- <-.
    eexists _, _. split; [reflexivity |]. split; [reflexivity |]. now split.
  - eexists _, _. split; [reflexivity |]. cbn. repeat split. now left.
Qed.

(* ================================================================= *)
(** ** What a finished poll leaves in the task *)

Section PollReportProperties.

Context `{Externals}.
Variable cfg : dict.

Lemma retry_forever_ret : forall (A : Type) (roe : exn -> bool) (ror : A -> bool)
  (f : M A) fuel st a st',
  retry_forever fuel roe ror f st = (Ret a, st') ->
  ror a = false /\ exists st1, f st1 = (Ret a, st').
Proof.
  intros A roe ror f fuel. induction fuel as [| n IH]; intros st a st' E.
  - discriminate.
  - cbn in E. destruct (f st) as [[x | e |] s1] eqn:Ef; try discriminate.
    + destruct (ror x) eqn:Er; [exact (IH _ _ _ E) |].
      injection E as <- <-. split; [assumption | now exists st].
    + destruct (roe e); [exact (IH _ _ _ E) | discriminate].
Qed.

Lemma try_except_ret : forall (A : Type) (m : M A) (h : exn -> M A) st a st',
  try_except m h st = (Ret a, st') ->
  m st = (Ret a, st') \/ exists e s1, m st = (Exc e, s1) /\ h e s1 = (Ret a, st').
Proof.
  intros A m h st a st' E. unfold try_except in E.
  destruct (m st) as [[x | e |] s1]; try discriminate.
  - now left.
  - right. now exists e, s1.
Qed.

(** The task holds a report that is a dictionary and is not empty. *)
Definition holds_report (st : state) : Prop :=
  exists t, cuckoo_task st = Some t /\
            truthy (task_report t) = true /\ is_dict (task_report t) = true.

Lemma poll_report_once_reported : forall st st',
  cuckoo_poll_report_once cfg st = (Ret (VStr "reported"), st') -> holds_report st'.
Proof.
  intros st st' E. unfold cuckoo_poll_report_once in E.
  apply bindM_ret in E. destruct E as [t [s1 [_ E]]].
  apply bindM_ret in E. destruct E as [task_info [s2 [_ E]]].
  destruct (_retry_on_none task_info || py_eqb task_info (VDict [])).
  { apply ret_ret in E. destruct E as [E _]. discriminate. }
  apply bindM_ret in E. destruct E as [t' [s3 [_ E]]].
  apply bindM_ret in E. destruct E as [info_id [s4 [_ E]]].
  destruct (negb (py_eqb info_id (task_id t'))).
  { apply bindM_ret in E. destruct E as [u [s5 [_ E]]].
    apply ret_ret in E. destruct E as [E _]. discriminate. }
  apply bindM_ret in E. destruct E as [status [s5 [_ E]]].
  apply bindM_ret in E. destruct E as [failed [s6 [Efail E]]].
  apply lift_ret in Efail. destruct Efail as [Efail _].
  destruct failed.
  { apply bindM_ret in E. destruct E as [u [s7 [_ E]]].
    apply bindM_ret in E. destruct E as [more [s8 [_ E]]].
    apply bindM_ret in E. destruct E as [errors [s9 [_ E]]].
    apply bindM_ret in E. destruct E as [u' [s10 [_ E]]].
    apply ret_ret in E. destruct E as [E _]. subst status.
    vm_compute in Efail. discriminate. }
  destruct (py_eqb status (VStr "completed")).
  { apply bindM_ret in E. destruct E as [u [s7 [_ E]]].
    apply ret_ret in E. destruct E as [E _]. discriminate. }
  destruct (py_eqb status (VStr "reported")).
  2: { apply bindM_ret in E. destruct E as [d [s7 [_ E]]].
       apply bindM_ret in E. destruct E as [u [s8 [_ E]]].
       apply ret_ret in E. destruct E as [E _]. discriminate. }
  apply bindM_ret in E. destruct E as [u [s7 [_ E]]].
  apply try_except_ret in E. destruct E as [E | [e [s8 [_ E]]]].
  - apply bindM_ret in E. destruct E as [report [s8 [_ E]]].
    apply bindM_ret in E. destruct E as [t2 [s9 [_ E]]].
    apply bindM_ret in E. destruct E as [u2 [s10 [Eset E]]].
    destruct (truthy report && is_dict report) eqn:Hrep.
    + apply ret_ret in E. destruct E as [_ ->].
      injection Eset as _ <-. exists (set_task_report report t2).
      apply andb_true_iff in Hrep. cbn. now repeat split.
    + apply ret_ret in E. destruct E as [E _]. discriminate.
  - destruct e; discriminate.
Qed.

End PollReportProperties.

(** When the poll for the report returns "reported", the task holds a
    report, and the report is a dictionary that is not empty: what the
    normaliser goes on to read was fetched and decoded. *)
Theorem reported_task_holds_report :
  forall (E : Externals) (cfg : dict) (fuel : nat) (st st' : state),
    cuckoo_poll_report cfg fuel st = (Ret (VStr "reported"), st') ->
    exists t d,
      cuckoo_task st' = Some t /\ task_report t = VDict d /\ d <> [].
Proof.
  intros E cfg fuel st st' Hrun. unfold cuckoo_poll_report in Hrun.
  apply retry_forever_ret in Hrun. destruct Hrun as [_ [s1 Honce]].
  destruct (poll_report_once_reported _ _ Honce) as [t [Ht [Htruthy Hdict]]].
  destruct (task_report t) as [| b | z | s | l | d] eqn:Hr; try discriminate.
  exists t, d. split; [assumption |]. split; [exact Hr |]. intros ->. discriminate.
Qed.

Definition reported_run : outcome value * state :=
  @cuckoo_poll_report sample_externals [("recursion_limit", VInt 10000)] 3
    (job_facing running_job
       [ok_json (VDict [("task", VDict [("id", VInt 7); ("status", VStr "reported")])]);
        ok_json (VDict [("info", VDict [("id", VInt 7)])])]).

Lemma reported_task_holds_report_witness :
  exists t d,
    cuckoo_task (snd reported_run) = Some t /\ task_report t = VDict d /\ d <> [].
Proof.
  apply (@reported_task_holds_report sample_externals [("recursion_limit", VInt 10000)] 3
           (job_facing running_job
              [ok_json (VDict [("task", VDict [("id", VInt 7);
                                               ("status", VStr "reported")])]);
               ok_json (VDict [("info", VDict [("id", VInt 7)])])])
           (snd reported_run)).
  vm_compute. reflexivity.
Defined.
